(** * tinker_access_client: the access state machine of [Client.py]

    A shallow embedding of [tinker_access_client/Client.py]: the [Client]
    object, the device it drives and the clock are one explicit [World];
    every method of [Client] is a computation over that world.  Loops that
    the source bounds only by what the hardware does ([__wait_for_power_down])
    take a fuel argument and answer [Starved] when it runs out. *)

From Stdlib Require Import ZArith List String Ascii Bool Lia DecimalString.
Import ListNotations.

Local Open Scope Z_scope.

(** ** Constants of the module *)

Definition maximum_lcd_characters : Z := 16.
Definition training_mode_delay_seconds : Z := 2.
Definition logout_timer_interval_seconds : Z := 1.

(** ** States and triggers *)

Module State.
Inductive t : Type :=
| INITIALIZED | IDLE | IN_USE | UNLOCKED | IN_TRAINING | ESTOP | BYPASSED | TERMINATED.

Definition eqb (a b : t) : bool :=
  match a, b with
  | INITIALIZED, INITIALIZED | IDLE, IDLE | IN_USE, IN_USE | UNLOCKED, UNLOCKED
  | IN_TRAINING, IN_TRAINING | ESTOP, ESTOP | BYPASSED, BYPASSED
  | TERMINATED, TERMINATED => true
  | _, _ => false
  end.

(** Modelled from the spec: [State.py] is not under src/.  The values are the
    lowercase mode names, the ones the [on_enter_<state>] methods of [Client]
    are bound by. *)
Definition name (s : t) : string :=
  match s with
  | INITIALIZED => "initialized"
  | IDLE => "idle"
  | IN_USE => "in_use"
  | UNLOCKED => "unlocked"
  | IN_TRAINING => "in_training"
  | ESTOP => "estop"
  | BYPASSED => "bypassed"
  | TERMINATED => "terminated"
  end.

Definition all : list t :=
  [INITIALIZED; IDLE; IN_USE; UNLOCKED; IN_TRAINING; ESTOP; BYPASSED; TERMINATED].
End State.

Module Trigger.
Inductive t : Type :=
| IDLE | ESTOP | BYPASS | UNLOCK | LOGIN | LOGOUT | TERMINATE.

Definition eqb (a b : t) : bool :=
  match a, b with
  | IDLE, IDLE | ESTOP, ESTOP | BYPASS, BYPASS | UNLOCK, UNLOCK
  | LOGIN, LOGIN | LOGOUT, LOGOUT | TERMINATE, TERMINATE => true
  | _, _ => false
  end.
End Trigger.

(** ** Configuration, user context, device *)

(** The pins of [ClientOption]: a pin is identified by the option that names
    it, so two options never name the same pin. *)
Inductive Pin : Type :=
| PIN_POWER_RELAY | PIN_CURRENT_SENSE | PIN_LOGOUT | PIN_ESTOP
| PIN_BYPASS_DETECT | PIN_LED_RED | PIN_ALARM.

(** The options [Client] reads.  Times are whole seconds, as configured;
    [MAX_POWER_DOWN_TIMEOUT = None] is the unset option. *)
Record Opts : Type := {
  USE_ESTOP : bool;
  ESTOP_ACTIVE_HI : bool;
  USE_BYPASS_DETECT : bool;
  USE_ALARM : bool;
  IS_A_DOOR : bool;
  DOOR_CONTINUOUS_UNLOCK : bool;
  DOOR_NORMAL_HR_START : Z;
  DOOR_NORMAL_HR_END : Z;
  DISABLE_TRAINING_MODE : bool;
  ALLOW_USER_OVERRIDE : bool;
  MAX_POWER_DOWN_TIMEOUT : option Z;
  LOGOUT_COAST_TIME : N
}.

(** [remaining_extensions] is a number or [float('inf')]. *)
Inductive Extensions : Type :=
| Finite (n : Z)
| Unbounded.

(** The dictionary the server's login returns, kept in [__user_info]. *)
Record UserInfo : Type := {
  badge_code : string;
  user_id : string;
  user_name : string;
  session_seconds : Z;
  remaining_seconds : Z;
  remaining_extensions : Extensions
}.

Definition set_remaining_seconds (v : Z) (u : UserInfo) : UserInfo :=
  {| badge_code := badge_code u; user_id := user_id u; user_name := user_name u;
     session_seconds := session_seconds u; remaining_seconds := v;
     remaining_extensions := remaining_extensions u |}.

Definition set_remaining_extensions (v : Extensions) (u : UserInfo) : UserInfo :=
  {| badge_code := badge_code u; user_id := user_id u; user_name := user_name u;
     session_seconds := session_seconds u; remaining_seconds := remaining_seconds u;
     remaining_extensions := v |}.

(** [**kwargs] of a trigger: the value of ['badge_code'], [None] when absent. *)
Definition Kwargs : Type := option string.

(** A local time of day, as [datetime.time] holds it. *)
Record TimeOfDay : Type := {
  hour : Z;
  minute : Z;
  second : Z;
  microsecond : Z
}.

(** Modelled from the spec: [TinkerAccessServerApi.py] and the two exception
    classes are not under src/.  [login] answers with a user context or fails
    with one of the kinds {unauthorized, transport-error}; [register_user]
    succeeds or fails with {registration-rejected, transport-error}. *)
Inductive LoginResult : Type :=
| LoginOk (info : UserInfo)
| LoginUnauthorized
| LoginError.

Inductive RegisterResult : Type :=
| RegisterOk
| RegisterRejected
| RegisterError.

(** What the controller cannot decide: input pins, wall clock and server, each
    a function of the instant (milliseconds on the controller's clock). *)
Record Env : Type := {
  pin_input : Pin -> Z -> bool;
  wall_clock : Z -> TimeOfDay;
  server_login : Kwargs -> Z -> LoginResult;
  server_register : string -> string -> Kwargs -> Z -> RegisterResult
}.

(** One write of [DeviceApi.write]. *)
Inductive DeviceWrite : Type :=
| WritePin (pin : Pin) (level : bool)
| WriteLED (r g b : bool)
| WriteLCD (line1 : string) (line2 : option string).

(** The [Client] object, the device outputs, the clock and the status file.
    [writes] is the history of device writes, newest first; [server_logouts]
    the badge codes of the logout notifications that were fired. *)
Record World : Type := {
  state : State.t;
  user_info : option UserInfo;
  logout_timer : option nat;
  relock_timer : option nat;
  timer_seq : nat;
  cancelled : list nat;
  queue : list (Trigger.t * Kwargs);
  relay : bool;
  alarm : bool;
  led : bool * bool * bool;
  writes : list DeviceWrite;
  clock : Z;
  status_file : string;
  server_logouts : list string
}.

Definition with_state (v : State.t) (w : World) : World :=
  {| state := v; user_info := user_info w; logout_timer := logout_timer w;
     relock_timer := relock_timer w; timer_seq := timer_seq w;
     cancelled := cancelled w; queue := queue w; relay := relay w;
     alarm := alarm w; led := led w; writes := writes w; clock := clock w;
     status_file := status_file w; server_logouts := server_logouts w |}.

Definition with_user_info (v : option UserInfo) (w : World) : World :=
  {| state := state w; user_info := v; logout_timer := logout_timer w;
     relock_timer := relock_timer w; timer_seq := timer_seq w;
     cancelled := cancelled w; queue := queue w; relay := relay w;
     alarm := alarm w; led := led w; writes := writes w; clock := clock w;
     status_file := status_file w; server_logouts := server_logouts w |}.

Definition with_logout_timer (v : option nat) (w : World) : World :=
  {| state := state w; user_info := user_info w; logout_timer := v;
     relock_timer := relock_timer w; timer_seq := timer_seq w;
     cancelled := cancelled w; queue := queue w; relay := relay w;
     alarm := alarm w; led := led w; writes := writes w; clock := clock w;
     status_file := status_file w; server_logouts := server_logouts w |}.

Definition with_relock_timer (v : option nat) (w : World) : World :=
  {| state := state w; user_info := user_info w; logout_timer := logout_timer w;
     relock_timer := v; timer_seq := timer_seq w;
     cancelled := cancelled w; queue := queue w; relay := relay w;
     alarm := alarm w; led := led w; writes := writes w; clock := clock w;
     status_file := status_file w; server_logouts := server_logouts w |}.

Definition with_timer_seq (v : nat) (w : World) : World :=
  {| state := state w; user_info := user_info w; logout_timer := logout_timer w;
     relock_timer := relock_timer w; timer_seq := v;
     cancelled := cancelled w; queue := queue w; relay := relay w;
     alarm := alarm w; led := led w; writes := writes w; clock := clock w;
     status_file := status_file w; server_logouts := server_logouts w |}.

Definition with_cancelled (v : list nat) (w : World) : World :=
  {| state := state w; user_info := user_info w; logout_timer := logout_timer w;
     relock_timer := relock_timer w; timer_seq := timer_seq w;
     cancelled := v; queue := queue w; relay := relay w;
     alarm := alarm w; led := led w; writes := writes w; clock := clock w;
     status_file := status_file w; server_logouts := server_logouts w |}.

Definition with_queue (v : list (Trigger.t * Kwargs)) (w : World) : World :=
  {| state := state w; user_info := user_info w; logout_timer := logout_timer w;
     relock_timer := relock_timer w; timer_seq := timer_seq w;
     cancelled := cancelled w; queue := v; relay := relay w;
     alarm := alarm w; led := led w; writes := writes w; clock := clock w;
     status_file := status_file w; server_logouts := server_logouts w |}.

Definition with_relay (v : bool) (w : World) : World :=
  {| state := state w; user_info := user_info w; logout_timer := logout_timer w;
     relock_timer := relock_timer w; timer_seq := timer_seq w;
     cancelled := cancelled w; queue := queue w; relay := v;
     alarm := alarm w; led := led w; writes := writes w; clock := clock w;
     status_file := status_file w; server_logouts := server_logouts w |}.

Definition with_alarm (v : bool) (w : World) : World :=
  {| state := state w; user_info := user_info w; logout_timer := logout_timer w;
     relock_timer := relock_timer w; timer_seq := timer_seq w;
     cancelled := cancelled w; queue := queue w; relay := relay w;
     alarm := v; led := led w; writes := writes w; clock := clock w;
     status_file := status_file w; server_logouts := server_logouts w |}.

Definition with_led (v : bool * bool * bool) (w : World) : World :=
  {| state := state w; user_info := user_info w; logout_timer := logout_timer w;
     relock_timer := relock_timer w; timer_seq := timer_seq w;
     cancelled := cancelled w; queue := queue w; relay := relay w;
     alarm := alarm w; led := v; writes := writes w; clock := clock w;
     status_file := status_file w; server_logouts := server_logouts w |}.

Definition with_writes (v : list DeviceWrite) (w : World) : World :=
  {| state := state w; user_info := user_info w; logout_timer := logout_timer w;
     relock_timer := relock_timer w; timer_seq := timer_seq w;
     cancelled := cancelled w; queue := queue w; relay := relay w;
     alarm := alarm w; led := led w; writes := v; clock := clock w;
     status_file := status_file w; server_logouts := server_logouts w |}.

Definition with_clock (v : Z) (w : World) : World :=
  {| state := state w; user_info := user_info w; logout_timer := logout_timer w;
     relock_timer := relock_timer w; timer_seq := timer_seq w;
     cancelled := cancelled w; queue := queue w; relay := relay w;
     alarm := alarm w; led := led w; writes := writes w; clock := v;
     status_file := status_file w; server_logouts := server_logouts w |}.

Definition with_status_file (v : string) (w : World) : World :=
  {| state := state w; user_info := user_info w; logout_timer := logout_timer w;
     relock_timer := relock_timer w; timer_seq := timer_seq w;
     cancelled := cancelled w; queue := queue w; relay := relay w;
     alarm := alarm w; led := led w; writes := writes w; clock := clock w;
     status_file := v; server_logouts := server_logouts w |}.

Definition with_server_logouts (v : list string) (w : World) : World :=
  {| state := state w; user_info := user_info w; logout_timer := logout_timer w;
     relock_timer := relock_timer w; timer_seq := timer_seq w;
     cancelled := cancelled w; queue := queue w; relay := relay w;
     alarm := alarm w; led := led w; writes := writes w; clock := clock w;
     status_file := status_file w; server_logouts := v |}.

(** ** Computations over the world *)

(** A method either returns, raises, or is still running when the fuel of a
    loop is spent. *)
Inductive outcome (A : Type) : Type :=
| Done (a : A) (w : World)
| Raised (e : string)
| Starved.
Arguments Done {A} a w.
Arguments Raised {A} e.
Arguments Starved {A}.

Definition M (A : Type) : Type := World -> outcome A.

Definition ret {A : Type} (a : A) : M A := fun w => Done a w.

Definition bind {A B : Type} (m : M A) (k : A -> M B) : M B :=
  fun w =>
    match m w with
    | Done a w' => k a w'
    | Raised e => Raised e
    | Starved => Starved
    end.

Definition get : M World := fun w => Done w w.
Definition modify (f : World -> World) : M unit := fun w => Done tt (f w).
Definition raise {A : Type} (e : string) : M A := fun _ => Raised e.
Definition starve {A : Type} : M A := fun _ => Starved.

Declare Scope client_scope.
Delimit Scope client_scope with client.
Notation "x <- m ;; k" := (bind m (fun x => k))
  (at level 100, m at next level, right associativity) : client_scope.
Notation "m ;; k" := (bind m (fun _ => k))
  (at level 100, right associativity) : client_scope.
Local Open Scope client_scope.

(** ** Strings of the display *)

Fixpoint fill_string (c : ascii) (n : nat) : string :=
  match n with
  | O => EmptyString
  | S k => String c (fill_string c k)
  end.

(** Python's [str.center(width, fillchar)]. *)
Definition center (s : string) (width : Z) (fillchar : ascii) : string :=
  let marg := width - Z.of_nat (String.length s) in
  if marg <=? 0 then s
  else
    let left := marg / 2 + Z.land (Z.land marg width) 1 in
    String.append (fill_string fillchar (Z.to_nat left))
      (String.append s (fill_string fillchar (Z.to_nat (marg - left)))).

Definition lcd_line (s : string) : string :=
  center s maximum_lcd_characters " "%char.

(** Python's ['{:02d}'.format(n)]. *)
Definition format_02d (n : Z) : string :=
  let digits := NilZero.string_of_int (Z.to_int n) in
  if (0 <=? n) && (n <? 10) then String "0"%char digits else digits.

(** ** The client *)

Section Client.

Variable opts : Opts.
Variable env : Env.

(** *** Device and clock

    Modelled from the spec: [DeviceApi.py] is not under src/.  [read(PIN, p)]
    of a pin the controller drives (relay, alarm, red LED) gives back the level
    last written; of an input pin, the level the hardware presents at that
    instant.  [time.sleep] is the only thing that lets the clock advance
    inside a method; its argument is in milliseconds here. *)

Definition pin_level (w : World) (pin : Pin) : bool :=
  match pin with
  | PIN_POWER_RELAY => relay w
  | PIN_ALARM => alarm w
  | PIN_LED_RED => fst (fst (led w))
  | _ => pin_input env pin (clock w)
  end.

Definition log_write (d : DeviceWrite) (w : World) : World :=
  with_writes (d :: writes w) w.

Definition drive_pin (pin : Pin) (level : bool) (w : World) : World :=
  match pin with
  | PIN_POWER_RELAY => with_relay level w
  | PIN_ALARM => with_alarm level w
  | PIN_LED_RED => with_led (level, snd (fst (led w)), snd (led w)) w
  | _ => w
  end.

Definition device_read_pin (pin : Pin) : M bool :=
  w <- get ;; ret (pin_level w pin).

Definition device_write_pin (pin : Pin) (level : bool) : M unit :=
  modify (fun w => log_write (WritePin pin level) (drive_pin pin level w)).

Definition device_write_led (r g b : bool) : M unit :=
  modify (fun w => log_write (WriteLED r g b) (with_led (r, g, b) w)).

Definition device_write_lcd (line1 : string) (line2 : option string) : M unit :=
  modify (log_write (WriteLCD line1 line2)).

Definition time_time : M Z :=
  w <- get ;; ret (clock w).

Definition time_sleep (ms : Z) : M unit :=
  modify (fun w => with_clock (clock w + ms) w).

Definition lcd_write2 (line1 line2 : string) : M unit :=
  device_write_lcd (lcd_line line1) (Some (lcd_line line2)).

Definition lcd_write1 (line1 : string) : M unit :=
  device_write_lcd (lcd_line line1) None.

(** *** Display, LED and alarm *)

Definition __set_alarm_output (level : bool) : M unit :=
  if USE_ALARM opts then device_write_pin PIN_ALARM level else ret tt.

Definition __show_red_led : M unit :=
  device_write_led true false false ;;
  __set_alarm_output true.

Definition __show_yellow_led : M unit :=
  device_write_led true true false ;;
  __set_alarm_output false.

Definition __show_blue_led : M unit :=
  device_write_led false false true ;;
  __set_alarm_output false.

Definition __show_green_led : M unit :=
  device_write_led false true false ;;
  __set_alarm_output false.

Definition __show_magenta_led : M unit :=
  device_write_led true false true ;;
  __set_alarm_output false.

Definition __show_estop_activated : M unit :=
  lcd_write2 "E-STOP ACTIVATED" "RESET THE SWITCH".

Definition __show_bypassed : M unit :=
  lcd_write2 "TINKERACCESS" "IS BYPASSED".

Definition __show_attempting_login (delay : Z) : M unit :=
  lcd_write2 "ATTEMPTING" "LOGIN..." ;;
  time_sleep (1000 * delay).

Definition __show_access_denied (delay : Z) : M unit :=
  lcd_write2 "ACCESS DENIED" "TAKE THE CLASS" ;;
  time_sleep (1000 * delay).

Definition __show_scan_badge : M unit :=
  lcd_write2 "SCAN BADGE" "TO LOGIN".

Definition __show_unlocked : M unit :=
  lcd_write2 "TINKERACCESS" "IS UNLOCKED".

Definition __show_access_granted (delay : Z) : M unit :=
  lcd_write1 "ACCESS GRANTED" ;;
  time_sleep (1000 * delay).

Definition __show_training_mode_activated (delay : Z) : M unit :=
  lcd_write2 "TRAINING MODE" "ACTIVATED..." ;;
  time_sleep (1000 * delay).

Definition __show_scan_trainer_badge : M unit :=
  lcd_write2 "SCAN" "TRAINER BADGE...".

Definition __show_trainer_accepted (delay : Z) : M unit :=
  lcd_write2 "TRAINER" "ACCEPTED..." ;;
  time_sleep (1000 * delay).

Definition __show_scan_student_badge (delay : Z) : M unit :=
  lcd_write2 "SCAN" "STUDENT BADGE..." ;;
  time_sleep (1000 * delay).

Definition __show_attempting_registration (delay : Z) : M unit :=
  lcd_write2 "ATTEMPTING" "REGISTRATION..." ;;
  time_sleep (1000 * delay).

Definition __show_student_registered (delay : Z) : M unit :=
  lcd_write2 "STUDENT" "REGISTERED..." ;;
  time_sleep (1000 * delay).

Definition __show_registration_failed (delay : Z) : M unit :=
  lcd_write2 "REGISTRATION" "FAILED..." ;;
  time_sleep (1000 * delay).

Definition __show_invalid_user (delay : Z) : M unit :=
  lcd_write2 "INVALID" "USER..." ;;
  time_sleep (1000 * delay).

Definition __show_disabling_power (delay : Z) : M unit :=
  lcd_write2 "DISABLING" "POWER..." ;;
  time_sleep (1000 * delay).

Definition __show_waiting_for_power_down (delay : Z) : M unit :=
  lcd_write2 "WAITING FOR ..." "MACHINE TO STOP" ;;
  time_sleep (1000 * delay).

Definition __show_coasting_down (delay : Z) : M unit :=
  lcd_write2 "COASTING" "DOWN..." ;;
  time_sleep (1000 * delay).

Definition __show_error_occurred (delay : Z) : M unit :=
  lcd_write2 "THERE WAS AN" "UNEXPECTED ERROR" ;;
  time_sleep (1000 * delay).

Definition __show_please_try_again (delay : Z) : M unit :=
  lcd_write2 "PLEASE" "TRY AGAIN..." ;;
  time_sleep (1000 * delay).

Definition __handle_unauthorized_access_exception : M unit :=
  __show_red_led ;;
  __show_access_denied 2.

Definition __handle_unexpected_exception : M unit :=
  __show_red_led ;;
  __show_error_occurred 2 ;;
  __show_please_try_again 2.

Definition __handle_user_registration_exception : M unit :=
  __show_red_led ;;
  __show_registration_failed 2.

Definition __toggle_red_led : M unit :=
  red_led_status <- device_read_pin PIN_LED_RED ;;
  device_write_led (negb red_led_status) false false ;;
  __set_alarm_output true.

(** [self.__user_info.get(...)] when [__user_info] is [None]. *)
Definition the_user_info : M UserInfo :=
  w <- get ;;
  match user_info w with
  | Some u => ret u
  | None => raise "AttributeError"
  end.

Definition __show_remaining_time : M unit :=
  u <- the_user_info ;;
  let remaining_seconds := remaining_seconds u in
  (if remaining_seconds <? 300 then __toggle_red_led else ret tt) ;;
  let m := remaining_seconds / 60 in
  let s := remaining_seconds mod 60 in
  let h := m / 60 in
  let m := m mod 60 in
  device_write_lcd (lcd_line (user_name u))
    (Some (lcd_line (String.append (format_02d h)
       (String ":"%char (String.append (format_02d m)
          (String ":"%char (format_02d s))))))).

Definition __show_session_extended (delay : Z) : M unit :=
  lcd_write1 "SESSION EXTENDED" ;;
  time_sleep (1000 * delay) ;;
  __show_remaining_time.

Definition __show_no_extensions_remaining (delay : Z) : M unit :=
  lcd_write2 "NO EXTENSIONS" "REMAINING..." ;;
  time_sleep (1000 * delay) ;;
  __show_remaining_time.

(** *** User context and timers

    A timer handle is the number it was created under; [cancelled] collects
    the handles whose [cancel()] was called.  The lock around the logout timer
    orders threads only and has no counterpart here. *)

Definition __update_user_context (info : option UserInfo) : M unit :=
  modify (with_user_info info).

Definition __cancel_logout_timer (refresh : bool) : M unit :=
  w <- get ;;
  match logout_timer w with
  | Some h => modify (with_cancelled (h :: cancelled w))
  | None => ret tt
  end ;;
  modify (with_logout_timer None).

Definition __cancel_relock_timer : M unit :=
  w <- get ;;
  match relock_timer w with
  | Some h => modify (with_cancelled (h :: cancelled w))
  | None => ret tt
  end ;;
  modify (with_relock_timer None).

Definition new_timer : M nat :=
  w <- get ;;
  modify (with_timer_seq (S (timer_seq w))) ;;
  ret (timer_seq w).

Definition __start_logout_timer (refresh : bool) : M unit :=
  __cancel_logout_timer refresh ;;
  h <- new_timer ;;
  modify (with_logout_timer (Some h)).

Definition __start_relock_timer : M unit :=
  __cancel_relock_timer ;;
  h <- new_timer ;;
  modify (with_relock_timer (Some h)).

Definition __do_logout : M unit :=
  __cancel_logout_timer false ;;
  __cancel_relock_timer ;;
  w <- get ;;
  match user_info w with
  | Some u => modify (with_server_logouts (badge_code u :: server_logouts w))
  | None => ret tt
  end ;;
  __update_user_context None.

(** *** Power *)

Definition __enable_power : M unit :=
  device_write_pin PIN_POWER_RELAY true.

(** [time.time() - current < max_power_down_timeout], the unset option being
    [float('inf')]. *)
Definition below_timeout (elapsed_ms : Z) : bool :=
  match MAX_POWER_DOWN_TIMEOUT opts with
  | None => true
  | Some t => elapsed_ms <? 1000 * t
  end.

Fixpoint power_down_loop (fuel : nat) (current : Z) (is_machine_running : bool)
  : M bool :=
  match fuel with
  | O => starve
  | S fuel' =>
      now <- time_time ;;
      if below_timeout (now - current) then
        drawing <- device_read_pin PIN_CURRENT_SENSE ;;
        if drawing then
          __show_red_led ;;
          __show_waiting_for_power_down 0 ;;
          time_sleep 500 ;;
          power_down_loop fuel' current true
        else ret is_machine_running
      else ret is_machine_running
  end.

Definition __wait_for_power_down (fuel : nat) : M bool :=
  current <- time_time ;;
  power_down_loop fuel current false.

Definition __wait_for_logout_coast_time : M unit :=
  let logout_coast_time := LOGOUT_COAST_TIME opts in
  if (logout_coast_time =? 0)%N then ret tt
  else
    __show_coasting_down 0 ;;
    time_sleep (1000 * Z.of_N logout_coast_time).

Definition __disable_power (fuel : nat) : M unit :=
  powered <- device_read_pin PIN_POWER_RELAY ;;
  (if powered then
     is_machine_running <- __wait_for_power_down fuel ;;
     if is_machine_running then __wait_for_logout_coast_time else ret tt
   else ret tt) ;;
  powered <- device_read_pin PIN_POWER_RELAY ;;
  if powered then
    device_write_pin PIN_POWER_RELAY false ;;
    __show_disabling_power 0
  else ret tt.

(** *** What each mode ensures *)

Definition __ensure_estop (fuel : nat) : M unit :=
  __do_logout ;;
  __disable_power fuel ;;
  __show_red_led ;;
  __show_estop_activated.

Definition __ensure_bypass (fuel : nat) : M unit :=
  __do_logout ;;
  __disable_power fuel ;;
  __show_yellow_led ;;
  __show_bypassed.

Definition __ensure_idle (fuel : nat) : M unit :=
  __do_logout ;;
  __disable_power fuel ;;
  __show_blue_led ;;
  __show_scan_badge.

Definition __ensure_unlocked : M unit :=
  __do_logout ;;
  __enable_power ;;
  __show_green_led ;;
  __show_unlocked.

Definition __ensure_in_use : M unit :=
  __enable_power ;;
  __show_green_led.

Definition __ensure_training_mode (fuel : nat) : M unit :=
  __do_logout ;;
  __disable_power fuel ;;
  __show_magenta_led ;;
  __show_training_mode_activated 1.

(** *** Login and session *)

Definition server_login_call (kw : Kwargs) : M LoginResult :=
  w <- get ;; ret (server_login env kw (clock w)).

Definition user_info_is_not_None : M bool :=
  w <- get ;;
  ret (match user_info w with Some _ => true | None => false end).

Definition __do_login (fuel : nat) (override : bool) (kw : Kwargs) : M bool :=
  let badge_code := kw in
  __show_attempting_login 1 ;;
  answer <- server_login_call badge_code ;;
  match answer with
  | LoginOk info =>
      __update_user_context (Some info) ;;
      __show_access_granted 1
  | LoginUnauthorized =>
      __handle_unauthorized_access_exception ;;
      if negb override then __ensure_idle fuel else __ensure_in_use
  | LoginError =>
      __handle_unexpected_exception ;;
      if negb override then __ensure_idle fuel else __ensure_in_use
  end ;;
  user_info_is_not_None.

(** [self.__user_info[key] = value]. *)
Definition set_user_info_item (f : UserInfo -> UserInfo) : M unit :=
  w <- get ;;
  match user_info w with
  | Some u => modify (with_user_info (Some (f u)))
  | None => raise "TypeError"
  end.

(** Truth value of [remaining_extensions]. *)
Definition extensions_truthy (e : Extensions) : bool :=
  match e with
  | Finite n => negb (n =? 0)
  | Unbounded => true
  end.

Definition __extend_session : M unit :=
  __cancel_logout_timer false ;;
  u <- the_user_info ;;
  let session_seconds := session_seconds u in
  let remaining_seconds := remaining_seconds u in
  let remaining_extensions := remaining_extensions u in
  (if extensions_truthy remaining_extensions then
     match remaining_extensions with
     | Finite n => set_user_info_item (set_remaining_extensions (Finite (n - 1)))
     | Unbounded => ret tt
     end ;;
     let remaining_seconds := remaining_seconds + session_seconds in
     set_user_info_item (set_remaining_seconds remaining_seconds) ;;
     __show_session_extended 1
   else
     __show_no_extensions_remaining 2) ;;
  __start_logout_timer false.

Definition __is_current_badge_code (kw : Kwargs) : M bool :=
  w <- get ;;
  let new_badge_code := kw in
  let current_badge_code :=
    match user_info w with
    | Some u => Some (badge_code u)
    | None => None
    end in
  match current_badge_code, new_badge_code with
  | Some c, Some n => ret (negb (String.eqb c EmptyString) && String.eqb c n)
  | _, _ => ret false
  end.

(** *** Training *)

Definition __prompt_for_trainer_badge : M unit :=
  __show_magenta_led ;;
  __show_scan_trainer_badge.

Definition __prompt_for_student_badge : M unit :=
  __show_magenta_led ;;
  __show_scan_student_badge 0.

Definition __activate_trainer (badge_code : Kwargs) : M bool :=
  __show_attempting_login 1 ;;
  answer <- server_login_call badge_code ;;
  match answer with
  | LoginOk info =>
      __update_user_context (Some info) ;;
      __show_trainer_accepted 1 ;;
      __prompt_for_student_badge
  | LoginUnauthorized =>
      __handle_unauthorized_access_exception ;;
      __prompt_for_trainer_badge
  | LoginError =>
      __handle_unexpected_exception ;;
      __prompt_for_trainer_badge
  end ;;
  user_info_is_not_None.

Definition __register_student (badge_code_ : Kwargs) : M unit :=
  __show_attempting_registration 1 ;;
  w <- get ;;
  match user_info w with
  | Some u =>
      let trainer_id := user_id u in
      let trainer_badge_code := badge_code u in
      match server_register env trainer_id trainer_badge_code badge_code_ (clock w) with
      | RegisterOk => __show_student_registered 1
      | RegisterRejected =>
          __handle_user_registration_exception ;;
          __show_invalid_user 2
      | RegisterError =>
          __handle_user_registration_exception ;;
          __handle_unexpected_exception
      end
  | None =>
      __handle_user_registration_exception ;;
      __handle_unexpected_exception
  end ;;
  __prompt_for_student_badge.

(** *** Status *)

Definition status : M State.t :=
  w <- get ;; ret (state w).

Definition newline : string := String (ascii_of_nat 10) EmptyString.

(** [open(status_file, 'w')] empties the file; [f.write] appends to it. *)
Definition update_status : M unit :=
  modify (with_status_file EmptyString) ;;
  s <- status ;;
  w <- get ;;
  modify (with_status_file
            (String.append (status_file w) (String.append (State.name s) newline))).

(** *** Conditions *)

Definition is_estop_activated : M bool :=
  w <- get ;;
  ret (USE_ESTOP opts &&
       ((ESTOP_ACTIVE_HI opts && pin_level w PIN_ESTOP) ||
        (negb (ESTOP_ACTIVE_HI opts) && negb (pin_level w PIN_ESTOP)))).

Definition is_bypass_detected : M bool :=
  w <- get ;;
  ret (USE_BYPASS_DETECT opts && pin_level w PIN_BYPASS_DETECT).

Definition is_in_use : M bool :=
  w <- get ;;
  ret (State.eqb (state w) State.IN_USE || State.eqb (state w) State.IN_TRAINING).

(** Order of [datetime.time] values: by hour, minute, second, microsecond. *)
Definition time_leb (a b : TimeOfDay) : bool :=
  if hour a <? hour b then true
  else if hour b <? hour a then false
  else if minute a <? minute b then true
  else if minute b <? minute a then false
  else if second a <? second b then true
  else if second b <? second a then false
  else microsecond a <=? microsecond b.

Definition datetime_time (h m : Z) : TimeOfDay :=
  {| hour := h; minute := m; second := 0; microsecond := 0 |}.

Definition normal_hours_at (now : TimeOfDay) : bool :=
  let start_time := DOOR_NORMAL_HR_START opts in
  let start_time :=
    if start_time <? 0 then 0
    else if start_time >? 2359 then 2359
    else start_time in
  let start_hr := start_time / 100 in
  let start_min := start_time mod 100 in
  let start_min := if start_min >? 59 then 59 else start_min in
  let end_time := DOOR_NORMAL_HR_END opts in
  let end_time :=
    if end_time <? 0 then 0
    else if end_time >? 2359 then 2359
    else end_time in
  let end_hr := end_time / 100 in
  let end_min := end_time mod 100 in
  let end_min := if end_min >? 59 then 59 else end_min in
  let start := datetime_time start_hr start_min in
  let end_ := datetime_time end_hr end_min in
  time_leb start now && time_leb now end_.

Definition is_normal_hours : M bool :=
  w <- get ;;
  let now := wall_clock env (clock w) in
  ret (normal_hours_at now).

Definition is_terminated : M bool :=
  s <- status ;; ret (State.eqb s State.TERMINATED).

Definition is_authorized (fuel : nat) (kw : Kwargs) : M bool :=
  __do_login fuel false kw.

Fixpoint training_wait_loop (fuel : nat) (current : Z) : M unit :=
  match fuel with
  | O => starve
  | S fuel' =>
      terminated <- is_terminated ;;
      now <- time_time ;;
      pressed <- device_read_pin PIN_LOGOUT ;;
      if negb terminated
         && (now - current <? 1000 * training_mode_delay_seconds)
         && pressed
      then time_sleep 100 ;; training_wait_loop fuel' current
      else ret tt
  end.

Definition is_waiting_for_training (fuel : nat) : M bool :=
  if (IS_A_DOOR opts && DOOR_CONTINUOUS_UNLOCK opts) || DISABLE_TRAINING_MODE opts
  then ret false
  else
    current <- time_time ;;
    training_wait_loop fuel current ;;
    device_read_pin PIN_LOGOUT.

Definition should_extend_current_session (fuel : nat) (kw : Kwargs) : M bool :=
  same <- __is_current_badge_code kw ;;
  if same then
    __extend_session ;;
    ret true
  else if ALLOW_USER_OVERRIDE opts then
    __cancel_logout_timer false ;;
    __do_login fuel true kw ;;
    ret true
  else ret false.

(** *** The machine

    [Machine] of the [transitions] package, with [queued=True] and
    [ignore_invalid_triggers=True]: a trigger is appended to the queue; the
    call that finds the queue empty runs the queue to its end, a call made
    while a transition runs only appends. *)

Inductive Condition : Type :=
| COND_is_normal_hours
| COND_is_authorized
| COND_should_extend_current_session
| COND_is_waiting_for_training.

Record Transition : Type := {
  source : list State.t;
  trigger : Trigger.t;
  dest : State.t;
  conditions : list Condition
}.

Definition transitions : list Transition :=
  [ {| source := [State.INITIALIZED; State.ESTOP; State.BYPASSED];
       trigger := Trigger.IDLE;
       dest := State.IDLE;
       conditions := [] |};
    {| source := [State.INITIALIZED; State.BYPASSED; State.IDLE; State.IN_USE;
                  State.IN_TRAINING];
       trigger := Trigger.ESTOP;
       dest := State.ESTOP;
       conditions := [] |};
    {| source := [State.INITIALIZED; State.ESTOP; State.IDLE; State.IN_TRAINING];
       trigger := Trigger.BYPASS;
       dest := State.BYPASSED;
       conditions := [] |};
    {| source := [State.IDLE; State.IN_USE];
       trigger := Trigger.UNLOCK;
       dest := State.UNLOCKED;
       conditions := [COND_is_normal_hours] |};
    {| source := [State.IDLE];
       trigger := Trigger.LOGIN;
       dest := State.IN_USE;
       conditions := [COND_is_authorized] |};
    {| source := [State.IN_USE];
       trigger := Trigger.LOGIN;
       dest := State.IN_USE;
       conditions := [COND_should_extend_current_session] |};
    {| source := [State.UNLOCKED; State.IN_USE; State.IN_TRAINING];
       trigger := Trigger.LOGOUT;
       dest := State.IDLE;
       conditions := [] |};
    {| source := [State.IDLE; State.ESTOP; State.BYPASSED];
       trigger := Trigger.LOGOUT;
       dest := State.IN_TRAINING;
       conditions := [COND_is_waiting_for_training] |};
    {| source := State.all;
       trigger := Trigger.TERMINATE;
       dest := State.TERMINATED;
       conditions := [] |} ].

(** A trigger method called while a transition runs. *)
Definition enqueue (trg : Trigger.t) (kw : Kwargs) : M unit :=
  modify (fun w => with_queue (queue w ++ [(trg, kw)]) w).

Definition on_enter_estop (fuel : nat) : M unit :=
  __ensure_estop fuel.

Definition on_enter_bypassed (fuel : nat) : M unit :=
  __ensure_bypass fuel.

Definition on_enter_idle (fuel : nat) : M unit :=
  __ensure_idle fuel ;;
  time_sleep 500 ;;
  detected <- is_bypass_detected ;;
  if detected then enqueue Trigger.BYPASS None else ret tt.

Definition on_enter_unlocked : M unit :=
  __ensure_unlocked ;;
  __start_relock_timer.

Definition on_enter_in_use : M unit :=
  __ensure_in_use ;;
  __start_logout_timer false.

Definition on_enter_in_training (fuel : nat) : M unit :=
  __ensure_training_mode fuel ;;
  __show_scan_trainer_badge.

Definition on_enter_terminated (fuel : nat) : M unit :=
  __ensure_idle fuel.

Definition on_enter (fuel : nat) (s : State.t) : M unit :=
  match s with
  | State.INITIALIZED => ret tt
  | State.IDLE => on_enter_idle fuel
  | State.IN_USE => on_enter_in_use
  | State.UNLOCKED => on_enter_unlocked
  | State.IN_TRAINING => on_enter_in_training fuel
  | State.ESTOP => on_enter_estop fuel
  | State.BYPASSED => on_enter_bypassed fuel
  | State.TERMINATED => on_enter_terminated fuel
  end.

Definition check_condition (fuel : nat) (c : Condition) (kw : Kwargs) : M bool :=
  match c with
  | COND_is_normal_hours => is_normal_hours
  | COND_is_authorized => is_authorized fuel kw
  | COND_should_extend_current_session => should_extend_current_session fuel kw
  | COND_is_waiting_for_training => is_waiting_for_training fuel
  end.

Fixpoint check_conditions (fuel : nat) (cs : list Condition) (kw : Kwargs) : M bool :=
  match cs with
  | [] => ret true
  | c :: cs' =>
      ok <- check_condition fuel c kw ;;
      if ok then check_conditions fuel cs' kw else ret false
  end.

(** [Transition.execute]: the conditions, then the change of state with the
    destination's [on_enter] callback, then [after_state_change]. *)
Definition execute (fuel : nat) (tr : Transition) (kw : Kwargs) : M bool :=
  ok <- check_conditions fuel (conditions tr) kw ;;
  if ok then
    modify (with_state (dest tr)) ;;
    on_enter fuel (dest tr) ;;
    update_status ;;
    ret true
  else ret false.

Definition transitions_from (trg : Trigger.t) (s : State.t) : list Transition :=
  filter (fun tr => Trigger.eqb (trigger tr) trg && existsb (State.eqb s) (source tr))
         transitions.

Fixpoint try_transitions (fuel : nat) (trs : list Transition) (kw : Kwargs) : M bool :=
  match trs with
  | [] => ret false
  | tr :: rest =>
      ok <- execute fuel tr kw ;;
      if ok then ret true else try_transitions fuel rest kw
  end.

(** [Event._trigger]: a trigger with no transition from the current state is
    ignored. *)
Definition _trigger (fuel : nat) (trg : Trigger.t) (kw : Kwargs) : M bool :=
  w <- get ;;
  try_transitions fuel (transitions_from trg (state w)) kw.

Fixpoint process_queue (fuel : nat) : M unit :=
  match fuel with
  | O => starve
  | S fuel' =>
      w <- get ;;
      match queue w with
      | [] => ret tt
      | (trg, kw) :: _ =>
          _trigger fuel' trg kw ;;
          modify (fun w => with_queue (tl (queue w)) w) ;;
          process_queue fuel'
      end
  end.

(** A trigger method, [self.login(...)], [self.logout()] and so on. *)
Definition fire (fuel : nat) (trg : Trigger.t) (kw : Kwargs) : M unit :=
  enqueue trg kw ;;
  w <- get ;;
  if (1 <? List.length (queue w))%nat then ret tt else process_queue fuel.

(** *** Timer ticks *)

Definition __logout_timer_tick (fuel : nat) : M unit :=
  terminated <- is_terminated ;;
  w <- get ;;
  match negb terminated, user_info w, logout_timer w with
  | true, Some u, Some _ =>
      let remaining_seconds := remaining_seconds u in
      if remaining_seconds <=? 0 then fire fuel Trigger.LOGOUT None
      else
        set_user_info_item
          (set_remaining_seconds (remaining_seconds - logout_timer_interval_seconds)) ;;
        __show_remaining_time ;;
        __start_logout_timer true
  | _, _, _ => ret tt
  end.

Definition __relock_timer_tick (fuel : nat) : M unit :=
  terminated <- is_terminated ;;
  w <- get ;;
  match negb terminated, relock_timer w with
  | true, Some _ =>
      normal <- is_normal_hours ;;
      if negb normal then fire fuel Trigger.LOGOUT None
      else __start_relock_timer
  | _, _ => ret tt
  end.

(** *** Input events *)

Definition handle_badge_code (fuel : nat) (kw : Kwargs) : M unit :=
  let badge_code := kw in
  w <- get ;;
  if State.eqb (state w) State.IN_TRAINING then
    match user_info w with
    | None =>
        accepted <- __activate_trainer badge_code ;;
        if accepted then __show_scan_student_badge 0 else __show_scan_trainer_badge
    | Some _ =>
        same <- __is_current_badge_code kw ;;
        if negb same then __register_student badge_code else ret tt
    end
  else fire fuel Trigger.LOGIN kw.

Definition logout_detected (fuel : nat) : M unit :=
  estop <- is_estop_activated ;;
  bypass <- is_bypass_detected ;;
  w <- get ;;
  if estop && State.eqb (state w) State.IN_TRAINING then fire fuel Trigger.ESTOP None
  else if bypass && State.eqb (state w) State.IN_TRAINING then fire fuel Trigger.BYPASS None
  else if IS_A_DOOR opts && DOOR_CONTINUOUS_UNLOCK opts
          && (State.eqb (state w) State.IDLE || State.eqb (state w) State.IN_USE)
  then fire fuel Trigger.UNLOCK None
  else fire fuel Trigger.LOGOUT None.

Definition estop_change (fuel : nat) : M unit :=
  activated <- is_estop_activated ;;
  w <- get ;;
  if activated then
    if negb (State.eqb (state w) State.IN_TRAINING) then fire fuel Trigger.ESTOP None
    else ret tt
  else if State.eqb (state w) State.ESTOP then
    time_sleep 500 ;;
    detected <- is_bypass_detected ;;
    if detected then fire fuel Trigger.BYPASS None
    else fire fuel Trigger.IDLE None
  else ret tt.

Definition bypass_change (fuel : nat) : M unit :=
  detected <- is_bypass_detected ;;
  w <- get ;;
  if detected then
    if State.eqb (state w) State.IDLE then fire fuel Trigger.BYPASS None
    else ret tt
  else if State.eqb (state w) State.BYPASSED then fire fuel Trigger.IDLE None
  else ret tt.

(** [__enter__] and [__exit__]. *)
Definition __enter__ : M unit := update_status.

(** [run], from the entry of the [with] block to the first wait: the status
    file is written and the first trigger chosen by what the inputs read. *)
Definition run_start (fuel : nat) : M unit :=
  __enter__ ;;
  estop <- is_estop_activated ;;
  if estop then fire fuel Trigger.ESTOP None
  else
    bypass <- is_bypass_detected ;;
    if bypass then fire fuel Trigger.BYPASS None
    else fire fuel Trigger.IDLE None.

(** What can happen once [run] waits: the callbacks it registers with the
    device, the emergency stop and bypass ones only when their input is in
    use, and the callbacks of the two timers. *)
Inductive Happening : Type :=
| BadgeScanned (kw : Kwargs)
| LogoutPressed
| EstopChanged
| BypassChanged
| SessionTimerFired
| RelockTimerFired.

Definition happen (fuel : nat) (h : Happening) : M unit :=
  match h with
  | BadgeScanned kw => handle_badge_code fuel kw
  | LogoutPressed => logout_detected fuel
  | EstopChanged => if USE_ESTOP opts then estop_change fuel else ret tt
  | BypassChanged => if USE_BYPASS_DETECT opts then bypass_change fuel else ret tt
  | SessionTimerFired => __logout_timer_tick fuel
  | RelockTimerFired => __relock_timer_tick fuel
  end.

End Client.

(** ** Notions the properties are stated with *)

(** The modes in which the relay is to be energized. *)
Definition energized_mode (s : State.t) : bool :=
  match s with
  | State.IN_USE | State.UNLOCKED => true
  | _ => false
  end.

(** The window of normal hours as the specification words it: an HHMM value
    clamped to [0, 2359], its minutes clamped to [0, 59]. *)
Definition clamp (lo hi x : Z) : Z := Z.max lo (Z.min hi x).

Definition hhmm_bound (hhmm : Z) : TimeOfDay :=
  let v := clamp 0 2359 hhmm in
  {| hour := v / 100; minute := clamp 0 59 (v mod 100); second := 0; microsecond := 0 |}.

Definition microseconds_of_day (t : TimeOfDay) : Z :=
  ((hour t * 60 + minute t) * 60 + second t) * 1000000 + microsecond t.

Definition within_window (start_ end_ now : TimeOfDay) : Prop :=
  microseconds_of_day start_ <= microseconds_of_day now <= microseconds_of_day end_.

(** What [datetime.time] guarantees of its fields below the hour. *)
Definition well_formed_time (t : TimeOfDay) : Prop :=
  0 <= minute t < 60 /\ 0 <= second t < 60 /\ 0 <= microsecond t < 1000000.

(** The attributes of the [Client] object, the status file and the server's
    record: what the device layer never touches. *)
Definition client_part (w : World) :=
  (state w, user_info w, logout_timer w, relock_timer w, timer_seq w,
   cancelled w, queue w, status_file w, server_logouts w).

Section PowerDown.

Variable opts : Opts.
Variable env : Env.

(** The condition of the loop of [__wait_for_power_down], entered at [t0],
    when it is evaluated at the instant [t]. *)
Definition keeps_waiting (t0 t : Z) : bool :=
  below_timeout opts (t - t0) && pin_input env PIN_CURRENT_SENSE t.

(** The loop entered at [t0] polls [k] times with the machine still drawing
    current inside the timeout, and stops at the next poll. *)
Definition first_stop (t0 : Z) (k : nat) : Prop :=
  (forall i : nat, (i < k)%nat -> keeps_waiting t0 (t0 + 500 * Z.of_nat i) = true) /\
  keeps_waiting t0 (t0 + 500 * Z.of_nat k) = false.

(** The coast time slept after [k] polls found the machine running. *)
Definition coast_ms (k : nat) : Z :=
  match k with
  | O => 0
  | S _ => 1000 * Z.of_N (LOGOUT_COAST_TIME opts)
  end.

End PowerDown.

(** What a granted extension makes of the user context: the session length
    added to the remaining seconds, one extension used up unless they are
    unbounded; nothing when no extension remains. *)
Definition extended (u : UserInfo) : UserInfo :=
  if extensions_truthy (remaining_extensions u) then
    set_remaining_seconds (remaining_seconds u + session_seconds u)
      (match remaining_extensions u with
       | Finite n => set_remaining_extensions (Finite (n - 1)) u
       | Unbounded => u
       end)
  else u.

(** The world a computation ends in. *)
Definition outcome_world {A : Type} (o : outcome A) (otherwise : World) : World :=
  match o with
  | Done _ w => w
  | _ => otherwise
  end.

Section Sessions.

Variable opts : Opts.
Variable env : Env.

(** Bypass as [is_bypass_detected] finds it at the instant [t]. *)
Definition bypass_at (t : Z) : bool :=
  USE_BYPASS_DETECT opts && pin_input env PIN_BYPASS_DETECT t.

(** Time passing between two events. *)
Definition elapse (ms : Z) : M unit :=
  modify (fun w => with_clock (clock w + ms) w).

(** [n] ticks of the session timer and no other event: each tick comes the
    timer's interval after the timer was started. *)
Fixpoint session_ticks (fuel : nat) (n : nat) : M unit :=
  match n with
  | O => ret tt
  | S n' =>
      session_ticks fuel n' ;;
      elapse (1000 * logout_timer_interval_seconds) ;;
      __logout_timer_tick opts env fuel
  end.

(** The property as the specification states it: after exactly [n] ticks the
    machine has reached IDLE with the relay commanded low. *)
Definition idle_after_ticks (n : nat) (w : World) : Prop :=
  exists fuel w',
    session_ticks fuel n w = Done tt w' /\
    state w' = State.IDLE /\ relay w' = false.

End Sessions.

Section AsStated.

Variable opts : Opts.
Variable env : Env.

(** The override half of the property on unauthorized logins as the
    specification states it: the guard answers false and leaves the user
    context empty. *)
Definition override_denied_as_stated (fuel : nat) (kw : Kwargs) (w : World) : Prop :=
  exists w',
    should_extend_current_session opts env fuel kw w = Done false w' /\
    user_info w' = None.

(** The property on same-badge scans as the specification states it, for
    every badge code: the guard answers true and the session is extended. *)
Definition same_badge_as_stated (fuel : nat) (w : World) (u : UserInfo) : Prop :=
  exists w',
    should_extend_current_session opts env fuel (Some (badge_code u)) w = Done true w' /\
    user_info w' = Some (extended u).

End AsStated.

(** ** A workshop, for concrete runs *)

Definition shop_opts : Opts :=
  {| USE_ESTOP := true; ESTOP_ACTIVE_HI := true; USE_BYPASS_DETECT := true;
     USE_ALARM := true; IS_A_DOOR := false; DOOR_CONTINUOUS_UNLOCK := false;
     DOOR_NORMAL_HR_START := 800; DOOR_NORMAL_HR_END := 1700;
     DISABLE_TRAINING_MODE := false; ALLOW_USER_OVERRIDE := true;
     MAX_POWER_DOWN_TIMEOUT := Some 3; LOGOUT_COAST_TIME := 2%N |}.

Definition alice : UserInfo :=
  {| badge_code := "A1"; user_id := "uid_A1"; user_name := "Alice";
     session_seconds := 3600; remaining_seconds := 3600;
     remaining_extensions := Finite 2 |}.

(** The machine draws current at all times, no button is held, it is noon;
    the server knows badge A1, rejects B2 and fails on anything else. *)
Definition shop_env : Env :=
  {| pin_input := fun pin _ =>
       match pin with PIN_CURRENT_SENSE => true | _ => false end;
     wall_clock := fun _ => {| hour := 12; minute := 0; second := 0; microsecond := 0 |};
     server_login := fun kw _ =>
       match kw with
       | Some "A1"%string => LoginOk alice
       | Some "B2"%string => LoginUnauthorized
       | _ => LoginError
       end;
     server_register := fun _ _ _ _ => RegisterOk |}.

(** The controller as [Client.__init__] leaves it, relay off. *)
Definition power_on_world : World :=
  {| state := State.INITIALIZED; user_info := None; logout_timer := None;
     relock_timer := None; timer_seq := 0; cancelled := []; queue := [];
     relay := false; alarm := false; led := (false, false, false); writes := [];
     clock := 0; status_file := EmptyString; server_logouts := [] |}.

(** A session of user [u] under way: relay on, timer [0] live. *)
Definition session_world (u : UserInfo) : World :=
  {| state := State.IN_USE; user_info := Some u; logout_timer := Some O;
     relock_timer := None; timer_seq := 1; cancelled := []; queue := [];
     relay := true; alarm := false; led := (false, true, false); writes := [];
     clock := 0; status_file := "in_use" ++ newline; server_logouts := [] |}.

(** The door held unlocked: relay on, relock timer [0] live. *)
Definition unlocked_world : World :=
  {| state := State.UNLOCKED; user_info := None; logout_timer := None;
     relock_timer := Some O; timer_seq := 1; cancelled := []; queue := [];
     relay := true; alarm := false; led := (false, true, false); writes := [];
     clock := 0; status_file := "unlocked" ++ newline; server_logouts := [] |}.

(** The workshop with its emergency stop pressed, and with the logout button
    held down. *)
Definition estop_pressed_env : Env :=
  {| pin_input := fun pin _ =>
       match pin with PIN_CURRENT_SENSE | PIN_ESTOP => true | _ => false end;
     wall_clock := wall_clock shop_env;
     server_login := server_login shop_env;
     server_register := server_register shop_env |}.

Definition button_held_env : Env :=
  {| pin_input := fun pin _ =>
       match pin with PIN_LOGOUT => true | _ => false end;
     wall_clock := wall_clock shop_env;
     server_login := server_login shop_env;
     server_register := server_register shop_env |}.

(** The workshop without user override. *)
Definition strict_opts : Opts :=
  {| USE_ESTOP := true; ESTOP_ACTIVE_HI := true; USE_BYPASS_DETECT := true;
     USE_ALARM := true; IS_A_DOOR := false; DOOR_CONTINUOUS_UNLOCK := false;
     DOOR_NORMAL_HR_START := 800; DOOR_NORMAL_HR_END := 1700;
     DISABLE_TRAINING_MODE := false; ALLOW_USER_OVERRIDE := false;
     MAX_POWER_DOWN_TIMEOUT := Some 3; LOGOUT_COAST_TIME := 2%N |}.

(** The controller after its first [idle] trigger. *)
Definition idle_world : World :=
  outcome_world (_trigger shop_opts shop_env 8 Trigger.IDLE None power_on_world)
                power_on_world.

Definition one_second_left : UserInfo := set_remaining_seconds 1 alice.
Definition two_seconds_left : UserInfo := set_remaining_seconds 2 alice.

(** A user context whose badge code is the empty string. *)
Definition blank_badge_user : UserInfo :=
  {| badge_code := EmptyString; user_id := "uid_0"; user_name := "Nobody";
     session_seconds := 3600; remaining_seconds := 2600;
     remaining_extensions := Finite 2 |}.

(** ** Judgements on computations *)

(** A computation [preserves] a view [f] of the world when no run of it
    changes [f]; it [ensures] [Q] when every run of it ends in [Q]. *)
Definition preserves {A X : Type} (f : World -> X) (m : M A) : Prop :=
  forall w a w', m w = Done a w' -> f w' = f w.

Definition ensures {A : Type} (m : M A) (Q : World -> Prop) : Prop :=
  forall w a w', m w = Done a w' -> Q w'.

(** A computation [returns] from [w] when it neither raises nor starves. *)
Definition returns {A : Type} (m : M A) (w : World) : Prop :=
  exists a w', m w = Done a w'.

Definition always_returns {A : Type} (m : M A) : Prop :=
  forall w, returns m w.

(** ** Invariants of the controller *)

(** The timers as the client holds them. *)
Definition timers_view (w : World) :=
  (logout_timer w, relock_timer w, timer_seq w, cancelled w).

(** Every timer that was ever started is the current session timer, the
    current relock timer, or cancelled; the current ones are not cancelled
    and are two different timers. *)
Definition timers_accounted (w : World) : Prop :=
  (forall h, logout_timer w = Some h ->
     (h < timer_seq w)%nat /\ ~ In h (cancelled w) /\ relock_timer w <> Some h) /\
  (forall h, relock_timer w = Some h ->
     (h < timer_seq w)%nat /\ ~ In h (cancelled w)) /\
  (forall h, In h (cancelled w) -> (h < timer_seq w)%nat) /\
  (forall h, (h < timer_seq w)%nat ->
     logout_timer w = Some h \/ relock_timer w = Some h \/ In h (cancelled w)).

(** What the mode says about the rest of the controller between two
    happenings: the relay follows the mode, a user context is there only in
    IN_USE and IN_TRAINING, the session timer only in IN_USE, the relock timer
    only in UNLOCKED, the status file names the mode, nothing is queued. *)
Definition consistent (w : World) : Prop :=
  (state w <> State.INITIALIZED -> relay w = energized_mode (state w)) /\
  (user_info w <> None -> state w = State.IN_USE \/ state w = State.IN_TRAINING) /\
  (logout_timer w <> None -> state w = State.IN_USE) /\
  (relock_timer w <> None -> state w = State.UNLOCKED) /\
  status_file w = String.append (State.name (state w)) newline.


(** A computation [keeps] a property of the world when every run from a world
    that has it ends in a world that has it. *)
Definition keeps {A : Type} (P : World -> Prop) (m : M A) : Prop :=
  forall w a w', P w -> m w = Done a w' -> P w'.

(** The triple: from [P], every run of [m] ends in [Q]. *)
Definition hoare {A : Type} (P : World -> Prop) (m : M A) (Q : A -> World -> Prop) : Prop :=
  forall w a w', P w -> m w = Done a w' -> Q a w'.

(** The server's record of logout notifications once the user context of [w],
    if there is one, has been logged out. *)
Definition notified (w : World) : list string :=
  match user_info w with
  | Some u => badge_code u :: server_logouts w
  | None => server_logouts w
  end.

(** The emergency stop as [is_estop_activated] finds it at the instant [t]:
    in use, and its pin at the level configured as active. *)
Definition estop_at (opts : Opts) (env : Env) (t : Z) : bool :=
  USE_ESTOP opts && Bool.eqb (ESTOP_ACTIVE_HI opts) (pin_input env PIN_ESTOP t).

(** A world from which the power-down wait returns within the fuel of a
    happening: the relay reads low, or the wait stops after [k] polls. *)
Definition settles (opts : Opts) (env : Env) (fuel : nat) (w : World) : Prop :=
  relay w = false \/
  exists k : nat, first_stop opts env (clock w) k /\ (k + 2 < fuel)%nat.

(** ** More of the workshop *)

(** A door with continuous unlock. *)
Definition door_opts : Opts :=
  {| USE_ESTOP := true; ESTOP_ACTIVE_HI := true; USE_BYPASS_DETECT := true;
     USE_ALARM := true; IS_A_DOOR := true; DOOR_CONTINUOUS_UNLOCK := true;
     DOOR_NORMAL_HR_START := 800; DOOR_NORMAL_HR_END := 1700;
     DISABLE_TRAINING_MODE := false; ALLOW_USER_OVERRIDE := true;
     MAX_POWER_DOWN_TIMEOUT := Some 3; LOGOUT_COAST_TIME := 2%N |}.

(** The controller at rest in the mode [s]: relay off, no user, no timer. *)
Definition resting_world (s : State.t) : World :=
  {| state := s; user_info := None; logout_timer := None;
     relock_timer := None; timer_seq := 0; cancelled := []; queue := [];
     relay := false; alarm := false; led := (false, false, false); writes := [];
     clock := 0; status_file := String.append (State.name s) newline;
     server_logouts := [] |}.

(** The world a happening of the workshop ends in. *)
Definition after (opts : Opts) (env : Env) (h : Happening) (w : World) : World :=
  outcome_world (happen opts env 10 h w) w.

(** The workshop at eleven at night, the machine drawing current. *)
Definition night_env : Env :=
  {| pin_input := pin_input shop_env;
     wall_clock := fun _ => {| hour := 23; minute := 0; second := 0; microsecond := 0 |};
     server_login := server_login shop_env;
     server_register := server_register shop_env |}.

(** * Properties *)

(** ** Normal hours *)

Lemma time_leb_microseconds (a b : TimeOfDay) :
  well_formed_time a -> well_formed_time b ->
  (time_leb a b = true <-> microseconds_of_day a <= microseconds_of_day b).
Proof.
  unfold well_formed_time, time_leb, microseconds_of_day.
  intros (Ha1 & Ha2 & Ha3) (Hb1 & Hb2 & Hb3).
  destruct (Z.ltb_spec (hour a) (hour b)); [split; [lia | reflexivity] |].
  destruct (Z.ltb_spec (hour b) (hour a)); [split; [discriminate | lia] |].
  destruct (Z.ltb_spec (minute a) (minute b)); [split; [lia | reflexivity] |].
  destruct (Z.ltb_spec (minute b) (minute a)); [split; [discriminate | lia] |].
  destruct (Z.ltb_spec (second a) (second b)); [split; [lia | reflexivity] |].
  destruct (Z.ltb_spec (second b) (second a)); [split; [discriminate | lia] |].
  rewrite Z.leb_le. lia.
Qed.

Lemma hhmm_bound_well_formed (v : Z) : well_formed_time (hhmm_bound v).
Proof.
  unfold well_formed_time, hhmm_bound, clamp. cbn. lia.
Qed.

Lemma normal_hours_at_bounds (opts : Opts) (now : TimeOfDay) :
  normal_hours_at opts now =
  time_leb (hhmm_bound (DOOR_NORMAL_HR_START opts)) now
  && time_leb now (hhmm_bound (DOOR_NORMAL_HR_END opts)).
Proof.
  assert (Hclamp : forall x,
    (if x <? 0 then 0 else if x >? 2359 then 2359 else x) = clamp 0 2359 x).
  { intro x. unfold clamp.
    destruct (Z.ltb_spec x 0); [lia |].
    rewrite Z.gtb_ltb. destruct (Z.ltb_spec 2359 x); lia. }
  assert (Hmin : forall x, 0 <= x ->
    (if x mod 100 >? 59 then 59 else x mod 100) = clamp 0 59 (x mod 100)).
  { intros x Hx. unfold clamp.
    pose proof (Z.mod_pos_bound x 100 ltac:(lia)).
    rewrite Z.gtb_ltb. destruct (Z.ltb_spec 59 (x mod 100)); lia. }
  unfold normal_hours_at, hhmm_bound, datetime_time.
  rewrite !Hclamp.
  rewrite !Hmin by (unfold clamp; lia).
  reflexivity.
Qed.

(** C6.  [is_normal_hours] reads nothing but the wall clock and answers true
    exactly when the local time lies in the inclusive window from the start to
    the end bound, each bound being the configured HHMM value clamped to
    [0, 2359] with its minutes (the value mod 100) clamped to [0, 59]. *)
Theorem is_normal_hours_window (opts : Opts) (env : Env) (w : World) :
  well_formed_time (wall_clock env (clock w)) ->
  exists b,
    is_normal_hours opts env w = Done b w /\
    (b = true <->
     within_window (hhmm_bound (DOOR_NORMAL_HR_START opts))
                   (hhmm_bound (DOOR_NORMAL_HR_END opts))
                   (wall_clock env (clock w))).
Proof.
  intro Hnow.
  exists (normal_hours_at opts (wall_clock env (clock w))).
  split; [reflexivity |].
  rewrite normal_hours_at_bounds, andb_true_iff.
  rewrite !time_leb_microseconds by (assumption || apply hhmm_bound_well_formed).
  unfold within_window. tauto.
Qed.

(** ** Reasoning about computations *)

Lemma bind_Done_inv {A B : Type} (m : M A) (k : A -> M B) (w : World) (b : B) (w' : World) :
  bind m k w = Done b w' ->
  exists a w1, m w = Done a w1 /\ k a w1 = Done b w'.
Proof.
  unfold bind. destruct (m w) as [a w1 | e |]; try discriminate.
  intro H. exists a, w1. split; [reflexivity | exact H].
Qed.

Lemma bind_Done {A B : Type} (m : M A) (k : A -> M B) (w : World) (a : A) (w1 : World) :
  m w = Done a w1 -> bind m k w = k a w1.
Proof. unfold bind. intros ->. reflexivity. Qed.

Lemma world_eta (w : World) :
  {| state := state w; user_info := user_info w; logout_timer := logout_timer w;
     relock_timer := relock_timer w; timer_seq := timer_seq w;
     cancelled := cancelled w; queue := queue w; relay := relay w;
     alarm := alarm w; led := led w; writes := writes w; clock := clock w;
     status_file := status_file w; server_logouts := server_logouts w |} = w.
Proof. destruct w. reflexivity. Qed.

(** Reduce the fields of updated worlds, and nothing of the arithmetic. *)
Ltac simpl_world :=
  cbn [state user_info logout_timer relock_timer timer_seq cancelled queue
       relay alarm led writes clock status_file server_logouts
       with_state with_user_info with_logout_timer with_relock_timer
       with_timer_seq with_cancelled with_queue with_relay with_alarm with_led
       with_writes with_clock with_status_file with_server_logouts
       client_part log_write drive_pin pin_level fst snd negb andb orb].

Ltac simpl_world_in H :=
  cbn [state user_info logout_timer relock_timer timer_seq cancelled queue
       relay alarm led writes clock status_file server_logouts
       with_state with_user_info with_logout_timer with_relock_timer
       with_timer_seq with_cancelled with_queue with_relay with_alarm with_led
       with_writes with_clock with_status_file with_server_logouts
       client_part log_write drive_pin pin_level fst snd negb andb orb] in H.

(** Decompose a hypothesis [bind m k w = Done b w']. *)
Ltac inv_bind H :=
  let a := fresh "a" in
  let w1 := fresh "w" in
  let H1 := fresh "Hrun" in
  apply bind_Done_inv in H; destruct H as (a & w1 & H1 & H).

Ltac inv_done :=
  repeat match goal with
         | H : Done _ _ = Done _ _ |- _ => inversion H; subst; clear H
         | H : Raised _ = Done _ _ |- _ => discriminate H
         | H : Starved = Done _ _ |- _ => discriminate H
         end.

(** The straight-line methods that only drive the display, the LED and the
    alarm and let time pass. *)
Ltac unfold_display :=
  unfold __handle_unauthorized_access_exception, __handle_unexpected_exception,
    __show_red_led, __show_yellow_led, __show_blue_led, __show_green_led,
    __show_magenta_led, __set_alarm_output, __show_waiting_for_power_down,
    __show_disabling_power, __show_coasting_down, __show_estop_activated,
    __show_bypassed, __show_scan_badge, __show_unlocked,
    __show_training_mode_activated, __show_scan_trainer_badge,
    __show_attempting_login, __show_access_denied, __show_access_granted,
    __show_error_occurred, __show_please_try_again,
    lcd_write2, lcd_write1, device_write_lcd, device_write_led,
    device_write_pin, device_read_pin, time_sleep, time_time,
    bind, ret, get, modify, log_write, drive_pin in *.


Lemma preserves_ret {A X : Type} (f : World -> X) (a : A) : preserves f (ret a).
Proof. intros w b w' H. inversion H. reflexivity. Qed.

Lemma preserves_get {X : Type} (f : World -> X) : preserves f get.
Proof. intros w b w' H. inversion H. reflexivity. Qed.

Lemma preserves_raise {A X : Type} (f : World -> X) (e : string) :
  preserves f (@raise A e).
Proof. intros w b w' H. discriminate H. Qed.

Lemma preserves_starve {A X : Type} (f : World -> X) : preserves f (@starve A).
Proof. intros w b w' H. discriminate H. Qed.

Lemma preserves_modify {X : Type} (f : World -> X) (g : World -> World) :
  (forall w, f (g w) = f w) -> preserves f (modify g).
Proof. intros Hg w b w' H. inversion H. apply Hg. Qed.

Lemma preserves_bind {A B X : Type} (f : World -> X) (m : M A) (k : A -> M B) :
  preserves f m -> (forall a, preserves f (k a)) -> preserves f (bind m k).
Proof.
  intros Hm Hk w b w' H. inv_bind H.
  rewrite (Hk _ _ _ _ H). eapply Hm. eassumption.
Qed.

Lemma ensures_last {A B : Type} (m : M A) (k : A -> M B) (Q : World -> Prop) :
  (forall a, ensures (k a) Q) -> ensures (bind m k) Q.
Proof. intros Hk w b w' H. inv_bind H. eapply Hk. eassumption. Qed.

Lemma ensures_then {A B X : Type} (f : World -> X) (x : X) (m : M A) (k : A -> M B) :
  ensures m (fun w => f w = x) -> (forall a, preserves f (k a)) ->
  ensures (bind m k) (fun w => f w = x).
Proof.
  intros Hm Hk w b w' H. inv_bind H.
  rewrite (Hk _ _ _ _ H). eapply Hm. eassumption.
Qed.

Lemma ensures_modify (g : World -> World) (Q : World -> Prop) :
  (forall w, Q (g w)) -> ensures (modify g) Q.
Proof. intros Hg w b w' H. inversion H. apply Hg. Qed.

Create HintDb frames discriminated.

Ltac head_of t :=
  lazymatch t with
  | ?f _ => head_of f
  | _ => t
  end.

(** Frame goals by the shape of the computation: the monad's operations by
    their rules, branches by cases, a method by a lemma of the [frames]
    database or else by its body. *)
Ltac frame_step :=
  lazymatch goal with
  | |- preserves _ (bind _ _) => apply preserves_bind; [ | intro ]
  | |- preserves _ (ret _) => apply preserves_ret
  | |- preserves _ get => apply preserves_get
  | |- preserves _ (raise _) => apply preserves_raise
  | |- preserves _ starve => apply preserves_starve
  | |- preserves _ (modify _) => apply preserves_modify; intro; reflexivity
  | |- preserves _ (if ?b then _ else _) => destruct b
  | |- preserves _ (match ?x with _ => _ end) => destruct x
  | |- preserves _ ?m =>
      first [ solve [ auto with frames ]
            | let h := head_of m in unfold h ]
  end.

Ltac frame := repeat frame_step.


Lemma always_ret {A : Type} (a : A) : always_returns (ret a).
Proof. intro w. exists a, w. reflexivity. Qed.

Lemma always_get : always_returns get.
Proof. intro w. exists w, w. reflexivity. Qed.

Lemma always_modify (g : World -> World) : always_returns (modify g).
Proof. intro w. exists tt, (g w). reflexivity. Qed.

Lemma returns_bind {A B : Type} (m : M A) (k : A -> M B) (w : World) :
  returns m w -> (forall a, always_returns (k a)) -> returns (bind m k) w.
Proof.
  intros (a & w1 & Hm) Hk. destruct (Hk a w1) as (b & w2 & Hk').
  exists b, w2. rewrite (bind_Done _ _ _ _ _ Hm). exact Hk'.
Qed.

Lemma always_bind {A B : Type} (m : M A) (k : A -> M B) :
  always_returns m -> (forall a, always_returns (k a)) -> always_returns (bind m k).
Proof. intros Hm Hk w. apply returns_bind; [apply Hm | exact Hk]. Qed.

Ltac total_step :=
  lazymatch goal with
  | |- always_returns (bind _ _) => apply always_bind; [ | intro ]
  | |- always_returns (ret _) => apply always_ret
  | |- always_returns get => apply always_get
  | |- always_returns (modify _) => apply always_modify
  | |- always_returns (if ?b then _ else _) => destruct b
  | |- always_returns (match ?x with _ => _ end) => destruct x
  | |- always_returns ?m => let h := head_of m in unfold h
  end.

Ltac total := repeat total_step.

(** ** Power down *)

Section PowerFacts.

Variable opts : Opts.
Variable env : Env.

Lemma waiting_step (w : World) :
  exists w',
    (__show_red_led opts ;; __show_waiting_for_power_down 0 ;; time_sleep 500) w
    = Done tt w' /\
    clock w' = clock w + 500 /\ relay w' = relay w /\
    client_part w' = client_part w.
Proof.
  unfold_display. destruct (USE_ALARM opts); cbn;
    (eexists; split; [reflexivity |]); cbn; repeat split; lia.
Qed.

Lemma power_down_loop_runs (k : nat) :
  forall (fuel : nat) (t0 : Z) (r : bool) (w : World),
    (forall i : nat, (i < k)%nat ->
       keeps_waiting opts env t0 (clock w + 500 * Z.of_nat i) = true) ->
    keeps_waiting opts env t0 (clock w + 500 * Z.of_nat k) = false ->
    (k < fuel)%nat ->
    exists w',
      power_down_loop opts env fuel t0 r w = Done (r || negb (Nat.eqb k 0)) w' /\
      clock w' = clock w + 500 * Z.of_nat k /\ relay w' = relay w /\
      client_part w' = client_part w.
Proof.
  induction k as [| k IH]; intros fuel t0 r w Hrun Hstop Hfuel.
  - destruct fuel as [| fuel]; [lia |].
    replace (clock w + 500 * Z.of_nat 0) with (clock w) in Hstop by lia.
    exists w. cbn [power_down_loop].
    unfold keeps_waiting in Hstop.
    unfold time_time, device_read_pin, bind, get, ret. cbn.
    rewrite orb_false_r.
    destruct (below_timeout opts (clock w - t0)); cbn in *.
    + rewrite Hstop. repeat split; lia.
    + repeat split; lia.
  - destruct fuel as [| fuel]; [lia |].
    pose proof (Hrun O ltac:(lia)) as H0.
    replace (clock w + 500 * Z.of_nat 0) with (clock w) in H0 by lia.
    unfold keeps_waiting in H0. apply andb_true_iff in H0. destruct H0 as [Hb Hs].
    destruct (waiting_step w) as (w1 & Hstep & Hc1 & Hr1 & Hp1).
    destruct (IH fuel t0 true w1) as (w' & Hloop & Hc & Hr & Hp).
    + intros i Hi. rewrite Hc1.
      replace (clock w + 500 + 500 * Z.of_nat i)
        with (clock w + 500 * Z.of_nat (S i)) by lia.
      apply Hrun. lia.
    + rewrite Hc1.
      replace (clock w + 500 + 500 * Z.of_nat k)
        with (clock w + 500 * Z.of_nat (S k)) by lia.
      exact Hstop.
    + lia.
    + exists w'. split; [| repeat split; try congruence; lia].
      cbn [power_down_loop].
      unfold time_time at 1. unfold device_read_pin at 1.
      unfold bind at 1 2 3 4, get at 1 2, ret at 1 2. cbn [pin_level].
      rewrite Hb, Hs.
      change (power_down_loop opts env fuel t0 true) with
        (fun w => power_down_loop opts env fuel t0 true w).
      revert Hstep. unfold bind. 
      destruct (__show_red_led opts w) as [[] wa | |]; try discriminate.
      destruct (__show_waiting_for_power_down 0 wa) as [[] wb | |]; try discriminate.
      destruct (time_sleep 500 wb) as [[] wc | |]; try discriminate.
      intro Hstep. inversion Hstep; subst.
      rewrite Hloop. rewrite orb_true_r. reflexivity.
Qed.

End PowerFacts.

Section PowerFrames.

Variable opts : Opts.
Variable env : Env.

Lemma power_down_loop_preserves {X : Type} (f : World -> X) :
  preserves f (__show_red_led opts) ->
  preserves f (__show_waiting_for_power_down 0) ->
  preserves f (time_sleep 500) ->
  forall fuel t0 r, preserves f (power_down_loop opts env fuel t0 r).
Proof.
  intros Hled Hlcd Hsleep.
  induction fuel as [| fuel IH]; intros t0 r; cbn [power_down_loop].
  - apply preserves_starve.
  - unfold time_time, device_read_pin. frame; apply IH.
Qed.

Lemma power_down_loop_relay fuel t0 r :
  preserves relay (power_down_loop opts env fuel t0 r).
Proof. apply power_down_loop_preserves; frame. Qed.

Lemma power_down_loop_client fuel t0 r :
  preserves client_part (power_down_loop opts env fuel t0 r).
Proof. apply power_down_loop_preserves; frame. Qed.

End PowerFrames.

#[export] Hint Resolve power_down_loop_relay power_down_loop_client : frames.

Section DisablePower.

Variable opts : Opts.
Variable env : Env.

Lemma disable_power_client fuel :
  preserves client_part (__disable_power opts env fuel).
Proof. frame. Qed.

Lemma disable_power_relay fuel :
  ensures (__disable_power opts env fuel) (fun w => relay w = false).
Proof.
  unfold __disable_power.
  apply ensures_last. intros ?. apply ensures_last. intros ?.
  intros w r w' H. unfold_display. cbn in H.
  destruct (relay w) eqn:Hrelay; inversion H; subst; cbn; auto.
Qed.

Lemma disable_power_low fuel (w : World) :
  relay w = false -> __disable_power opts env fuel w = Done tt w.
Proof.
  intro Hlow. unfold __disable_power, device_read_pin, bind, get, ret.
  cbn. rewrite Hlow. cbn. rewrite Hlow. reflexivity.
Qed.

Lemma coast_runs (k : nat) (w : World) :
  exists w',
    (if negb (Nat.eqb k 0) then __wait_for_logout_coast_time opts else ret tt) w
    = Done tt w' /\
    clock w' = clock w + coast_ms opts k /\ relay w' = relay w /\
    client_part w' = client_part w.
Proof.
  destruct k as [| k]; cbn [Nat.eqb negb coast_ms].
  - exists w. repeat split. lia.
  - unfold __wait_for_logout_coast_time.
    destruct (N.eqb_spec (LOGOUT_COAST_TIME opts) 0) as [-> | _].
    + exists w. repeat split. cbn. lia.
    + unfold_display. eexists. split; [reflexivity |]. cbn. repeat split. lia.
Qed.

Lemma disable_power_high (k fuel : nat) (w : World) :
  relay w = true ->
  first_stop opts env (clock w) k ->
  (k < fuel)%nat ->
  exists w',
    __disable_power opts env fuel w = Done tt w' /\
    clock w' = clock w + 500 * Z.of_nat k + coast_ms opts k /\
    relay w' = false /\
    client_part w' = client_part w.
Proof.
  intros Hhigh [Hrun Hstop] Hfuel.
  destruct (power_down_loop_runs opts env k fuel (clock w) false w Hrun Hstop Hfuel)
    as (w1 & Hloop & Hc1 & Hr1 & Hp1).
  destruct (coast_runs k w1) as (w2 & Hcoast & Hc2 & Hr2 & Hp2).
  unfold __disable_power.
  unfold device_read_pin at 1. unfold bind at 1 2, get at 1, ret at 1.
  cbn [pin_level]. rewrite Hhigh.
  unfold bind at 1. unfold bind at 1. unfold __wait_for_power_down.
  unfold bind at 1. unfold time_time at 1. unfold bind at 1, get at 1, ret at 1.
  rewrite Hloop. cbn [orb]. rewrite Hcoast.
  unfold_display. simpl_world. rewrite Hr2, Hr1, Hhigh.
  eexists. split; [reflexivity |].
  split; [simpl_world; lia | split; [reflexivity |]].
  rewrite <- Hp1, <- Hp2. reflexivity.
Qed.

(** Enough fuel for [__disable_power] to return whatever the relay reads. *)
Lemma disable_power_runs (k fuel : nat) (w : World) :
  first_stop opts env (clock w) k ->
  (k < fuel)%nat ->
  exists w',
    __disable_power opts env fuel w = Done tt w' /\
    relay w' = false /\ client_part w' = client_part w /\ clock w <= clock w'.
Proof.
  intros Hstop Hfuel. destruct (relay w) eqn:Hrelay.
  - destruct (disable_power_high k fuel w Hrelay Hstop Hfuel) as (w' & H & Hc & Hr & Hp).
    assert (0 <= coast_ms opts k) by (destruct k; cbn [coast_ms]; lia).
    exists w'. split; [exact H | split; [exact Hr | split; [exact Hp | lia]]].
  - exists w. rewrite disable_power_low by assumption.
    split; [reflexivity | split; [exact Hrelay | split; [reflexivity | lia]]].
Qed.

Lemma power_down_loop_unbounded fuel :
  MAX_POWER_DOWN_TIMEOUT opts = None ->
  (forall t, pin_input env PIN_CURRENT_SENSE t = true) ->
  forall t0 r w, power_down_loop opts env fuel t0 r w = Starved.
Proof.
  intros Hunset Hdraw. induction fuel as [| fuel IH]; intros t0 r w.
  - reflexivity.
  - cbn [power_down_loop]. unfold below_timeout. rewrite Hunset.
    unfold time_time at 1. unfold device_read_pin at 1.
    unfold bind at 1 2 3 4, get at 1 2, ret at 1 2. cbn [pin_level].
    rewrite Hdraw.
    destruct (waiting_step opts w) as (w1 & Hstep & _).
    revert Hstep. unfold bind.
    destruct (__show_red_led opts w) as [[] wa | |]; try discriminate.
    destruct (__show_waiting_for_power_down 0 wa) as [[] wb | |]; try discriminate.
    destruct (time_sleep 500 wb) as [[] wc | |]; try discriminate.
    intros _. apply IH.
Qed.

(** C2.  The safe power-down sequence [__disable_power].  With the relay pin
    reading low it returns at once and leaves the world as it was: no device
    write, no sleep.  With the relay reading high it polls the current-sense
    pin every 500 ms for as long as current is drawn and the time spent is
    below MAX_POWER_DOWN_TIMEOUT: when [k] polls found the machine running and
    the next one stops the loop, it returns [500 * k] ms later, plus
    LOGOUT_COAST_TIME seconds when [k] is not zero and nothing when it is.
    Whenever it returns the relay is commanded low; an unset timeout bounds
    nothing, a machine that never stops drawing current keeps it waiting. *)
Theorem disable_power_sequence (w : World) :
  (relay w = false -> forall fuel, __disable_power opts env fuel w = Done tt w) /\
  (relay w = true ->
   forall k fuel : nat,
     first_stop opts env (clock w) k -> (k < fuel)%nat ->
     exists w',
       __disable_power opts env fuel w = Done tt w' /\
       clock w' = clock w + 500 * Z.of_nat k + coast_ms opts k /\
       relay w' = false /\
       client_part w' = client_part w) /\
  (forall fuel a w', __disable_power opts env fuel w = Done a w' -> relay w' = false) /\
  (relay w = true ->
   MAX_POWER_DOWN_TIMEOUT opts = None ->
   (forall t, pin_input env PIN_CURRENT_SENSE t = true) ->
   forall fuel, __disable_power opts env fuel w = Starved).
Proof.
  split; [| split; [| split]].
  - intros Hlow fuel. apply disable_power_low. exact Hlow.
  - intros Hhigh k fuel Hstop Hfuel. apply disable_power_high; assumption.
  - intros fuel a w' H. exact (disable_power_relay fuel w a w' H).
  - intros Hhigh Hunset Hdraw fuel.
    unfold __disable_power, __wait_for_power_down.
    unfold device_read_pin at 1. unfold bind at 1 2, get at 1, ret at 1.
    cbn [pin_level]. rewrite Hhigh.
    unfold bind at 1. unfold bind at 1. unfold bind at 1.
    unfold time_time at 1. unfold bind at 1, get at 1, ret at 1.
    rewrite power_down_loop_unbounded by assumption. reflexivity.
Qed.

End DisablePower.

(** ** Entry actions and transitions *)

#[export] Hint Extern 1 (preserves _ (power_down_loop _ _ _ _ _)) =>
  apply power_down_loop_preserves; frame : frames.

(** The relay after a computation: set by the power methods, kept by what
    follows them. *)
Ltac relay_step :=
  lazymatch goal with
  | |- ensures (__disable_power _ _ _) _ => apply disable_power_relay
  | |- ensures (device_write_pin PIN_POWER_RELAY _) _ =>
      apply ensures_modify; intro; reflexivity
  | |- ensures (bind _ _) _ =>
      first [ apply (ensures_then relay); [ | intro; solve [ frame ] ]
            | apply ensures_last; intro ]
  | |- ensures ?m _ => let h := head_of m in unfold h
  end.

Section MachineFacts.

Variable opts : Opts.
Variable env : Env.

Lemma on_enter_state fuel (s : State.t) :
  preserves state (on_enter opts env fuel s).
Proof. destruct s; frame. Qed.

Lemma on_enter_relay fuel (s : State.t) :
  s <> State.INITIALIZED ->
  ensures (on_enter opts env fuel s) (fun w => relay w = energized_mode s).
Proof.
  intro Hs. destruct s; try congruence; cbn [energized_mode on_enter];
    repeat relay_step.
Qed.



Lemma update_status_writes (w : World) :
  update_status w =
  Done tt (with_status_file (String.append (State.name (state w)) newline) w).
Proof. reflexivity. Qed.


(** What a transition that was carried out leaves behind. *)
Lemma execute_done fuel (tr : Transition) (kw : Kwargs) (w w' : World) :
  execute opts env fuel tr kw w = Done true w' ->
  state w' = dest tr /\
  status_file w' = String.append (State.name (state w')) newline /\
  (dest tr <> State.INITIALIZED -> relay w' = energized_mode (state w')).
Proof.
  unfold execute. intro H. inv_bind H.
  destruct a; [| unfold ret in H; inv_done].
  inv_bind H. inv_bind H. inv_bind H.
  rewrite update_status_writes in Hrun2.
  unfold modify in Hrun0. unfold ret in H. inv_done.
  pose proof (on_enter_state _ _ _ _ _ Hrun1) as Hstate. cbn in Hstate.
  cbn [state status_file relay with_status_file].
  rewrite Hstate. split; [reflexivity | split; [reflexivity |]].
  intro Hdest. exact (on_enter_relay fuel (dest tr) Hdest _ _ _ Hrun1).
Qed.

Lemma try_transitions_done fuel (trs : list Transition) (kw : Kwargs) :
  forall w w',
    try_transitions opts env fuel trs kw w = Done true w' ->
    exists tr w0, In tr trs /\ execute opts env fuel tr kw w0 = Done true w'.
Proof.
  induction trs as [| tr rest IH]; intros w w' H; cbn [try_transitions] in H.
  - unfold ret in H. inv_done.
  - inv_bind H. destruct a.
    + unfold ret in H. inv_done. exists tr, w. split; [left; reflexivity | assumption].
    + destruct (IH _ _ H) as (tr' & wa & Hin & Hex).
      exists tr', wa. split; [right; assumption | assumption].
Qed.

Lemma trigger_done fuel (trg : Trigger.t) (kw : Kwargs) (w w' : World) :
  _trigger opts env fuel trg kw w = Done true w' ->
  exists tr w0,
    In tr transitions /\ trigger tr = trg /\
    execute opts env fuel tr kw w0 = Done true w'.
Proof.
  unfold _trigger. intro H. inv_bind H. unfold get in Hrun. inv_done.
  destruct (try_transitions_done _ _ _ _ _ H) as (tr & wa & Hin & Hex).
  unfold transitions_from in Hin. apply filter_In in Hin.
  destruct Hin as [Hin Hsel]. apply andb_true_iff in Hsel. destruct Hsel as [Htrg _].
  exists tr, wa. split; [assumption | split; [| assumption]].
  destruct (trigger tr), trg; (reflexivity || discriminate).
Qed.

End MachineFacts.

(** ** Relay, status file, emergency stop *)

Section MachineClaims.

Variable opts : Opts.
Variable env : Env.


(** C8.  After every transition that was carried out, the status file holds
    exactly the name of the new mode followed by one newline, whatever it held
    before: [update_status] empties the file and writes it anew. *)
Theorem status_file_follows_mode (fuel : nat) (trg : Trigger.t) (kw : Kwargs)
    (w w' : World) :
  _trigger opts env fuel trg kw w = Done true w' ->
  status_file w' = String.append (State.name (state w')) (String (ascii_of_nat 10) EmptyString).
Proof.
  intro H.
  destruct (trigger_done opts env _ _ _ _ _ H) as (tr & w0 & _ & _ & Hex).
  destruct (execute_done opts env _ _ _ _ _ Hex) as (_ & Hstatus & _).
  exact Hstatus.
Qed.

(** C9.  In UNLOCKED a change of the emergency stop input, activation
    included, changes nothing: the estop trigger has no transition from
    UNLOCKED and is dropped, so the mode stays UNLOCKED, the relay stays as it
    was and so does everything else. *)
Theorem estop_ignored_when_unlocked (fuel : nat) (w : World) :
  state w = State.UNLOCKED ->
  queue w = [] ->
  (2 <= fuel)%nat ->
  transitions_from Trigger.ESTOP State.UNLOCKED = [] /\
  estop_change opts env fuel w = Done tt w.
Proof.
  intros Hstate Hqueue Hfuel. split; [reflexivity |].
  destruct fuel as [| [| fuel]]; try lia.
  unfold estop_change, is_estop_activated, fire, enqueue, bind, get, ret, modify.
  simpl_world. rewrite Hstate. cbn [State.eqb negb].
  destruct (USE_ESTOP opts &&
            (ESTOP_ACTIVE_HI opts && pin_input env PIN_ESTOP (clock w)
             || negb (ESTOP_ACTIVE_HI opts) && negb (pin_input env PIN_ESTOP (clock w))));
    [| reflexivity].
  cbn beta. rewrite Hqueue. cbn.
  unfold _trigger, bind, get, ret, modify. simpl_world. rewrite Hstate. cbn.
  destruct w; cbn in *; subst; reflexivity.
Qed.

End MachineClaims.

(** ** Waiting for training *)

Section TrainingGuard.

Variable opts : Opts.
Variable env : Env.

Lemma not_terminated (w : World) :
  state w <> State.TERMINATED -> State.eqb (state w) State.TERMINATED = false.
Proof. destruct (state w); intro H; (reflexivity || contradiction). Qed.

Lemma with_clock_twice (a b : Z) (w : World) :
  with_clock b (with_clock a w) = with_clock b w.
Proof. reflexivity. Qed.

(** The loop of [is_waiting_for_training], entered at [t0] and now at its
    poll number [j] with [n] polls left before the two seconds are over. *)
Lemma training_wait_loop_runs (n : nat) :
  forall (j fuel : nat) (t0 : Z) (w : World),
    state w <> State.TERMINATED ->
    clock w = t0 + 100 * Z.of_nat j ->
    (j + n = 20)%nat ->
    (n < fuel)%nat ->
    exists k : nat,
      (k <= n)%nat /\
      (forall i : nat, (i < k)%nat ->
         pin_input env PIN_LOGOUT (clock w + 100 * Z.of_nat i) = true) /\
      (k = n \/ pin_input env PIN_LOGOUT (clock w + 100 * Z.of_nat k) = false) /\
      training_wait_loop env fuel t0 w
      = Done tt (with_clock (clock w + 100 * Z.of_nat k) w).
Proof.
  induction n as [| n IH]; intros j fuel t0 w Hlive Hclock Hleft Hfuel;
    (destruct fuel as [| fuel]; [lia |]);
    cbn [training_wait_loop];
    unfold is_terminated, status, time_time, device_read_pin, bind, get, ret;
    cbn [pin_level]; rewrite (not_terminated w Hlive); cbn [negb andb].
  - exists O. split; [lia | split; [intros i Hi; lia | split; [left; reflexivity |]]].
    replace (clock w - t0 <? 1000 * training_mode_delay_seconds) with false
      by (symmetry; apply Z.ltb_ge; unfold training_mode_delay_seconds; lia).
    cbn [andb]. f_equal. rewrite <- (world_eta w) at 1. unfold with_clock.
    f_equal. lia.
  - replace (clock w - t0 <? 1000 * training_mode_delay_seconds) with true
      by (symmetry; apply Z.ltb_lt; unfold training_mode_delay_seconds; lia).
    cbn [andb].
    destruct (pin_input env PIN_LOGOUT (clock w)) eqn:Hpin.
    + unfold time_sleep, modify.
      destruct (IH (S j) fuel t0 (with_clock (clock w + 100) w))
        as (k & Hk & Hheld & Hend & Hloop).
      * exact Hlive.
      * cbn [clock with_clock]. lia.
      * lia.
      * lia.
      * cbn [clock with_clock] in Hheld, Hend, Hloop.
        exists (S k). split; [lia | split; [| split]].
        -- intros [| i] Hi.
           ++ replace (clock w + 100 * Z.of_nat 0) with (clock w) by lia. exact Hpin.
           ++ replace (clock w + 100 * Z.of_nat (S i))
                with (clock w + 100 + 100 * Z.of_nat i) by lia.
              apply Hheld. lia.
        -- destruct Hend as [-> | Hend]; [left; reflexivity | right].
           replace (clock w + 100 * Z.of_nat (S k))
             with (clock w + 100 + 100 * Z.of_nat k) by lia.
           exact Hend.
        -- rewrite Hloop. rewrite with_clock_twice.
           replace (clock w + 100 * Z.of_nat (S k))
             with (clock w + 100 + 100 * Z.of_nat k) by lia.
           reflexivity.
    + exists O. split; [lia | split; [intros i Hi; lia | split]].
      * right. replace (clock w + 100 * Z.of_nat 0) with (clock w) by lia. exact Hpin.
      * f_equal. rewrite <- (world_eta w) at 1. unfold with_clock. f_equal. lia.
Qed.

(** C7.  Where training mode is disabled by configuration, or the controller
    is a continuous-unlock door, [is_waiting_for_training] answers false at
    once.  Otherwise it polls the logout pin every 100 ms, at most 20 times:
    [k] polls find the button held, then either the two seconds are over
    ([k = 20]) or the button reads released; it returns [100 * k] ms after it
    was called, and what it returns is the level the logout pin reads at that
    instant, the end of the window. *)
Theorem waiting_for_training_window (fuel : nat) (w : World) :
  ((IS_A_DOOR opts && DOOR_CONTINUOUS_UNLOCK opts) || DISABLE_TRAINING_MODE opts = true ->
   is_waiting_for_training opts env fuel w = Done false w) /\
  ((IS_A_DOOR opts && DOOR_CONTINUOUS_UNLOCK opts) || DISABLE_TRAINING_MODE opts = false ->
   state w <> State.TERMINATED ->
   (21 <= fuel)%nat ->
   exists k : nat,
     (k <= 20)%nat /\
     (forall i : nat, (i < k)%nat ->
        pin_input env PIN_LOGOUT (clock w + 100 * Z.of_nat i) = true) /\
     (k = 20%nat \/ pin_input env PIN_LOGOUT (clock w + 100 * Z.of_nat k) = false) /\
     is_waiting_for_training opts env fuel w
     = Done (pin_input env PIN_LOGOUT (clock w + 100 * Z.of_nat k))
            (with_clock (clock w + 100 * Z.of_nat k) w)).
Proof.
  unfold is_waiting_for_training. split.
  - intros ->. reflexivity.
  - intros -> Hlive Hfuel.
    destruct (training_wait_loop_runs 20 0 fuel (clock w) w Hlive)
      as (k & Hk & Hheld & Hend & Hloop); try lia.
    exists k. split; [exact Hk | split; [exact Hheld | split; [exact Hend |]]].
    unfold time_time, device_read_pin.
    unfold bind at 1 2, get at 1, ret at 1. unfold bind at 1. rewrite Hloop.
    reflexivity.
Qed.

End TrainingGuard.

(** ** Sessions: extension, override, expiry *)

(** Everything of the client but its loops, for runs that are computed. *)
Ltac unfold_client :=
  unfold handle_badge_code, __logout_timer_tick, fire, enqueue, _trigger, execute,
    on_enter, on_enter_idle, on_enter_in_use, on_enter_unlocked, on_enter_estop,
    on_enter_bypassed, on_enter_in_training, on_enter_terminated,
    check_condition, should_extend_current_session, is_authorized, __do_login,
    __ensure_idle, __ensure_estop, __ensure_bypass, __ensure_in_use,
    __ensure_unlocked, __do_logout, __extend_session, __is_current_badge_code,
    server_login_call, user_info_is_not_None, __show_session_extended,
    __show_no_extensions_remaining, __show_remaining_time, __toggle_red_led,
    set_user_info_item, the_user_info, __start_logout_timer,
    __start_relock_timer, __cancel_logout_timer, __cancel_relock_timer,
    new_timer, __update_user_context, __enable_power, update_status, status,
    is_terminated, is_bypass_detected, is_estop_activated in *;
  unfold_display.

(** Run a straight-line computation by cases on what it branches on. *)
Ltac run_cases Huser :=
  repeat first
    [ progress (cbn; rewrite ?Huser)
    | match goal with
      | H : ?x = _ |- context [match ?x with _ => _ end] => rewrite H
      | H : ?x = _ |- context [if ?x then _ else _] => rewrite H
      | |- context [if extensions_truthy ?e then _ else _] =>
          destruct (extensions_truthy e) eqn:?
      | |- context [match remaining_extensions ?u with _ => _ end] =>
          destruct (remaining_extensions u) eqn:?
      | |- context [match logout_timer ?w with _ => _ end] =>
          destruct (logout_timer w) eqn:?
      | |- context [match relock_timer ?w with _ => _ end] =>
          destruct (relock_timer w) eqn:?
      | |- context [match user_info ?w with _ => _ end] =>
          destruct (user_info w) eqn:?
      | |- context [if ?a <? ?b then _ else _] => destruct (a <? b) eqn:?
      | |- context [if USE_ALARM ?o then _ else _] => destruct (USE_ALARM o) eqn:?
      end ].

Section SessionClaims.

Variable opts : Opts.
Variable env : Env.

Local Arguments __disable_power : simpl never.
Local Arguments lcd_line : simpl never.
Local Arguments format_02d : simpl never.
Local Arguments String.append : simpl never.
Local Arguments Z.add : simpl never.
Local Arguments Z.sub : simpl never.
Local Arguments Z.mul : simpl never.
Local Arguments Z.div : simpl never.
Local Arguments Z.modulo : simpl never.
Local Arguments Z.ltb : simpl never.
Local Arguments Z.leb : simpl never.
Local Arguments Z.eqb : simpl never.
Local Arguments String.eqb : simpl never.

Lemma extend_session_spec (w : World) (u : UserInfo) :
  user_info w = Some u ->
  exists w',
    __extend_session opts env w = Done tt w' /\
    user_info w' = Some (extended u) /\
    logout_timer w' = Some (timer_seq w) /\
    timer_seq w' = S (timer_seq w) /\
    (forall h, logout_timer w = Some h -> In h (cancelled w')) /\
    state w' = state w /\ queue w' = queue w /\ relay w' = relay w /\
    status_file w' = status_file w.
Proof.
  intro Huser. unfold extended.
  unfold_client.
  destruct (logout_timer w) as [h |] eqn:Htimer;
    run_cases Huser;
    (eexists; split; [reflexivity |]); cbn;
    repeat split; try reflexivity; try assumption.
  all: intros h0 Hh0; try discriminate; inversion Hh0; subst; left; reflexivity.
Qed.

Lemma on_enter_in_use_spec (w : World) :
  exists w',
    on_enter_in_use opts w = Done tt w' /\
    relay w' = true /\
    logout_timer w' = Some (timer_seq w) /\
    timer_seq w' = S (timer_seq w) /\
    (forall h, logout_timer w = Some h \/ In h (cancelled w) -> In h (cancelled w')) /\
    state w' = state w /\ user_info w' = user_info w /\ queue w' = queue w.
Proof.
  unfold_client.
  destruct (logout_timer w) as [h |] eqn:Htimer;
    run_cases Htimer;
    (eexists; split; [reflexivity |]); cbn;
    repeat split; try reflexivity.
  all: intros h0 [Hh0 | Hh0]; try discriminate; try assumption.
  - inversion Hh0; subst. left; reflexivity.
  - right; assumption.
  - inversion Hh0; subst. left; reflexivity.
  - right; assumption.
Qed.

Lemma is_current_badge_code_same (w : World) (u : UserInfo) :
  user_info w = Some u ->
  badge_code u <> EmptyString ->
  __is_current_badge_code (Some (badge_code u)) w = Done true w.
Proof.
  intros Huser Hbadge. unfold __is_current_badge_code, bind, get, ret.
  rewrite Huser. rewrite String.eqb_refl.
  apply String.eqb_neq in Hbadge. rewrite Hbadge. reflexivity.
Qed.

Lemma bind_yields {A B : Type} (m : M A) (k : A -> M B) (w w1 w2 : World) (a : A) (b : B) :
  m w = Done a w1 -> k a w1 = Done b w2 -> bind m k w = Done b w2.
Proof. intros Hm Hk. rewrite (bind_Done _ _ _ _ _ Hm). exact Hk. Qed.

(** A trigger called with nothing queued, whose transition queues nothing. *)
Lemma fire_single (n : nat) (trg : Trigger.t) (kw : Kwargs) (w w1 : World) (b : bool) :
  queue w = [] ->
  _trigger opts env (S n) trg kw (with_queue [(trg, kw)] w) = Done b w1 ->
  queue w1 = [(trg, kw)] ->
  fire opts env (S (S n)) trg kw w = Done tt (with_queue [] w1).
Proof.
  intros Hqueue Htrigger Hqueue1.
  unfold fire, enqueue. unfold bind at 1 2, modify at 1, get at 1, ret at 1.
  cbn [queue with_queue]. rewrite Hqueue. cbn [app List.length Nat.ltb Nat.leb].
  cbn [process_queue]. unfold bind at 1, get at 1. cbn [queue with_queue].
  eapply bind_yields; [exact Htrigger |].
  unfold bind, modify, get, ret. cbn [queue with_queue]. rewrite Hqueue1. reflexivity.
Qed.

Lemma trigger_login_in_use (fuel : nat) (kw : Kwargs) (w : World) :
  state w = State.IN_USE ->
  _trigger opts env fuel Trigger.LOGIN kw w =
  (ok <- should_extend_current_session opts env fuel kw ;;
   if ok then
     (modify (with_state State.IN_USE) ;;
      on_enter_in_use opts ;;
      update_status ;;
      ret true)
   else ret false) w.
Proof.
  intro Hstate. unfold _trigger. unfold bind at 1, get at 1. rewrite Hstate.
  cbn [transitions_from transitions filter trigger source Trigger.eqb existsb
       State.eqb andb orb try_transitions].
  unfold execute. cbn [conditions dest check_conditions check_condition on_enter].
  unfold bind, ret.
  destruct (should_extend_current_session opts env fuel kw w) as [[|] w1 | |];
    try reflexivity.
  unfold modify.
  destruct (on_enter_in_use opts (with_state State.IN_USE w1)) as [[] w2 | |];
    reflexivity.
Qed.

Lemma same_badge_guard (fuel : nat) (w : World) (u : UserInfo) :
  user_info w = Some u ->
  badge_code u <> EmptyString ->
  exists w',
    should_extend_current_session opts env fuel (Some (badge_code u)) w = Done true w' /\
    user_info w' = Some (extended u) /\
    logout_timer w' = Some (timer_seq w) /\
    timer_seq w' = S (timer_seq w) /\
    (forall h, logout_timer w = Some h -> In h (cancelled w')) /\
    state w' = state w /\ queue w' = queue w /\ relay w' = relay w /\
    status_file w' = status_file w.
Proof.
  intros Huser Hbadge.
  destruct (extend_session_spec w u Huser) as (w' & Hext & Hfacts).
  exists w'. split; [| exact Hfacts].
  unfold should_extend_current_session.
  eapply bind_yields; [apply is_current_badge_code_same; assumption |].
  cbn iota. eapply bind_yields; [exact Hext | reflexivity].
Qed.

(** C5, amended.  A badge scanned in IN_USE whose code is not empty and
    equals the badge code of the current user context: the guard
    [should_extend_current_session] returns true; when [remaining_extensions]
    is not zero the remaining seconds grow by exactly the session length and
    the extensions drop by one, unless they are unbounded and stay so; when it
    is zero the user context is left as it was.  Either way the mode stays
    IN_USE, the relay stays on, the timer that was live is cancelled and a new
    one is started. *)
Theorem same_badge_extends_session (fuel : nat) (w : World) (u : UserInfo) (h : nat) :
  state w = State.IN_USE ->
  queue w = [] ->
  user_info w = Some u ->
  logout_timer w = Some h ->
  badge_code u <> EmptyString ->
  (2 <= fuel)%nat ->
  (exists w1,
     should_extend_current_session opts env fuel (Some (badge_code u)) w = Done true w1 /\
     user_info w1 = Some (extended u)) /\
  (exists w' h',
     handle_badge_code opts env fuel (Some (badge_code u)) w = Done tt w' /\
     state w' = State.IN_USE /\
     user_info w' = Some (extended u) /\
     logout_timer w' = Some h' /\ (timer_seq w <= h')%nat /\ In h (cancelled w') /\
     relay w' = true) /\
  (remaining_extensions u <> Finite 0 ->
   remaining_seconds (extended u) = remaining_seconds u + session_seconds u /\
   remaining_extensions (extended u) =
     match remaining_extensions u with
     | Finite n => Finite (n - 1)
     | Unbounded => Unbounded
     end) /\
  (remaining_extensions u = Finite 0 -> extended u = u).
Proof.
  intros Hstate Hqueue Huser Htimer Hbadge Hfuel.
  split; [| split; [| split]].
  - destruct (same_badge_guard fuel w u Huser Hbadge) as (w1 & Hguard & Hu1 & _).
    exists w1. split; assumption.
  - destruct fuel as [| [| n]]; try lia.
    set (kw := Some (badge_code u)).
    set (W := with_queue [(Trigger.LOGIN, kw)] w).
    destruct (same_badge_guard (S n) W u Huser Hbadge)
      as (w2 & Hguard & Hu2 & Ht2 & Hseq2 & Hc2 & Hs2 & Hq2 & Hr2 & _).
    destruct (on_enter_in_use_spec (with_state State.IN_USE w2))
      as (w3 & Henter & Hr3 & Ht3 & Hseq3 & Hc3 & Hs3 & Hu3 & Hq3).
    cbn [state user_info queue logout_timer timer_seq cancelled with_state]
      in Ht3, Hseq3, Hc3, Hs3, Hu3, Hq3.
    assert (Htrigger :
      _trigger opts env (S n) Trigger.LOGIN kw W
      = Done true (with_status_file (String.append (State.name (state w3)) newline) w3)).
    { rewrite trigger_login_in_use by exact Hstate.
      eapply bind_yields; [exact Hguard |]. cbn iota.
      eapply bind_yields; [reflexivity |].
      eapply bind_yields; [exact Henter |].
      eapply bind_yields; [apply update_status_writes | reflexivity]. }
    exists (with_queue [] (with_status_file (String.append (State.name (state w3)) newline) w3)),
           (timer_seq w2).
    split.
    + unfold handle_badge_code. unfold bind at 1, get at 1. rewrite Hstate.
      cbn [State.eqb]. apply (fire_single n Trigger.LOGIN kw w _ true Hqueue Htrigger).
      cbn [queue with_status_file]. rewrite Hq3, Hq2. reflexivity.
    + cbn [state user_info logout_timer cancelled relay with_queue with_status_file].
      rewrite Hs3, Hu3, Hu2, Ht3, Hr3.
      repeat split; try reflexivity.
      * rewrite Hseq2. cbn [timer_seq W with_queue]. lia.
      * apply Hc3. right. apply Hc2. exact Htimer.
  - intro Hext. unfold extended.
    destruct (remaining_extensions u) as [n0 |] eqn:He; cbn.
    + destruct (Z.eqb_spec n0 0) as [-> | Hn0]; [congruence |].
      cbn. rewrite ?He. split; reflexivity.
    + cbn. rewrite ?He. split; reflexivity.
  - intro Hext. unfold extended. rewrite Hext. reflexivity.
Qed.

Lemma is_current_badge_code_other (kw : Kwargs) (w : World) (u : UserInfo) :
  user_info w = Some u ->
  kw <> Some (badge_code u) ->
  __is_current_badge_code kw w = Done false w.
Proof.
  intros Huser Hother. unfold __is_current_badge_code, bind, get, ret.
  rewrite Huser. destruct kw as [n |]; [| reflexivity].
  destruct (String.eqb_spec (badge_code u) n) as [<- | _]; [congruence |].
  rewrite andb_false_r. reflexivity.
Qed.

(** A login in override form that the server does not grant. *)
Lemma do_login_override_fails (fuel : nat) (kw : Kwargs) (w : World) :
  server_login env kw (clock w + 1000) = LoginUnauthorized \/
  server_login env kw (clock w + 1000) = LoginError ->
  exists w',
    __do_login opts env fuel true kw w
    = Done (match user_info w with Some _ => true | None => false end) w' /\
    client_part w' = client_part w /\ relay w' = true.
Proof.
  intro Hanswer. unfold __do_login.
  unfold_client. cbn. change (1000 * 1) with 1000.
  destruct Hanswer as [Hanswer | Hanswer]; rewrite Hanswer;
    run_cases Hanswer;
    (eexists; split; [reflexivity |]); cbn;
    repeat split; congruence.
Qed.

(** A login from IDLE, relay off, that the server answers with unauthorized. *)
Lemma do_login_unauthorized (fuel : nat) (kw : Kwargs) (w : World) :
  relay w = false ->
  server_login env kw (clock w + 1000) = LoginUnauthorized ->
  exists w',
    __do_login opts env fuel false kw w = Done false w' /\
    user_info w' = None /\ state w' = state w /\ queue w' = queue w /\
    relay w' = false.
Proof.
  intros Hrelay Hanswer. unfold __do_login.
  unfold_client. cbn. change (1000 * 1) with 1000. rewrite Hanswer.
  run_cases Hanswer.
  all: match goal with
       | |- context [__disable_power _ _ _ ?W] =>
           rewrite (disable_power_low opts env fuel W) by exact Hrelay
       end.
  all: run_cases Hanswer.
  all: (eexists; split; [reflexivity |]); cbn; repeat split; assumption.
Qed.

Lemma trigger_login_idle (fuel : nat) (kw : Kwargs) (w : World) :
  state w = State.IDLE ->
  _trigger opts env fuel Trigger.LOGIN kw w =
  (ok <- is_authorized opts env fuel kw ;;
   if ok then
     (modify (with_state State.IN_USE) ;;
      on_enter_in_use opts ;;
      update_status ;;
      ret true)
   else ret false) w.
Proof.
  intro Hstate. unfold _trigger. unfold bind at 1, get at 1. rewrite Hstate.
  cbn [transitions_from transitions filter trigger source Trigger.eqb existsb
       State.eqb andb orb try_transitions].
  unfold execute. cbn [conditions dest check_conditions check_condition on_enter].
  unfold bind, ret.
  destruct (is_authorized opts env fuel kw w) as [[|] w1 | |]; try reflexivity.
  unfold modify.
  destruct (on_enter_in_use opts (with_state State.IN_USE w1)) as [[] w2 | |];
    reflexivity.
Qed.

Lemma cancel_logout_timer_spec (refresh : bool) (w : World) :
  exists w',
    __cancel_logout_timer refresh w = Done tt w' /\
    logout_timer w' = None /\
    (forall h, logout_timer w = Some h -> In h (cancelled w')) /\
    state w' = state w /\ user_info w' = user_info w /\ queue w' = queue w /\
    timer_seq w' = timer_seq w /\ relay w' = relay w /\ clock w' = clock w.
Proof.
  unfold __cancel_logout_timer, bind, get, ret, modify.
  destruct (logout_timer w) as [h |] eqn:Htimer;
    (eexists; split; [reflexivity |]); cbn; repeat split; try reflexivity.
  all: intros h0 Hh0; try discriminate; inversion Hh0; subst; left; reflexivity.
Qed.

(** The guard of the IN_USE self-transition on a badge that is not the
    current one, override allowed, the server not granting the login. *)
Lemma override_fails_guard (fuel : nat) (kw : Kwargs) (w : World) (u : UserInfo) :
  user_info w = Some u ->
  kw <> Some (badge_code u) ->
  ALLOW_USER_OVERRIDE opts = true ->
  server_login env kw (clock w + 1000) = LoginUnauthorized \/
  server_login env kw (clock w + 1000) = LoginError ->
  exists w',
    should_extend_current_session opts env fuel kw w = Done true w' /\
    user_info w' = Some u /\ state w' = state w /\ queue w' = queue w /\
    timer_seq w' = timer_seq w /\
    (forall h, logout_timer w = Some h -> In h (cancelled w')) /\
    relay w' = true.
Proof.
  intros Huser Hother Hallow Hanswer.
  destruct (cancel_logout_timer_spec false w)
    as (wc & Hcancel & Htc & Hcc & Hsc & Huc & Hqc & Hseqc & Hrc & Hclock).
  rewrite <- Hclock in Hanswer.
  destruct (do_login_override_fails fuel kw wc Hanswer) as (w' & Hlogin & Hpart & Hrelay).
  unfold client_part in Hpart. injection Hpart as Hs Hu Ht Hrt Hseq Hc Hq Hsf Hsl.
  exists w'. split.
  - unfold should_extend_current_session.
    eapply bind_yields; [apply (is_current_badge_code_other kw w u); assumption |].
    cbn iota. rewrite Hallow.
    eapply bind_yields; [exact Hcancel |].
    eapply bind_yields; [exact Hlogin | reflexivity].
  - repeat split; try congruence.
    intros h Hh. rewrite Hc. apply Hcc. exact Hh.
Qed.

(** The scan that the guard above answers, as an event. *)
Lemma override_fails_scan (n : nat) (kw : Kwargs) (w : World) (u : UserInfo) :
  state w = State.IN_USE ->
  queue w = [] ->
  user_info w = Some u ->
  kw <> Some (badge_code u) ->
  ALLOW_USER_OVERRIDE opts = true ->
  server_login env kw (clock w + 1000) = LoginUnauthorized \/
  server_login env kw (clock w + 1000) = LoginError ->
  exists w',
    handle_badge_code opts env (S (S n)) kw w = Done tt w' /\
    state w' = State.IN_USE /\ user_info w' = Some u /\
    logout_timer w' = Some (timer_seq w) /\
    (forall h, logout_timer w = Some h -> In h (cancelled w')) /\
    relay w' = true.
Proof.
  intros Hstate Hqueue Huser Hother Hallow Hanswer.
  set (W := with_queue [(Trigger.LOGIN, kw)] w).
  destruct (override_fails_guard (S n) kw W u Huser Hother Hallow Hanswer)
    as (w2 & Hguard & Hu2 & Hs2 & Hq2 & Hseq2 & Hc2 & Hr2).
  destruct (on_enter_in_use_spec (with_state State.IN_USE w2))
    as (w3 & Henter & Hr3 & Ht3 & Hseq3 & Hc3 & Hs3 & Hu3 & Hq3).
  cbn [state user_info queue logout_timer timer_seq cancelled with_state]
    in Ht3, Hseq3, Hc3, Hs3, Hu3, Hq3.
  assert (Htrigger :
    _trigger opts env (S n) Trigger.LOGIN kw W
    = Done true (with_status_file (String.append (State.name (state w3)) newline) w3)).
  { rewrite trigger_login_in_use by exact Hstate.
    eapply bind_yields; [exact Hguard |]. cbn iota.
    eapply bind_yields; [reflexivity |].
    eapply bind_yields; [exact Henter |].
    eapply bind_yields; [apply update_status_writes | reflexivity]. }
  exists (with_queue [] (with_status_file (String.append (State.name (state w3)) newline) w3)).
  split.
  - unfold handle_badge_code. unfold bind at 1, get at 1. rewrite Hstate.
    cbn [State.eqb]. apply (fire_single n Trigger.LOGIN kw w _ true Hqueue Htrigger).
    cbn [queue with_status_file]. rewrite Hq3, Hq2. reflexivity.
  - cbn [state user_info logout_timer cancelled relay with_queue with_status_file].
    rewrite Hs3, Hu3, Hu2, Ht3, Hr3, Hseq2.
    repeat split; try reflexivity.
    intros h Hh. apply Hc3. right. apply Hc2. exact Hh.
Qed.

(** C10.  An override login, a badge that is not the current one scanned in
    IN_USE with ALLOW_USER_OVERRIDE set, that the server does not grant,
    whether by rejecting the badge or by any other error:
    [should_extend_current_session] still returns true, the user context of
    the previous user is kept as it was, remaining seconds included, and the
    re-entry of IN_USE cancels the timer that was live and starts a new one,
    relay on. *)
Theorem failed_override_keeps_session (fuel : nat) (kw : Kwargs) (w : World)
    (u : UserInfo) (h : nat) :
  state w = State.IN_USE ->
  queue w = [] ->
  user_info w = Some u ->
  logout_timer w = Some h ->
  kw <> Some (badge_code u) ->
  ALLOW_USER_OVERRIDE opts = true ->
  server_login env kw (clock w + 1000) = LoginUnauthorized \/
  server_login env kw (clock w + 1000) = LoginError ->
  (2 <= fuel)%nat ->
  (exists w1,
     should_extend_current_session opts env fuel kw w = Done true w1 /\
     user_info w1 = Some u) /\
  (exists w' h',
     handle_badge_code opts env fuel kw w = Done tt w' /\
     state w' = State.IN_USE /\
     user_info w' = Some u /\
     logout_timer w' = Some h' /\ (timer_seq w <= h')%nat /\ In h (cancelled w') /\
     relay w' = true).
Proof.
  intros Hstate Hqueue Huser Htimer Hother Hallow Hanswer Hfuel. split.
  - destruct (override_fails_guard fuel kw w u Huser Hother Hallow Hanswer)
      as (w1 & Hguard & Hu1 & _).
    exists w1. split; assumption.
  - destruct fuel as [| [| n]]; try lia.
    destruct (override_fails_scan n kw w u Hstate Hqueue Huser Hother Hallow Hanswer)
      as (w' & Hscan & Hs & Hu & Ht & Hc & Hr).
    exists w', (timer_seq w).
    repeat split; try assumption; [lia | apply Hc; exact Htimer].
Qed.

(** C4, amended.  A login that the server answers with unauthorized.  As a
    normal login from IDLE: the guard [is_authorized] returns false, the user
    context is empty afterwards and the mode is IDLE.  As an override from
    IN_USE: the mode is IN_USE afterwards, but the guard of that transition
    returns true and the user context is the previous user's, unchanged, not
    empty. *)
Theorem unauthorized_login :
  (forall fuel kw w,
     state w = State.IDLE -> queue w = [] -> relay w = false ->
     server_login env kw (clock w + 1000) = LoginUnauthorized ->
     (2 <= fuel)%nat ->
     (exists w1,
        is_authorized opts env fuel kw w = Done false w1 /\
        user_info w1 = None /\ state w1 = State.IDLE) /\
     (exists w',
        handle_badge_code opts env fuel kw w = Done tt w' /\
        user_info w' = None /\ state w' = State.IDLE)) /\
  (forall fuel kw w u,
     state w = State.IN_USE -> queue w = [] -> user_info w = Some u ->
     kw <> Some (badge_code u) -> ALLOW_USER_OVERRIDE opts = true ->
     server_login env kw (clock w + 1000) = LoginUnauthorized ->
     (2 <= fuel)%nat ->
     (exists w1,
        should_extend_current_session opts env fuel kw w = Done true w1 /\
        user_info w1 = Some u /\ state w1 = State.IN_USE) /\
     (exists w',
        handle_badge_code opts env fuel kw w = Done tt w' /\
        user_info w' = Some u /\ state w' = State.IN_USE)).
Proof.
  split.
  - intros fuel kw w Hstate Hqueue Hrelay Hanswer Hfuel. split.
    + destruct (do_login_unauthorized fuel kw w Hrelay Hanswer)
        as (w1 & Hlogin & Hu1 & Hs1 & _).
      exists w1. repeat split; try assumption. congruence.
    + destruct fuel as [| [| n]]; try lia.
      set (W := with_queue [(Trigger.LOGIN, kw)] w).
      destruct (do_login_unauthorized (S n) kw W Hrelay Hanswer)
        as (w1 & Hlogin & Hu1 & Hs1 & Hq1 & _).
      assert (Htrigger : _trigger opts env (S n) Trigger.LOGIN kw W = Done false w1).
      { rewrite trigger_login_idle by exact Hstate.
        eapply bind_yields; [exact Hlogin | reflexivity]. }
      exists (with_queue [] w1). split.
      * unfold handle_badge_code. unfold bind at 1, get at 1. rewrite Hstate.
        cbn [State.eqb].
        apply (fire_single n Trigger.LOGIN kw w _ false Hqueue Htrigger).
        exact Hq1.
      * cbn [user_info state with_queue]. split; [exact Hu1 |].
        rewrite Hs1. exact Hstate.
  - intros fuel kw w u Hstate Hqueue Huser Hother Hallow Hanswer Hfuel. split.
    + destruct (override_fails_guard fuel kw w u Huser Hother Hallow (or_introl Hanswer))
        as (w1 & Hguard & Hu1 & Hs1 & _).
      exists w1. repeat split; try assumption. congruence.
    + destruct fuel as [| [| n]]; try lia.
      destruct (override_fails_scan n kw w u Hstate Hqueue Huser Hother Hallow
                  (or_introl Hanswer))
        as (w' & Hscan & Hs & Hu & _).
      exists w'. repeat split; assumption.
Qed.

Lemma set_remaining_seconds_same (v : Z) (u : UserInfo) :
  v = remaining_seconds u -> set_remaining_seconds v u = u.
Proof. intros ->. destruct u. reflexivity. Qed.

Lemma set_remaining_seconds_twice (a b c : Z) (u : UserInfo) :
  a = c ->
  set_remaining_seconds a (set_remaining_seconds b u) = set_remaining_seconds c u.
Proof. intros ->. reflexivity. Qed.

Lemma tick_counts_down (fuel : nat) (w : World) (u : UserInfo) (h : nat) :
  state w <> State.TERMINATED ->
  user_info w = Some u ->
  0 < remaining_seconds u ->
  logout_timer w = Some h ->
  exists w',
    __logout_timer_tick opts env fuel w = Done tt w' /\
    user_info w' = Some (set_remaining_seconds (remaining_seconds u - 1) u) /\
    logout_timer w' = Some (timer_seq w) /\
    state w' = state w /\ queue w' = queue w /\ relay w' = relay w /\
    clock w' = clock w.
Proof.
  intros Hlive Huser Hleft Htimer.
  assert (Hle : (remaining_seconds u <=? 0) = false) by (apply Z.leb_gt; exact Hleft).
  pose proof (not_terminated w Hlive) as Hterm.
  unfold logout_timer_interval_seconds.
  unfold_client. cbn. rewrite Hterm, Huser, Htimer. cbn. rewrite Hle.
  run_cases Huser;
    (eexists; split; [reflexivity |]); cbn; repeat split; reflexivity.
Qed.

Lemma ticks_count_down (fuel : nat) (n : nat) :
  forall (w : World) (u : UserInfo) (h : nat),
    state w = State.IN_USE ->
    user_info w = Some u ->
    Z.of_nat n <= remaining_seconds u ->
    logout_timer w = Some h ->
    exists w' h',
      session_ticks opts env fuel n w = Done tt w' /\
      user_info w'
      = Some (set_remaining_seconds (remaining_seconds u - Z.of_nat n) u) /\
      logout_timer w' = Some h' /\
      state w' = State.IN_USE /\ queue w' = queue w /\ relay w' = relay w /\
      clock w' = clock w + 1000 * Z.of_nat n.
Proof.
  induction n as [| n IH]; intros w u h Hstate Huser Hleft Htimer.
  - exists w, h. cbn [session_ticks]. split; [reflexivity |].
    repeat split; try assumption; try lia.
    rewrite Huser. f_equal. symmetry. apply set_remaining_seconds_same. lia.
  - destruct (IH w u h Hstate Huser ltac:(lia) Htimer)
      as (w1 & h1 & Hrun & Hu1 & Ht1 & Hs1 & Hq1 & Hr1 & Hc1).
    set (w2 := with_clock (clock w1 + 1000 * logout_timer_interval_seconds) w1).
    destruct (tick_counts_down fuel w2
                (set_remaining_seconds (remaining_seconds u - Z.of_nat n) u) h1)
      as (w3 & Htick & Hu3 & Ht3 & Hs3 & Hq3 & Hr3 & Hc3).
    + cbn [state w2 with_clock]. rewrite Hs1. discriminate.
    + exact Hu1.
    + cbn [remaining_seconds set_remaining_seconds]. lia.
    + exact Ht1.
    + exists w3, (timer_seq w2). cbn [session_ticks]. split.
      * eapply bind_yields; [exact Hrun |].
        eapply bind_yields; [reflexivity | exact Htick].
      * cbn [remaining_seconds set_remaining_seconds state queue relay clock
             w2 with_clock] in Hu3, Hs3, Hq3, Hr3, Hc3.
        unfold logout_timer_interval_seconds in Hc3.
        repeat split; try congruence; try lia.
        rewrite Hu3. f_equal. apply set_remaining_seconds_twice. lia.
Qed.

Lemma do_logout_spec (w : World) :
  exists w',
    __do_logout w = Done tt w' /\
    user_info w' = None /\ logout_timer w' = None /\ relock_timer w' = None /\
    state w' = state w /\ queue w' = queue w /\ relay w' = relay w /\
    clock w' = clock w.
Proof.
  unfold_client.
  run_cases (eq_refl (state w));
    (eexists; split; [reflexivity |]); cbn; repeat split; reflexivity.
Qed.

(** Entering IDLE: logged out, relay off, and the bypass trigger queued when
    bypass is detected half a second later. *)
Lemma on_enter_idle_spec (fuel k : nat) (w : World) :
  first_stop opts env (clock w) k -> (k < fuel)%nat ->
  exists w',
    on_enter_idle opts env fuel w = Done tt w' /\
    relay w' = false /\ user_info w' = None /\ logout_timer w' = None /\
    state w' = state w /\
    queue w' = queue w ++
      (if bypass_at opts env (clock w') then [(Trigger.BYPASS, None)] else []).
Proof.
  intros Hstop Hfuel.
  destruct (do_logout_spec w) as (w1 & Hlogout & Hu1 & Ht1 & _ & Hs1 & Hq1 & _ & Hc1).
  rewrite <- Hc1 in Hstop.
  destruct (disable_power_runs opts env k fuel w1 Hstop Hfuel)
    as (w2 & Hdisable & Hr2 & Hp2 & _).
  unfold client_part in Hp2. injection Hp2 as Hs2 Hu2 Ht2 _ _ _ Hq2 _ _.
  unfold on_enter_idle, __ensure_idle, bypass_at.
  assert (Hshow : exists w3,
    (__show_blue_led opts ;; __show_scan_badge) w2 = Done tt w3 /\
    client_part w3 = client_part w2 /\ relay w3 = relay w2).
  { unfold_display. destruct (USE_ALARM opts);
      (eexists; split; [reflexivity |]); split; reflexivity. }
  destruct Hshow as (w3 & Hshow & Hp3 & Hr3).
  unfold client_part in Hp3. injection Hp3 as Hs3 Hu3 Ht3 _ _ _ Hq3 _ _.
  assert (Hidle : __ensure_idle opts env fuel w = Done tt w3).
  { unfold __ensure_idle.
    eapply bind_yields; [exact Hlogout |].
    eapply bind_yields; [exact Hdisable | exact Hshow]. }
  unfold __ensure_idle in Hidle.
  unfold is_bypass_detected, enqueue, time_sleep.
  destruct (USE_BYPASS_DETECT opts && pin_input env PIN_BYPASS_DETECT (clock w3 + 500))
    eqn:Hbypass.
  - eexists. split.
    + eapply bind_yields; [exact Hidle |].
      unfold bind, modify, get, ret. cbn [pin_level clock with_clock].
      rewrite Hbypass. reflexivity.
    + cbn [relay user_info logout_timer state queue clock with_queue with_clock].
      rewrite Hbypass.
      rewrite Hr3, Hu3, Hu2, Ht3, Ht2, Hs3, Hs2, Hq3, Hq2, Hq1.
      repeat split; assumption.
  - eexists. split.
    + eapply bind_yields; [exact Hidle |].
      unfold bind, modify, get, ret. cbn [pin_level clock with_clock].
      rewrite Hbypass. reflexivity.
    + cbn [relay user_info logout_timer state queue clock with_queue with_clock].
      rewrite Hbypass. rewrite app_nil_r.
      rewrite Hr3, Hu3, Hu2, Ht3, Ht2, Hs3, Hs2, Hq3, Hq2, Hq1.
      repeat split; assumption.
Qed.

(** Entering BYPASSED with the relay already off takes no time. *)
Lemma on_enter_bypassed_spec (fuel : nat) (w : World) :
  relay w = false ->
  exists w',
    on_enter_bypassed opts env fuel w = Done tt w' /\
    relay w' = false /\ user_info w' = None /\ logout_timer w' = None /\
    state w' = state w /\ queue w' = queue w /\ clock w' = clock w.
Proof.
  intro Hrelay. unfold on_enter_bypassed. unfold_client.
  run_cases Hrelay.
  all: match goal with
       | |- context [__disable_power _ _ _ ?W] =>
           rewrite (disable_power_low opts env fuel W) by exact Hrelay
       end.
  all: run_cases Hrelay.
  all: (eexists; split; [reflexivity |]); cbn; repeat split; try assumption;
       reflexivity.
Qed.

Lemma trigger_logout_in_use (fuel : nat) (kw : Kwargs) (w : World) :
  state w = State.IN_USE ->
  _trigger opts env fuel Trigger.LOGOUT kw w =
  (modify (with_state State.IDLE) ;;
   on_enter_idle opts env fuel ;;
   update_status ;;
   ret true) w.
Proof.
  intro Hstate. unfold _trigger. unfold bind at 1, get at 1. rewrite Hstate.
  cbn [transitions_from transitions filter trigger source Trigger.eqb existsb
       State.eqb andb orb try_transitions].
  unfold execute. cbn [conditions dest check_conditions check_condition on_enter].
  unfold bind, ret, modify.
  destruct (on_enter_idle opts env fuel (with_state State.IDLE w)) as [[] w2 | |];
    reflexivity.
Qed.

Lemma trigger_bypass_idle (fuel : nat) (kw : Kwargs) (w : World) :
  state w = State.IDLE ->
  _trigger opts env fuel Trigger.BYPASS kw w =
  (modify (with_state State.BYPASSED) ;;
   on_enter_bypassed opts env fuel ;;
   update_status ;;
   ret true) w.
Proof.
  intro Hstate. unfold _trigger. unfold bind at 1, get at 1. rewrite Hstate.
  cbn [transitions_from transitions filter trigger source Trigger.eqb existsb
       State.eqb andb orb try_transitions].
  unfold execute. cbn [conditions dest check_conditions check_condition on_enter].
  unfold bind, ret, modify.
  destruct (on_enter_bypassed opts env fuel (with_state State.BYPASSED w)) as [[] w2 | |];
    reflexivity.
Qed.

Lemma tick_fires (fuel : nat) (w : World) (u : UserInfo) (h : nat) :
  state w = State.IN_USE ->
  user_info w = Some u ->
  remaining_seconds u <= 0 ->
  logout_timer w = Some h ->
  __logout_timer_tick opts env fuel w = fire opts env fuel Trigger.LOGOUT None w.
Proof.
  intros Hstate Huser Hleft Htimer.
  unfold __logout_timer_tick, is_terminated, status, bind, get, ret.
  cbv beta. rewrite Hstate, Huser, Htimer. cbn [State.eqb negb].
  replace (remaining_seconds u <=? 0) with true by (symmetry; apply Z.leb_le; exact Hleft).
  reflexivity.
Qed.

(** The tick that finds no time left: the session is logged out through
    IDLE, and on to BYPASSED when bypass is detected on the way. *)
Lemma tick_expires (fuel k : nat) (w : World) (u : UserInfo) (h : nat) :
  state w = State.IN_USE ->
  queue w = [] ->
  user_info w = Some u ->
  remaining_seconds u <= 0 ->
  logout_timer w = Some h ->
  first_stop opts env (clock w) k ->
  (k + 2 < fuel)%nat ->
  exists w',
    __logout_timer_tick opts env fuel w = Done tt w' /\
    relay w' = false /\ user_info w' = None /\ logout_timer w' = None /\
    queue w' = [] /\
    state w' = (if bypass_at opts env (clock w') then State.BYPASSED else State.IDLE).
Proof.
  intros Hstate Hqueue Huser Hleft Htimer Hstop Hfuel.
  destruct fuel as [| [| [| f3]]]; try lia.
  set (f2 := S f3). set (f1 := S f2).
  set (W := with_queue [(Trigger.LOGOUT, None)] w).
  destruct (on_enter_idle_spec f1 k (with_state State.IDLE W) Hstop ltac:(unfold f1, f2; lia))
    as (w4 & Hidle & Hr4 & Hu4 & Ht4 & Hs4 & Hq4).
  cbn [state queue with_state W with_queue app] in Hs4, Hq4.
  set (w5 := with_status_file (String.append (State.name (state w4)) newline) w4).
  assert (Htrigger : _trigger opts env f1 Trigger.LOGOUT None W = Done true w5).
  { rewrite trigger_logout_in_use by exact Hstate.
    eapply bind_yields; [reflexivity |].
    eapply bind_yields; [exact Hidle |].
    eapply bind_yields; [apply update_status_writes | reflexivity]. }
  set (w6 := with_queue (tl (queue w5)) w5).
  assert (Hfire : forall w',
    process_queue opts env f1 w6 = Done tt w' ->
    __logout_timer_tick opts env (S f1) w = Done tt w').
  { intros w' Hrest.
    rewrite (tick_fires (S f1) w u h Hstate Huser Hleft Htimer).
    unfold fire, enqueue. unfold bind at 1 2, modify at 1, get at 1.
    cbn [queue with_queue]. rewrite Hqueue. cbn [app List.length Nat.ltb Nat.leb].
    cbn [process_queue].
    eapply bind_yields; [reflexivity |]. cbn [queue with_queue].
    eapply bind_yields; [exact Htrigger |].
    eapply bind_yields; [reflexivity | exact Hrest]. }
  destruct (bypass_at opts env (clock w4)) eqn:Hbypass.
  - assert (Hs6 : state w6 = State.IDLE) by exact Hs4.
    assert (Hr6 : relay (with_state State.BYPASSED w6) = false) by exact Hr4.
    destruct (on_enter_bypassed_spec f2 (with_state State.BYPASSED w6) Hr6)
      as (w7 & Hbyp & Hr7 & Hu7 & Ht7 & Hs7 & Hq7 & Hc7).
    cbn [state queue clock with_state w6 w5 with_queue with_status_file]
      in Hs7, Hq7, Hc7.
    rewrite Hq4 in Hq7. cbn [tl] in Hq7.
    set (w8 := with_status_file (String.append (State.name (state w7)) newline) w7).
    exists (with_queue (tl (queue w8)) w8). split.
    + apply Hfire. unfold f1. cbn [process_queue].
      eapply bind_yields; [reflexivity |].
      cbn [queue w6 w5 with_queue with_status_file]. rewrite Hq4. cbn [tl].
      fold w5. fold w6.
      eapply bind_yields.
      { rewrite trigger_bypass_idle by exact Hs6.
        eapply bind_yields; [reflexivity |].
        eapply bind_yields; [exact Hbyp |].
        eapply bind_yields; [apply update_status_writes | reflexivity]. }
      eapply bind_yields; [reflexivity |].
      unfold f2. cbn [process_queue].
      eapply bind_yields; [reflexivity |].
      cbn [queue w8 with_queue with_status_file]. rewrite Hq7. reflexivity.
    + cbn [relay user_info logout_timer queue state clock w8 with_queue with_status_file].
      rewrite Hq7, Hc7, Hbypass.
      repeat split; assumption.
  - exists w6. split.
    + apply Hfire. unfold f1. cbn [process_queue].
      eapply bind_yields; [reflexivity |].
      cbn [queue w6 w5 with_queue with_status_file]. rewrite Hq4. reflexivity.
    + cbn [relay user_info logout_timer queue state clock w6 w5 with_queue with_status_file].
      rewrite Hq4, Hbypass.
      repeat split; assumption.
Qed.

(** C3, amended.  From IN_USE with [remaining_seconds = N], the session timer
    live and no other event: [N] ticks count the remaining seconds down to
    zero and leave the mode IN_USE and the relay as it was; it is the tick
    after them, tick [N + 1], that logs the session out.  Provided the
    power-down wait of that logout ends, after [k] polls, the machine having
    stopped drawing current or MAX_POWER_DOWN_TIMEOUT having run out, tick
    [N + 1] returns with the relay commanded low and the user context gone;
    the mode is then IDLE, or BYPASSED when entering IDLE found bypass
    detected. *)
Theorem session_expires_one_tick_later (fuel N k : nat) (w : World)
    (u : UserInfo) (h : nat) :
  state w = State.IN_USE ->
  queue w = [] ->
  user_info w = Some u ->
  remaining_seconds u = Z.of_nat N ->
  logout_timer w = Some h ->
  (exists wN,
     session_ticks opts env fuel N w = Done tt wN /\
     state wN = State.IN_USE /\ relay wN = relay w /\
     user_info wN = Some (set_remaining_seconds 0 u)) /\
  (first_stop opts env (clock w + 1000 * (Z.of_nat N + 1)) k ->
   (k + 2 < fuel)%nat ->
   exists w',
     session_ticks opts env fuel (S N) w = Done tt w' /\
     relay w' = false /\ user_info w' = None /\
     state w' = (if bypass_at opts env (clock w') then State.BYPASSED else State.IDLE)).
Proof.
  intros Hstate Hqueue Huser Hleft Htimer.
  destruct (ticks_count_down fuel N w u h Hstate Huser ltac:(lia) Htimer)
    as (wN & hN & Hrun & HuN & HtN & HsN & HqN & HrN & HcN).
  assert (Hzero : set_remaining_seconds (remaining_seconds u - Z.of_nat N) u
                  = set_remaining_seconds 0 u)
    by (unfold set_remaining_seconds; f_equal; lia).
  rewrite Hzero in HuN.
  split.
  - exists wN. repeat split; assumption.
  - intros Hstop Hfuel.
    set (w1 := with_clock (clock wN + 1000 * logout_timer_interval_seconds) wN).
    destruct (tick_expires fuel k w1 (set_remaining_seconds 0 u) hN)
      as (w' & Htick & Hr & Hu & _ & _ & Hs).
    + exact HsN.
    + cbn [queue w1 with_clock]. rewrite HqN. exact Hqueue.
    + exact HuN.
    + cbn. lia.
    + exact HtN.
    + cbn [clock w1 with_clock]. rewrite HcN.
      unfold logout_timer_interval_seconds.
      replace (clock w + 1000 * Z.of_nat N + 1000 * 1)
        with (clock w + 1000 * (Z.of_nat N + 1)) by lia.
      exact Hstop.
    + exact Hfuel.
    + exists w'. split; [| repeat split; assumption].
      cbn [session_ticks].
      eapply bind_yields; [exact Hrun |].
      eapply bind_yields; [reflexivity | exact Htick].
Qed.

End SessionClaims.

(** * Further properties of the controller *)

(** ** Timers *)

Lemma keeps_ret {A : Type} (P : World -> Prop) (a : A) : keeps P (ret a).
Proof. intros w b w' HP H. inversion H; subst. exact HP. Qed.

Lemma keeps_get (P : World -> Prop) : keeps P get.
Proof. intros w b w' HP H. inversion H; subst. exact HP. Qed.

Lemma keeps_raise {A : Type} (P : World -> Prop) (e : string) : keeps P (@raise A e).
Proof. intros w b w' HP H. discriminate H. Qed.

Lemma keeps_starve {A : Type} (P : World -> Prop) : keeps P (@starve A).
Proof. intros w b w' HP H. discriminate H. Qed.

Lemma keeps_bind {A B : Type} (P : World -> Prop) (m : M A) (k : A -> M B) :
  keeps P m -> (forall a, keeps P (k a)) -> keeps P (bind m k).
Proof.
  intros Hm Hk w b w' HP H. inv_bind H.
  eapply Hk; [| exact H]. eapply Hm; eassumption.
Qed.

Lemma keeps_by_view {A X : Type} (P : World -> Prop) (f : World -> X) (m : M A) :
  (forall w w', f w' = f w -> P w -> P w') ->
  preserves f m -> keeps P m.
Proof. intros Hview Hm w a w' HP H. apply (Hview w w'); [eapply Hm; exact H | exact HP]. Qed.

Lemma training_wait_loop_preserves {X : Type} (env : Env) (f : World -> X) :
  preserves f (time_sleep 100) ->
  forall fuel t0, preserves f (training_wait_loop env fuel t0).
Proof.
  intro Hsleep. induction fuel as [| fuel IH]; intro t0; cbn [training_wait_loop].
  - apply preserves_starve.
  - unfold is_terminated, status, time_time, device_read_pin. frame; apply IH.
Qed.

#[export] Hint Extern 1 (preserves _ (training_wait_loop _ _ _)) =>
  apply training_wait_loop_preserves; frame : frames.

Lemma accounted_by_view (w w' : World) :
  timers_view w' = timers_view w -> timers_accounted w -> timers_accounted w'.
Proof.
  unfold timers_view, timers_accounted. intros Hview H.
  injection Hview as -> -> -> ->. exact H.
Qed.

Lemma cancel_logout_timer_accounted (refresh : bool) :
  keeps timers_accounted (__cancel_logout_timer refresh).
Proof.
  intros w a w' (Hl & Hr & Hc & Hall) H.
  unfold __cancel_logout_timer, bind, get, ret, modify in H.
  destruct (logout_timer w) as [h |] eqn:Htimer; inversion H; subst; clear H;
    unfold timers_accounted; cbn.
  - destruct (Hl h eq_refl) as (Hlt & Hnc & Hne).
    split; [intros h0 Hh0; discriminate |].
    split; [| split].
    + intros h0 Hh0. destruct (Hr h0 Hh0) as (Hlt0 & Hnc0).
      split; [exact Hlt0 |]. intros [-> | Hin]; [congruence | contradiction].
    + intros h0 [<- | Hin]; [exact Hlt | apply Hc; exact Hin].
    + intros h0 Hh0. destruct (Hall h0 Hh0) as [Ha | [Ha | Ha]].
      * right; right; left. congruence.
      * right; left; exact Ha.
      * right; right; right; exact Ha.
  - split; [intros h0 Hh0; discriminate |].
    split; [exact Hr | split; [exact Hc |]].
    intros h0 Hh0. destruct (Hall h0 Hh0) as [Ha | Ha]; [discriminate | right; exact Ha].
Qed.

Lemma cancel_relock_timer_accounted :
  keeps timers_accounted __cancel_relock_timer.
Proof.
  intros w a w' (Hl & Hr & Hc & Hall) H.
  unfold __cancel_relock_timer, bind, get, ret, modify in H.
  destruct (relock_timer w) as [h |] eqn:Htimer; inversion H; subst; clear H;
    unfold timers_accounted; cbn.
  - destruct (Hr h eq_refl) as (Hlt & Hnc).
    split; [| split; [intros h0 Hh0; discriminate | split]].
    + intros h0 Hh0. destruct (Hl h0 Hh0) as (Hlt0 & Hnc0 & Hne0).
      split; [exact Hlt0 | split; [| discriminate]].
      intros [-> | Hin]; [congruence | contradiction].
    + intros h0 [<- | Hin]; [exact Hlt | apply Hc; exact Hin].
    + intros h0 Hh0. destruct (Hall h0 Hh0) as [Ha | [Ha | Ha]].
      * left; exact Ha.
      * right; right; left. congruence.
      * right; right; right; exact Ha.
  - split; [| split; [intros h0 Hh0; discriminate | split; [exact Hc |]]].
    + intros h0 Hh0. destruct (Hl h0 Hh0) as (Hlt0 & Hnc0 & _).
      split; [exact Hlt0 | split; [exact Hnc0 | discriminate]].
    + intros h0 Hh0. destruct (Hall h0 Hh0) as [Ha | [Ha | Ha]];
        [left; exact Ha | discriminate | right; right; exact Ha].
Qed.

Lemma start_logout_timer_accounted (refresh : bool) :
  keeps timers_accounted (__start_logout_timer refresh).
Proof.
  unfold __start_logout_timer. intros w a w' HP H. inv_bind H.
  pose proof (cancel_logout_timer_accounted refresh _ _ _ HP Hrun) as (Hl & Hr & Hc & Hall).
  assert (Hnone : logout_timer w0 = None).
  { unfold __cancel_logout_timer, bind, get, ret, modify in Hrun.
    destruct (logout_timer w); inversion Hrun; reflexivity. }
  unfold new_timer, bind, get, ret, modify in H. inversion H; subst; clear H.
  unfold timers_accounted; cbn.
  split; [| split; [| split]].
  - intros h0 Hh0. inversion Hh0; subst. split; [lia | split].
    + intro Hin. apply Hc in Hin. lia.
    + intro Hrel. apply Hr in Hrel. lia.
  - intros h0 Hh0. destruct (Hr h0 Hh0) as (Hlt & Hnc). split; [lia | exact Hnc].
  - intros h0 Hin. apply Hc in Hin. lia.
  - intros h0 Hh0. destruct (Nat.eq_dec h0 (timer_seq w0)) as [-> | Hne].
    + left; reflexivity.
    + destruct (Hall h0 ltac:(lia)) as [Ha | Ha]; [congruence | right; exact Ha].
Qed.

Lemma start_relock_timer_accounted :
  keeps timers_accounted __start_relock_timer.
Proof.
  unfold __start_relock_timer. intros w a w' HP H. inv_bind H.
  pose proof (cancel_relock_timer_accounted _ _ _ HP Hrun) as (Hl & Hr & Hc & Hall).
  assert (Hnone : relock_timer w0 = None).
  { unfold __cancel_relock_timer, bind, get, ret, modify in Hrun.
    destruct (relock_timer w); inversion Hrun; reflexivity. }
  unfold new_timer, bind, get, ret, modify in H. inversion H; subst; clear H.
  unfold timers_accounted; cbn.
  split; [| split; [| split]].
  - intros h0 Hh0. destruct (Hl h0 Hh0) as (Hlt & Hnc & _).
    split; [lia | split; [exact Hnc |]]. intro Heq. inversion Heq. lia.
  - intros h0 Hh0. inversion Hh0; subst. split; [lia |].
    intro Hin. apply Hc in Hin. lia.
  - intros h0 Hin. apply Hc in Hin. lia.
  - intros h0 Hh0. destruct (Nat.eq_dec h0 (timer_seq w0)) as [-> | Hne].
    + right; left; reflexivity.
    + destruct (Hall h0 ltac:(lia)) as [Ha | [Ha | Ha]];
        [left; exact Ha | congruence | right; right; exact Ha].
Qed.

(** A property that rests on the timers alone: kept by the four timer
    methods, and by whatever leaves the timers alone. *)
Ltac accounted_step :=
  lazymatch goal with
  | |- keeps _ (__cancel_logout_timer _) => apply cancel_logout_timer_accounted
  | |- keeps _ __cancel_relock_timer => apply cancel_relock_timer_accounted
  | |- keeps _ (__start_logout_timer _) => apply start_logout_timer_accounted
  | |- keeps _ __start_relock_timer => apply start_relock_timer_accounted
  | |- keeps _ (ret _) => apply keeps_ret
  | |- keeps _ get => apply keeps_get
  | |- keeps _ (raise _) => apply keeps_raise
  | |- keeps _ starve => apply keeps_starve
  | |- keeps _ (if ?b then _ else _) => destruct b
  | |- keeps _ (match ?x with _ => _ end) => destruct x
  | |- keeps _ (bind _ _) =>
      first [ solve [ apply (keeps_by_view _ timers_view _ accounted_by_view); frame ]
            | apply keeps_bind; [ | intro ] ]
  | |- keeps _ ?m =>
      first [ solve [ apply (keeps_by_view _ timers_view _ accounted_by_view); frame ]
            | solve [ auto with accounted ]
            | let h := head_of m in unfold h ]
  end.

Create HintDb accounted discriminated.

Section TimerInvariant.

Variable opts : Opts.
Variable env : Env.

Lemma on_enter_accounted fuel (s : State.t) :
  keeps timers_accounted (on_enter opts env fuel s).
Proof. destruct s; repeat accounted_step. Qed.

Lemma check_condition_accounted fuel (c : Condition) (kw : Kwargs) :
  keeps timers_accounted (check_condition opts env fuel c kw).
Proof. destruct c; repeat accounted_step. Qed.

Lemma check_conditions_accounted fuel (cs : list Condition) (kw : Kwargs) :
  keeps timers_accounted (check_conditions opts env fuel cs kw).
Proof.
  induction cs as [| c cs IH]; cbn [check_conditions].
  - apply keeps_ret.
  - apply keeps_bind; [apply check_condition_accounted |].
    intros [|]; [exact IH | apply keeps_ret].
Qed.

Lemma execute_accounted fuel (tr : Transition) (kw : Kwargs) :
  keeps timers_accounted (execute opts env fuel tr kw).
Proof.
  unfold execute. apply keeps_bind; [apply check_conditions_accounted |].
  intros [|]; [| apply keeps_ret].
  apply keeps_bind; [repeat accounted_step |]. intros _.
  apply keeps_bind; [apply on_enter_accounted |]. intros _.
  repeat accounted_step.
Qed.

Lemma try_transitions_accounted fuel (trs : list Transition) (kw : Kwargs) :
  keeps timers_accounted (try_transitions opts env fuel trs kw).
Proof.
  induction trs as [| tr trs IH]; cbn [try_transitions].
  - apply keeps_ret.
  - apply keeps_bind; [apply execute_accounted |].
    intros [|]; [apply keeps_ret | exact IH].
Qed.

Lemma trigger_accounted fuel (trg : Trigger.t) (kw : Kwargs) :
  keeps timers_accounted (_trigger opts env fuel trg kw).
Proof.
  unfold _trigger. apply keeps_bind; [apply keeps_get |].
  intro w. apply try_transitions_accounted.
Qed.

Lemma process_queue_accounted fuel :
  keeps timers_accounted (process_queue opts env fuel).
Proof.
  induction fuel as [| fuel IH]; cbn [process_queue].
  - apply keeps_starve.
  - apply keeps_bind; [apply keeps_get |]. intro w.
    destruct (queue w) as [| [trg kw] rest]; [apply keeps_ret |].
    apply keeps_bind; [apply trigger_accounted |]. intros _.
    apply keeps_bind; [repeat accounted_step | intros _; exact IH].
Qed.

Lemma fire_accounted fuel (trg : Trigger.t) (kw : Kwargs) :
  keeps timers_accounted (fire opts env fuel trg kw).
Proof.
  unfold fire. apply keeps_bind; [repeat accounted_step |]. intros _.
  apply keeps_bind; [apply keeps_get |]. intro w.
  destruct (1 <? List.length (queue w))%nat;
    [apply keeps_ret | apply process_queue_accounted].
Qed.

End TimerInvariant.

#[export] Hint Resolve fire_accounted : accounted.

Section TimerInvariantOfHappenings.

Variable opts : Opts.
Variable env : Env.

(** X1.  No happening leaves a timer unaccounted for: if every timer started
    so far is the current session timer, the current relock timer or
    cancelled, the current ones not cancelled and distinct, then the same
    holds after a scanned badge, the logout button, a change of the emergency
    stop or bypass input, and a tick of either timer.  So at most one session
    timer and one relock timer are ever live. *)
Theorem timers_stay_accounted (fuel : nat) (h : Happening) (w w' : World) :
  timers_accounted w ->
  happen opts env fuel h w = Done tt w' ->
  timers_accounted w'.
Proof.
  intros HP H.
  assert (Hkeeps : keeps timers_accounted (happen opts env fuel h))
    by (destruct h; cbn [happen]; repeat accounted_step).
  exact (Hkeeps _ _ _ HP H).
Qed.

End TimerInvariantOfHappenings.

(** ** The mode and what goes with it *)



Lemma do_logout_resets_user :
  ensures __do_logout (fun w => (user_info w, logout_timer w) = (None, None)).
Proof.
  intros w a w' H.
  destruct (do_logout_spec w) as (w1 & Hrun & Hu & Ht & _).
  rewrite Hrun in H. inversion H; subst. rewrite Hu, Ht. reflexivity.
Qed.

Lemma do_logout_resets_relock :
  ensures __do_logout (fun w => relock_timer w = None).
Proof.
  intros w a w' H.
  destruct (do_logout_spec w) as (w1 & Hrun & _ & _ & Hr & _).
  rewrite Hrun in H. inversion H; subst. exact Hr.
Qed.

(** What follows [__do_logout] up to the end of an entry action leaves the
    user context and the timers alone. *)
Ltac reset_step f :=
  lazymatch goal with
  | |- ensures __do_logout _ =>
      first [ apply do_logout_resets_user | apply do_logout_resets_relock ]
  | |- ensures (bind _ _) _ =>
      first [ apply (ensures_then f); [ | intro; solve [ frame ] ]
            | apply ensures_last; intro ]
  | |- ensures ?m _ => let h := head_of m in unfold h
  end.

Section EntryResets.

Variable opts : Opts.
Variable env : Env.

Lemma on_enter_resets fuel (s : State.t) :
  s <> State.INITIALIZED -> s <> State.IN_USE ->
  ensures (on_enter opts env fuel s)
    (fun w => (user_info w, logout_timer w) = (None, None)).
Proof.
  intros Hs1 Hs2. destruct s; try congruence; cbn [on_enter];
    repeat reset_step (fun w : World => (user_info w, logout_timer w)).
Qed.

Lemma on_enter_relock fuel (s : State.t) :
  s <> State.INITIALIZED -> s <> State.IN_USE -> s <> State.UNLOCKED ->
  ensures (on_enter opts env fuel s) (fun w => relock_timer w = None).
Proof.
  intros Hs1 Hs2 Hs3. destruct s; try congruence; cbn [on_enter];
    repeat reset_step (fun w : World => relock_timer w).
Qed.

Lemma start_relock_timer_live (w : World) (a : unit) (w' : World) :
  __start_relock_timer w = Done a w' -> relock_timer w' <> None.
Proof.
  unfold __start_relock_timer, __cancel_relock_timer, new_timer, bind, get, ret, modify.
  destruct (relock_timer w); intro H; inversion H; discriminate.
Qed.


Lemma on_enter_status fuel (s : State.t) :
  preserves status_file (on_enter opts env fuel s).
Proof. destruct s; frame. Qed.


End EntryResets.

Section GuardsAndTransitions.

Variable opts : Opts.
Variable env : Env.


Lemma do_login_override_view fuel (kw : Kwargs) :
  preserves (fun w => (state w, status_file w, relock_timer w))
    (__do_login opts env fuel true kw).
Proof. unfold __do_login. cbn [negb]. frame. Qed.



#[local] Hint Resolve do_login_override_view : frames.





Lemma entry_returns_true fuel (s : State.t) (w w' : World) (a : bool) :
  (modify (with_state s) ;; on_enter opts env fuel s ;; update_status ;; ret true) w
  = Done a w' -> a = true.
Proof.
  intro H. inv_bind H. inv_bind H. inv_bind H. unfold ret in H. inversion H. reflexivity.
Qed.



End GuardsAndTransitions.


Section ConsistentKept.

Variable opts : Opts.
Variable env : Env.

















End ConsistentKept.

Section ConsistentOfHappenings.

Variable opts : Opts.
Variable env : Env.


End ConsistentOfHappenings.

(** ** Logging out *)

Section Logout.

Variable opts : Opts.
Variable env : Env.

Lemma do_logout_notifies (w : World) (a : unit) (w' : World) :
  __do_logout w = Done a w' -> server_logouts w' = notified w.
Proof.
  unfold notified, __do_logout, __cancel_logout_timer, __cancel_relock_timer,
    __update_user_context, bind, get, ret, modify.
  cbn. destruct (logout_timer w); cbn; destruct (relock_timer w); cbn;
    destruct (user_info w); cbn; intro H; inversion H; reflexivity.
Qed.


End Logout.

(** ** Entering a mode, with fuel *)

Lemma bind_assoc {A B C : Type} (m : M A) (k : A -> M B) (k' : B -> M C) (w : World) :
  bind (bind m k) k' w = bind m (fun a => bind (k a) k') w.
Proof. unfold bind. destruct (m w) as [a w1 | |]; reflexivity. Qed.

Lemma with_queue_twice (a b : list (Trigger.t * Kwargs)) (w : World) :
  with_queue b (with_queue a w) = with_queue b w.
Proof. reflexivity. Qed.

Lemma queue_nil_eta (w : World) : queue w = [] -> with_queue [] w = w.
Proof. intro H. destruct w; cbn in *; subst; reflexivity. Qed.

Section Entries.

Variable opts : Opts.
Variable env : Env.

Lemma disable_power_settles fuel n (w : World) :
  settles opts env fuel w -> (fuel <= n + 2)%nat ->
  exists w',
    __disable_power opts env n w = Done tt w' /\
    relay w' = false /\ client_part w' = client_part w.
Proof.
  intros [Hlow | (k & Hstop & Hk)] Hn.
  - exists w. rewrite disable_power_low by exact Hlow.
    split; [reflexivity | split; [exact Hlow | reflexivity]].
  - destruct (disable_power_runs opts env k n w Hstop ltac:(lia)) as (w' & H & Hr & Hp & _).
    exists w'. split; [exact H | split; assumption].
Qed.

Lemma logout_first {B : Type} (rest : M B) (w : World) (a : B) (w' : World) :
  preserves server_logouts rest ->
  (__do_logout ;; rest) w = Done a w' ->
  server_logouts w' = notified w.
Proof.
  intros Hrest H. inv_bind H.
  rewrite (Hrest _ _ _ H). exact (do_logout_notifies _ _ _ Hrun).
Qed.

Lemma on_enter_notifies fuel (s : State.t) (w : World) (a : unit) (w' : World) :
  s <> State.INITIALIZED -> s <> State.IN_USE ->
  on_enter opts env fuel s w = Done a w' ->
  server_logouts w' = notified w.
Proof.
  intros Hs1 Hs2. destruct s; try congruence; cbn [on_enter];
    unfold on_enter_idle, on_enter_unlocked, on_enter_in_training, on_enter_estop,
      on_enter_bypassed, on_enter_terminated, __ensure_idle, __ensure_unlocked,
      __ensure_training_mode, __ensure_estop, __ensure_bypass;
    rewrite ?bind_assoc; apply logout_first; frame.
Qed.

Lemma logout_then_disable_settles {B : Type} (rest : M B) fuel n (w : World) :
  always_returns rest ->
  settles opts env fuel w -> (fuel <= n + 2)%nat ->
  returns (__do_logout ;; __disable_power opts env n ;; rest) w.
Proof.
  intros Hrest Hsettles Hn.
  destruct (do_logout_spec w) as (w1 & H1 & _ & _ & _ & _ & _ & Hr1 & Hc1).
  assert (Hs1 : settles opts env fuel w1).
  { destruct Hsettles as [Hlow | (k & Hstop & Hk)].
    - left. congruence.
    - right. exists k. rewrite Hc1. split; assumption. }
  destruct (disable_power_settles fuel n w1 Hs1 Hn) as (w2 & H2 & _).
  destruct (Hrest w2) as (b & w3 & H3).
  exists b, w3.
  rewrite (bind_Done _ _ _ _ _ H1), (bind_Done _ _ _ _ _ H2). exact H3.
Qed.

Lemma on_enter_settles fuel n (s : State.t) (w : World) :
  settles opts env fuel w -> (fuel <= n + 2)%nat ->
  returns (on_enter opts env n s) w.
Proof.
  intros Hsettles Hn.
  assert (Hall : forall A (m : M A), always_returns m -> returns m w)
    by (intros A m Hm; apply Hm).
  destruct s; cbn [on_enter].
  - apply Hall. total.
  - unfold on_enter_idle, __ensure_idle.
    apply returns_bind; [| intro; total].
    eapply logout_then_disable_settles; [total | eassumption | assumption].
  - apply Hall. total.
  - apply Hall. total.
  - unfold on_enter_in_training, __ensure_training_mode.
    apply returns_bind; [| intro; total].
    eapply logout_then_disable_settles; [total | eassumption | assumption].
  - unfold on_enter_estop, __ensure_estop.
    eapply logout_then_disable_settles; [total | eassumption | assumption].
  - unfold on_enter_bypassed, __ensure_bypass.
    eapply logout_then_disable_settles; [total | eassumption | assumption].
  - unfold on_enter_terminated, __ensure_idle.
    eapply logout_then_disable_settles; [total | eassumption | assumption].
Qed.

Lemma on_enter_queue fuel (s : State.t) :
  s <> State.IDLE -> preserves queue (on_enter opts env fuel s).
Proof. intro Hs. destruct s; try congruence; frame. Qed.

(** The transition into [s], for a mode [s] that is entered by logging out:
    what it leaves behind. *)
Lemma transition_facts fuel (s : State.t) (w w' : World) (a : bool) :
  s <> State.INITIALIZED -> s <> State.IN_USE ->
  (modify (with_state s) ;; on_enter opts env fuel s ;; update_status ;; ret true) w
  = Done a w' ->
  a = true /\ state w' = s /\ relay w' = energized_mode s /\
  user_info w' = None /\ logout_timer w' = None /\
  (s <> State.UNLOCKED -> relock_timer w' = None) /\
  server_logouts w' = notified w /\
  status_file w' = String.append (State.name s) newline /\
  (s <> State.IDLE -> queue w' = queue w).
Proof.
  intros Hs1 Hs2 H.
  pose proof (entry_returns_true opts env fuel s w w' a H) as ->.
  inv_bind H. inv_bind H. inv_bind H.
  unfold modify in Hrun. unfold ret in H. rewrite update_status_writes in Hrun1.
  injection Hrun as <- <-. injection Hrun1 as <- <-. injection H as <-.
  pose proof (on_enter_relay opts env fuel s Hs1 _ _ _ Hrun0) as Hrelay.
  pose proof (on_enter_resets opts env fuel s Hs1 Hs2 _ _ _ Hrun0) as Hreset.
  injection Hreset as Hu Ht.
  pose proof (on_enter_notifies fuel s _ _ _ Hs1 Hs2 Hrun0) as Hn.
  pose proof (on_enter_state opts env fuel s _ _ _ Hrun0) as Hstate.
  cbn [state relay user_info logout_timer relock_timer server_logouts status_file queue
       with_status_file with_state notified] in *.
  repeat split; try assumption; try reflexivity.
  all: try (rewrite Hstate; reflexivity).
  - intro Hs3. exact (on_enter_relock opts env fuel s Hs1 Hs2 Hs3 _ _ _ Hrun0).
  - intro Hs4. exact (on_enter_queue fuel s Hs4 _ _ _ Hrun0).
Qed.

Lemma transition_settles fuel n (s : State.t) (w : World) :
  settles opts env fuel w -> (fuel <= n + 2)%nat ->
  returns (modify (with_state s) ;; on_enter opts env n s ;; update_status ;; ret true) w.
Proof.
  intros Hsettles Hn.
  destruct (on_enter_settles fuel n s (with_state s w) Hsettles Hn) as (a & w1 & H1).
  exists true, (with_status_file (String.append (State.name (state w1)) newline) w1).
  eapply bind_yields; [reflexivity |].
  eapply bind_yields; [exact H1 |].
  eapply bind_yields; [apply update_status_writes | reflexivity].
Qed.

(** [Event._trigger] where the trigger has one transition from the current
    mode and that transition has no condition. *)
Lemma trigger_enters fuel (trg : Trigger.t) (kw : Kwargs) (w : World) (tr : Transition) :
  transitions_from trg (state w) = [tr] ->
  conditions tr = [] ->
  _trigger opts env fuel trg kw w =
  (modify (with_state (dest tr)) ;;
   on_enter opts env fuel (dest tr) ;;
   update_status ;;
   ret true) w.
Proof.
  intros Hfrom Hcond. unfold _trigger. unfold bind at 1, get at 1. rewrite Hfrom.
  cbn [try_transitions]. unfold execute. rewrite Hcond. cbn [check_conditions].
  unfold bind, ret, modify.
  destruct (on_enter opts env fuel (dest tr) (with_state (dest tr) w)) as [[] w2 | |];
    reflexivity.
Qed.

(** A trigger with no transition from the current mode, called with nothing
    queued, changes nothing. *)
Lemma fire_ignored n (trg : Trigger.t) (kw : Kwargs) (w : World) :
  queue w = [] ->
  transitions_from trg (state w) = [] ->
  fire opts env (S (S n)) trg kw w = Done tt w.
Proof.
  intros Hq Hfrom.
  rewrite <- (queue_nil_eta w Hq) at 2.
  rewrite <- (with_queue_twice [(trg, kw)] [] w).
  apply (fire_single opts env n trg kw w _ false Hq); [| reflexivity].
  unfold _trigger, bind, get. cbn [state with_queue]. rewrite Hfrom. reflexivity.
Qed.

(** A trigger whose one transition from the current mode has no condition
    and leads to a mode other than IDLE and IN_USE, called with nothing
    queued. *)
Lemma fire_enters fuel n (trg : Trigger.t) (kw : Kwargs) (w : World) (tr : Transition) :
  queue w = [] ->
  transitions_from trg (state w) = [tr] ->
  conditions tr = [] ->
  dest tr <> State.INITIALIZED -> dest tr <> State.IN_USE -> dest tr <> State.IDLE ->
  settles opts env fuel w -> (fuel <= S n + 2)%nat ->
  exists w',
    fire opts env (S (S n)) trg kw w = Done tt w' /\
    state w' = dest tr /\ relay w' = energized_mode (dest tr) /\
    user_info w' = None /\ logout_timer w' = None /\
    (dest tr <> State.UNLOCKED -> relock_timer w' = None) /\
    server_logouts w' = notified w /\
    status_file w' = String.append (State.name (dest tr)) newline /\
    queue w' = [].
Proof.
  intros Hq Hfrom Hcond Hd1 Hd2 Hd3 Hsettles Hn.
  set (W := with_queue [(trg, kw)] w).
  destruct (transition_settles fuel (S n) (dest tr) W Hsettles Hn) as (a & w1 & Hrun).
  destruct (transition_facts (S n) (dest tr) W w1 a Hd1 Hd2 Hrun)
    as (-> & Hs & Hr & Hu & Ht & Hrl & Hsl & Hsf & Hqueue).
  exists (with_queue [] w1). split.
  - apply (fire_single opts env n trg kw w w1 true Hq).
    + fold W. rewrite (trigger_enters (S n) trg kw W tr Hfrom Hcond). exact Hrun.
    + rewrite (Hqueue Hd3). reflexivity.
  - cbn [state relay user_info logout_timer relock_timer server_logouts status_file
         queue with_queue].
    repeat split; assumption.
Qed.

Lemma on_enter_idle_queue fuel (w : World) (a : unit) (w' : World) :
  on_enter_idle opts env fuel w = Done a w' ->
  queue w' = queue w ++
    (if bypass_at opts env (clock w') then [(Trigger.BYPASS, None)] else []).
Proof.
  intro H. unfold on_enter_idle in H. inv_bind H.
  assert (Hq : queue w0 = queue w).
  { assert (Hp : preserves queue (__ensure_idle opts env fuel)) by frame.
    exact (Hp _ _ _ Hrun). }
  unfold is_bypass_detected, enqueue, time_sleep, bind, modify, get, ret in H.
  cbn [pin_level clock with_clock] in H. unfold bypass_at.
  destruct (USE_BYPASS_DETECT opts && pin_input env PIN_BYPASS_DETECT (clock w0 + 500))
    eqn:Hbypass; injection H as _ <-;
    cbn [queue clock with_queue with_clock]; rewrite Hbypass, Hq, ?app_nil_r;
    reflexivity.
Qed.

Lemma logout_disable_low {B : Type} (rest : M B) fuel (w : World) (a : B) (w' : World) :
  relay w = false ->
  (__do_logout ;; __disable_power opts env fuel ;; rest) w = Done a w' ->
  exists w1, clock w1 = clock w /\ rest w1 = Done a w'.
Proof.
  intros Hlow H.
  destruct (do_logout_spec w) as (w1 & H1 & _ & _ & _ & _ & _ & Hr1 & Hc1).
  rewrite (bind_Done _ _ _ _ _ H1) in H.
  unfold bind at 1 in H. rewrite disable_power_low in H by congruence.
  exists w1. split; [exact Hc1 | exact H].
Qed.

Lemma on_enter_idle_clock fuel (w : World) (a : unit) (w' : World) :
  relay w = false ->
  on_enter_idle opts env fuel w = Done a w' ->
  clock w' = clock w + 500.
Proof.
  intros Hlow H. unfold on_enter_idle in H. inv_bind H.
  unfold __ensure_idle in Hrun.
  destruct (logout_disable_low _ fuel w a0 w0 Hlow Hrun) as (w1 & Hc1 & Hshow).
  assert (Hp : preserves clock (__show_blue_led opts ;; __show_scan_badge)) by frame.
  pose proof (Hp _ _ _ Hshow) as Hc0.
  unfold is_bypass_detected, enqueue, time_sleep, bind, modify, get, ret in H.
  cbn [pin_level clock with_clock] in H.
  destruct (USE_BYPASS_DETECT opts && pin_input env PIN_BYPASS_DETECT (clock w0 + 500));
    injection H as _ <-; cbn [clock with_queue with_clock]; congruence.
Qed.

(** A trigger whose one transition from the current mode has no condition
    and leads to IDLE, called with nothing queued: the machine rests in IDLE,
    or in BYPASSED when [on_enter_idle] finds bypass detected. *)
Lemma fire_enters_idle fuel (trg : Trigger.t) (kw : Kwargs) (w : World) (tr : Transition) :
  queue w = [] ->
  transitions_from trg (state w) = [tr] ->
  conditions tr = [] ->
  dest tr = State.IDLE ->
  settles opts env fuel w -> (3 <= fuel)%nat ->
  exists w',
    fire opts env fuel trg kw w = Done tt w' /\
    state w' = (if bypass_at opts env (clock w') then State.BYPASSED else State.IDLE) /\
    relay w' = false /\
    user_info w' = None /\ logout_timer w' = None /\ relock_timer w' = None /\
    server_logouts w' = notified w /\
    status_file w' = String.append (State.name (state w')) newline /\
    queue w' = [] /\
    (relay w = false -> clock w' = clock w + 500).
Proof.
  intros Hqueue Hfrom Hcond Hdest Hsettles Hfuel.
  destruct fuel as [| [| [| f3]]]; try lia.
  set (f2 := S f3). set (f1 := S f2).
  set (W := with_queue [(trg, kw)] w).
  assert (HsW : settles opts env (S f1) W) by exact Hsettles.
  destruct (transition_settles (S f1) f1 State.IDLE W HsW ltac:(lia)) as (a & w5 & Hrun).
  destruct (transition_facts f1 State.IDLE W w5 a ltac:(congruence) ltac:(congruence) Hrun)
    as (-> & Hs5 & Hr5 & Hu5 & Ht5 & Hrl5 & Hsl5 & Hsf5 & _).
  specialize (Hrl5 ltac:(congruence)).
  assert (Hq5 : queue w5 = (trg, kw) ::
            (if bypass_at opts env (clock w5) then [(Trigger.BYPASS, None)] else [])).
  { pose proof Hrun as H. inv_bind H. inv_bind H. inv_bind H.
    unfold modify in Hrun0. unfold ret in H. rewrite update_status_writes in Hrun2.
    injection Hrun0 as <- <-. injection Hrun2 as <- <-. injection H as <-.
    cbn [on_enter] in Hrun1. apply on_enter_idle_queue in Hrun1.
    cbn [queue clock with_status_file with_state W with_queue app] in *. exact Hrun1. }
  assert (Hc5 : relay w = false -> clock w5 = clock w + 500).
  { intro Hlow. pose proof Hrun as H. inv_bind H. inv_bind H. inv_bind H.
    unfold modify in Hrun0. unfold ret in H. rewrite update_status_writes in Hrun2.
    injection Hrun0 as <- <-. injection Hrun2 as <- <-. injection H as <-.
    cbn [on_enter] in Hrun1. apply on_enter_idle_clock in Hrun1; [| exact Hlow].
    exact Hrun1. }
  assert (Htrigger : _trigger opts env f1 trg kw W = Done true w5).
  { rewrite (trigger_enters f1 trg kw W tr Hfrom Hcond), Hdest. exact Hrun. }
  set (w6 := with_queue (tl (queue w5)) w5).
  assert (Hfire : forall w',
    process_queue opts env f1 w6 = Done tt w' ->
    fire opts env (S f1) trg kw w = Done tt w').
  { intros w' Hrest.
    unfold fire, enqueue. unfold bind at 1 2, modify at 1, get at 1.
    cbn [queue with_queue]. rewrite Hqueue. cbn [app List.length Nat.ltb Nat.leb].
    cbn [process_queue].
    eapply bind_yields; [reflexivity |]. cbn [queue with_queue].
    eapply bind_yields; [exact Htrigger |].
    eapply bind_yields; [reflexivity | exact Hrest]. }
  cbn [energized_mode] in Hr5. unfold notified in Hsl5.
  cbn [user_info server_logouts W with_queue] in Hsl5. fold (notified w) in Hsl5.
  destruct (bypass_at opts env (clock w5)) eqn:Hbypass.
  - assert (Hs6 : state w6 = State.IDLE) by exact Hs5.
    assert (Hr6 : relay (with_state State.BYPASSED w6) = false) by exact Hr5.
    destruct (on_enter_bypassed_spec opts env f2 (with_state State.BYPASSED w6) Hr6)
      as (w7 & Hbyp & Hr7 & Hu7 & Ht7 & Hs7 & Hq7 & Hc7).
    pose proof (on_enter_relock opts env f2 State.BYPASSED ltac:(congruence)
                  ltac:(congruence) ltac:(congruence) _ _ _ Hbyp) as Hrl7.
    pose proof (on_enter_notifies f2 State.BYPASSED _ _ _ ltac:(congruence)
                  ltac:(congruence) Hbyp) as Hsl7.
    unfold notified in Hsl7.
    cbn [state queue clock user_info server_logouts with_state w6 with_queue]
      in Hs7, Hq7, Hc7, Hsl7.
    rewrite Hu5 in Hsl7.
    rewrite Hq5 in Hq7. cbn [tl] in Hq7.
    set (w8 := with_status_file (String.append (State.name (state w7)) newline) w7).
    exists (with_queue (tl (queue w8)) w8). split.
    + apply Hfire. unfold f1. cbn [process_queue].
      eapply bind_yields; [reflexivity |].
      cbn [queue w6 with_queue]. rewrite Hq5. cbn [tl].
      fold w6.
      eapply bind_yields.
      { rewrite trigger_bypass_idle by exact Hs6.
        eapply bind_yields; [reflexivity |].
        eapply bind_yields; [exact Hbyp |].
        eapply bind_yields; [apply update_status_writes | reflexivity]. }
      eapply bind_yields; [reflexivity |].
      unfold f2. cbn [process_queue].
      eapply bind_yields; [reflexivity |].
      cbn [queue w8 with_queue with_status_file]. rewrite Hq7. reflexivity.
    + cbn [relay user_info logout_timer relock_timer server_logouts status_file queue
           state clock w8 with_queue with_status_file].
      rewrite Hq7, Hc7, Hbypass, Hs7, Hsl7, Hsl5.
      repeat split; try assumption; reflexivity.
  - exists w6. split.
    + apply Hfire. unfold f1. cbn [process_queue].
      eapply bind_yields; [reflexivity |].
      cbn [queue w6 with_queue]. rewrite Hq5. reflexivity.
    + cbn [relay user_info logout_timer relock_timer server_logouts status_file queue
           state clock w6 with_queue].
      rewrite Hq5, Hbypass, Hs5.
      repeat split; try assumption; reflexivity.
Qed.

End Entries.

(** ** What the handlers do, mode by mode *)

Section Scenarios.

Variable opts : Opts.
Variable env : Env.

Lemma is_estop_activated_reads (w : World) :
  is_estop_activated opts env w = Done (estop_at opts env (clock w)) w.
Proof.
  unfold is_estop_activated, estop_at, bind, get, ret. cbn [pin_level].
  destruct (USE_ESTOP opts), (ESTOP_ACTIVE_HI opts), (pin_input env PIN_ESTOP (clock w));
    reflexivity.
Qed.

Lemma is_bypass_detected_reads (w : World) :
  is_bypass_detected opts env w = Done (bypass_at opts env (clock w)) w.
Proof. reflexivity. Qed.



Lemma settles_clock (fuel : nat) (w : World) (ms : Z) :
  relay w = false -> settles opts env fuel (with_clock (clock w + ms) w).
Proof. intro Hlow. left. exact Hlow. Qed.

(** X5.  The emergency stop released.  When [estop_change] finds the emergency
    stop inactive in ESTOP it waits half a second and reads the bypass input:
    with bypass detected the machine goes to BYPASSED, otherwise to IDLE, and
    on from IDLE to BYPASSED when bypass is detected another half second
    later.  The relay stays low and no trigger stays queued. *)
Theorem estop_release_leaves_estop (fuel : nat) (w : World) :
  estop_at opts env (clock w) = false ->
  state w = State.ESTOP ->
  queue w = [] ->
  relay w = false ->
  (3 <= fuel)%nat ->
  exists w',
    estop_change opts env fuel w = Done tt w' /\
    state w' =
      (if bypass_at opts env (clock w + 500) || bypass_at opts env (clock w + 1000)
       then State.BYPASSED else State.IDLE) /\
    relay w' = false /\
    user_info w' = None /\ logout_timer w' = None /\ relock_timer w' = None /\
    status_file w' = String.append (State.name (state w')) newline /\
    queue w' = [].
Proof.
  intros Hestop Hstate Hqueue Hlow Hfuel.
  set (W := with_clock (clock w + 500) w).
  assert (Hchange : estop_change opts env fuel w =
    (if bypass_at opts env (clock w + 500) then fire opts env fuel Trigger.BYPASS None W
     else fire opts env fuel Trigger.IDLE None W)).
  { unfold estop_change.
    rewrite (bind_Done _ _ _ _ _ (is_estop_activated_reads w)).
    unfold bind at 1, get at 1. rewrite Hestop, Hstate. cbn [State.eqb].
    unfold time_sleep. unfold bind at 1, modify at 1. fold W.
    rewrite (bind_Done _ _ _ _ _ (is_bypass_detected_reads W)).
    cbn [clock W with_clock].
    destruct (bypass_at opts env (clock w + 500)); reflexivity. }
  rewrite Hchange.
  assert (HsW : settles opts env fuel W) by (left; exact Hlow).
  destruct (bypass_at opts env (clock w + 500)) eqn:Hbypass; cbn [orb].
  - destruct fuel as [| [| n]]; try lia.
    destruct (fire_enters opts env (S (S n)) n Trigger.BYPASS None W
                {| source := [State.INITIALIZED; State.ESTOP; State.IDLE; State.IN_TRAINING];
                   trigger := Trigger.BYPASS; dest := State.BYPASSED; conditions := [] |})
      as (w' & Hrun & Hs & Hr & Hu & Ht & Hrl & _ & Hsf & Hq);
      try assumption; try (cbn [dest]; congruence); try lia.
    { cbn [state W with_clock]. rewrite Hstate. reflexivity. }
    { reflexivity. }
    cbn [dest] in *. exists w'. rewrite Hs.
    repeat split; try assumption. apply Hrl. congruence.
  - destruct (fire_enters_idle opts env fuel Trigger.IDLE None W
                {| source := [State.INITIALIZED; State.ESTOP; State.BYPASSED];
                   trigger := Trigger.IDLE; dest := State.IDLE; conditions := [] |})
      as (w' & Hrun & Hs & Hr & Hu & Ht & Hrl & _ & Hsf & Hq & Hc);
      try assumption; try reflexivity.
    { cbn [state W with_clock]. rewrite Hstate. reflexivity. }
    specialize (Hc Hlow). cbn [clock W with_clock] in Hc.
    replace (clock w + 500 + 500) with (clock w + 1000) in Hc by lia.
    rewrite Hc in Hs. exists w'.
    repeat split; assumption.
Qed.

(** X6.  The bypass input followed.  From a consistent IDLE or BYPASSED,
    [bypass_change] returns with the machine in BYPASSED when it finds bypass
    detected; when it finds none, an IDLE machine stays as it is and a
    BYPASSED one goes to IDLE, and back to BYPASSED when bypass is detected
    half a second later.  The relay is low afterwards.  In every other mode
    [bypass_change] changes nothing. *)
Theorem bypass_change_follows_the_input (fuel : nat) (w : World) :
  consistent w ->
  queue w = [] ->
  (3 <= fuel)%nat ->
  exists w',
    bypass_change opts env fuel w = Done tt w' /\
    (if State.eqb (state w) State.IDLE || State.eqb (state w) State.BYPASSED then
       state w' =
         (if bypass_at opts env (clock w) then State.BYPASSED
          else if State.eqb (state w) State.BYPASSED && bypass_at opts env (clock w + 500)
               then State.BYPASSED
               else State.IDLE) /\
       relay w' = false /\ user_info w' = None /\
       status_file w' = String.append (State.name (state w')) newline /\
       queue w' = []
     else w' = w).
Proof.
  intros (Hrelay & Huser & _ & _ & Hsf) Hqueue Hfuel.
  assert (Hnone : state w <> State.IN_USE -> state w <> State.IN_TRAINING ->
                  user_info w = None).
  { intros H1 H2. destruct (user_info w) eqn:Hu; [| reflexivity].
    destruct Huser as [H | H]; congruence. }
  unfold bypass_change.
  rewrite (bind_Done _ _ _ _ _ (is_bypass_detected_reads w)).
  unfold bind at 1, get at 1.
  destruct (state w) eqn:Hstate; cbn [State.eqb orb andb];
    try (destruct (bypass_at opts env (clock w)); exists w; split; reflexivity).
  - (* IDLE *)
    specialize (Hrelay ltac:(congruence)). cbn [energized_mode] in Hrelay.
    specialize (Hnone ltac:(congruence) ltac:(congruence)).
    destruct (bypass_at opts env (clock w)) eqn:Hbypass.
    + destruct fuel as [| [| n]]; try lia.
      destruct (fire_enters opts env (S (S n)) n Trigger.BYPASS None w
                  {| source := [State.INITIALIZED; State.ESTOP; State.IDLE;
                                State.IN_TRAINING];
                     trigger := Trigger.BYPASS; dest := State.BYPASSED;
                     conditions := [] |})
        as (w' & Hrun & Hs & Hr & Hu & _ & _ & _ & Hsf' & Hq);
        try assumption; try (cbn [dest]; congruence); try lia.
      { rewrite Hstate. reflexivity. }
      { reflexivity. }
      { left. exact Hrelay. }
      cbn [dest] in *. exists w'. rewrite Hs.
      repeat split; assumption.
    + exists w. rewrite Hstate.
      repeat split; assumption.
  - (* BYPASSED *)
    specialize (Hrelay ltac:(congruence)). cbn [energized_mode] in Hrelay.
    specialize (Hnone ltac:(congruence) ltac:(congruence)).
    destruct (bypass_at opts env (clock w)) eqn:Hbypass.
    + exists w. rewrite Hstate.
      repeat split; assumption.
    + destruct (fire_enters_idle opts env fuel Trigger.IDLE None w
                  {| source := [State.INITIALIZED; State.ESTOP; State.BYPASSED];
                     trigger := Trigger.IDLE; dest := State.IDLE; conditions := [] |})
        as (w' & Hrun & Hs & Hr & Hu & _ & _ & _ & Hsf' & Hq & Hc);
        try assumption; try reflexivity.
      { rewrite Hstate. reflexivity. }
      { left. exact Hrelay. }
      specialize (Hc Hrelay). rewrite Hc in Hs. exists w'.
      repeat split; assumption.
Qed.

(** X7.  The first mode.  [run], from the entry of its [with] block to the
    first wait, started in INITIALIZED with the relay low: the machine is in
    ESTOP when the emergency stop reads active, otherwise in BYPASSED when
    bypass is detected then or half a second later, otherwise in IDLE.  The
    relay is still low, no user context or timer is held, and the status
    file names the mode reached. *)
Theorem run_starts_in_the_mode_the_inputs_call_for (fuel : nat) (w : World) :
  state w = State.INITIALIZED ->
  queue w = [] ->
  relay w = false ->
  (3 <= fuel)%nat ->
  exists w',
    run_start opts env fuel w = Done tt w' /\
    state w' =
      (if estop_at opts env (clock w) then State.ESTOP
       else if bypass_at opts env (clock w) || bypass_at opts env (clock w + 500)
            then State.BYPASSED
            else State.IDLE) /\
    relay w' = false /\
    user_info w' = None /\ logout_timer w' = None /\ relock_timer w' = None /\
    status_file w' = String.append (State.name (state w')) newline /\
    queue w' = [].
Proof.
  intros Hstate Hqueue Hlow Hfuel.
  set (W := with_status_file (String.append (State.name (state w)) newline) w).
  assert (Hstart : run_start opts env fuel w =
    (if estop_at opts env (clock w) then fire opts env fuel Trigger.ESTOP None W
     else if bypass_at opts env (clock w) then fire opts env fuel Trigger.BYPASS None W
          else fire opts env fuel Trigger.IDLE None W)).
  { unfold run_start, __enter__.
    rewrite (bind_Done _ _ _ _ _ (update_status_writes w)). fold W.
    rewrite (bind_Done _ _ _ _ _ (is_estop_activated_reads W)).
    cbn [clock W with_status_file].
    destruct (estop_at opts env (clock w)); [reflexivity |].
    rewrite (bind_Done _ _ _ _ _ (is_bypass_detected_reads W)).
    cbn [clock W with_status_file].
    destruct (bypass_at opts env (clock w)); reflexivity. }
  rewrite Hstart.
  assert (HsW : settles opts env fuel W) by (left; exact Hlow).
  assert (HstW : state W = State.INITIALIZED) by exact Hstate.
  assert (HqW : queue W = []) by exact Hqueue.
  destruct (estop_at opts env (clock w)).
  - destruct fuel as [| [| n]]; try lia.
    destruct (fire_enters opts env (S (S n)) n Trigger.ESTOP None W
                {| source := [State.INITIALIZED; State.BYPASSED; State.IDLE; State.IN_USE;
                              State.IN_TRAINING];
                   trigger := Trigger.ESTOP; dest := State.ESTOP; conditions := [] |})
      as (w' & Hrun & Hs & Hr & Hu & Ht & Hrl & _ & Hsf & Hq);
      try assumption; try (cbn [dest]; congruence); try lia.
    { rewrite HstW. reflexivity. }
    { reflexivity. }
    cbn [dest] in *. exists w'. rewrite Hs.
    repeat split; try assumption. apply Hrl. congruence.
  - destruct (bypass_at opts env (clock w)) eqn:Hbypass; cbn [orb].
    + destruct fuel as [| [| n]]; try lia.
      destruct (fire_enters opts env (S (S n)) n Trigger.BYPASS None W
                  {| source := [State.INITIALIZED; State.ESTOP; State.IDLE;
                                State.IN_TRAINING];
                     trigger := Trigger.BYPASS; dest := State.BYPASSED;
                     conditions := [] |})
        as (w' & Hrun & Hs & Hr & Hu & Ht & Hrl & _ & Hsf & Hq);
        try assumption; try (cbn [dest]; congruence); try lia.
      { rewrite HstW. reflexivity. }
      { reflexivity. }
      cbn [dest] in *. exists w'. rewrite Hs.
      repeat split; try assumption. apply Hrl. congruence.
    + destruct (fire_enters_idle opts env fuel Trigger.IDLE None W
                  {| source := [State.INITIALIZED; State.ESTOP; State.BYPASSED];
                     trigger := Trigger.IDLE; dest := State.IDLE; conditions := [] |})
        as (w' & Hrun & Hs & Hr & Hu & Ht & Hrl & _ & Hsf & Hq & Hc);
        try assumption; try reflexivity.
      { rewrite HstW. reflexivity. }
      specialize (Hc Hlow). cbn [clock W with_status_file] in Hc.
      rewrite Hc in Hs. exists w'.
      repeat split; assumption.
Qed.


(** X9.  TERMINATED is final.  In TERMINATED with nothing queued, a scanned
    badge, the logout button, a change of the emergency stop or bypass input
    and a tick of either timer all return and leave everything as it was:
    no trigger has a transition out of TERMINATED and the ticks do nothing
    once the client is terminated. *)
Theorem terminated_is_final (fuel : nat) (h : Happening) (w : World) :
  state w = State.TERMINATED ->
  queue w = [] ->
  (2 <= fuel)%nat ->
  happen opts env fuel h w = Done tt w.
Proof.
  intros Hstate Hqueue Hfuel.
  destruct fuel as [| [| n]]; try lia.
  assert (Hignored : forall trg kw,
    trg <> Trigger.TERMINATE -> fire opts env (S (S n)) trg kw w = Done tt w).
  { intros trg kw Htrg. apply fire_ignored; [exact Hqueue |].
    rewrite Hstate. destruct trg; try congruence; reflexivity. }
  destruct h; cbn [happen].
  - unfold handle_badge_code, bind at 1, get at 1. rewrite Hstate. cbn [State.eqb].
    apply Hignored. congruence.
  - unfold logout_detected.
    rewrite (bind_Done _ _ _ _ _ (is_estop_activated_reads w)).
    rewrite (bind_Done _ _ _ _ _ (is_bypass_detected_reads w)).
    unfold bind at 1, get at 1. rewrite Hstate. cbn [State.eqb].
    destruct (estop_at opts env (clock w)), (bypass_at opts env (clock w)),
      (IS_A_DOOR opts), (DOOR_CONTINUOUS_UNLOCK opts); cbn [andb orb];
      apply Hignored; congruence.
  - destruct (USE_ESTOP opts); [| reflexivity].
    unfold estop_change.
    rewrite (bind_Done _ _ _ _ _ (is_estop_activated_reads w)).
    unfold bind at 1, get at 1. rewrite Hstate. cbn [State.eqb negb].
    destruct (estop_at opts env (clock w)); [| reflexivity].
    apply Hignored. congruence.
  - destruct (USE_BYPASS_DETECT opts); [| reflexivity].
    unfold bypass_change.
    rewrite (bind_Done _ _ _ _ _ (is_bypass_detected_reads w)).
    unfold bind at 1, get at 1. rewrite Hstate. cbn [State.eqb].
    destruct (bypass_at opts env (clock w)); reflexivity.
  - unfold __logout_timer_tick, is_terminated, status, bind, get, ret.
    rewrite Hstate. reflexivity.
  - unfold __relock_timer_tick, is_terminated, status, bind, get, ret.
    rewrite Hstate. reflexivity.
Qed.

(** *** The logout button *)

Lemma logout_detected_fires (fuel : nat) (w : World) :
  logout_detected opts env fuel w =
  (if estop_at opts env (clock w) && State.eqb (state w) State.IN_TRAINING
   then fire opts env fuel Trigger.ESTOP None w
   else if bypass_at opts env (clock w) && State.eqb (state w) State.IN_TRAINING
   then fire opts env fuel Trigger.BYPASS None w
   else if IS_A_DOOR opts && DOOR_CONTINUOUS_UNLOCK opts
           && (State.eqb (state w) State.IDLE || State.eqb (state w) State.IN_USE)
   then fire opts env fuel Trigger.UNLOCK None w
   else fire opts env fuel Trigger.LOGOUT None w).
Proof.
  unfold logout_detected.
  rewrite (bind_Done _ _ _ _ _ (is_estop_activated_reads w)).
  rewrite (bind_Done _ _ _ _ _ (is_bypass_detected_reads w)).
  unfold bind at 1, get at 1.
  destruct (estop_at opts env (clock w) && State.eqb (state w) State.IN_TRAINING);
    [reflexivity |].
  destruct (bypass_at opts env (clock w) && State.eqb (state w) State.IN_TRAINING);
    [reflexivity |].
  destruct (IS_A_DOOR opts && DOOR_CONTINUOUS_UNLOCK opts
            && (State.eqb (state w) State.IDLE || State.eqb (state w) State.IN_USE));
    reflexivity.
Qed.

(** X10.  The way out of training mode.  In IN_TRAINING with the relay low,
    the logout button takes the machine to ESTOP when the emergency stop
    reads active, otherwise to BYPASSED when bypass is detected then or half
    a second later, otherwise to IDLE.  The trainer's context is cleared and
    the server notified of the trainer's logout; the relay stays low. *)
Theorem logout_button_ends_training (fuel : nat) (w : World) :
  state w = State.IN_TRAINING ->
  queue w = [] ->
  relay w = false ->
  (3 <= fuel)%nat ->
  exists w',
    logout_detected opts env fuel w = Done tt w' /\
    state w' =
      (if estop_at opts env (clock w) then State.ESTOP
       else if bypass_at opts env (clock w) || bypass_at opts env (clock w + 500)
            then State.BYPASSED
            else State.IDLE) /\
    relay w' = false /\
    user_info w' = None /\ logout_timer w' = None /\ relock_timer w' = None /\
    server_logouts w' = notified w /\
    status_file w' = String.append (State.name (state w')) newline /\
    queue w' = [].
Proof.
  intros Hstate Hqueue Hlow Hfuel.
  rewrite logout_detected_fires, Hstate. cbn [State.eqb orb].
  rewrite !Bool.andb_true_r, Bool.andb_false_r.
  assert (Hsettles : settles opts env fuel w) by (left; exact Hlow).
  destruct (estop_at opts env (clock w)).
  - destruct fuel as [| [| n]]; try lia.
    destruct (fire_enters opts env (S (S n)) n Trigger.ESTOP None w
                {| source := [State.INITIALIZED; State.BYPASSED; State.IDLE; State.IN_USE;
                              State.IN_TRAINING];
                   trigger := Trigger.ESTOP; dest := State.ESTOP; conditions := [] |})
      as (w' & Hrun & Hs & Hr & Hu & Ht & Hrl & Hsl & Hsf & Hq);
      try assumption; try (cbn [dest]; congruence); try lia.
    { rewrite Hstate. reflexivity. }
    { reflexivity. }
    cbn [dest] in *. exists w'. rewrite Hs.
    repeat split; try assumption. apply Hrl. congruence.
  - destruct (bypass_at opts env (clock w)) eqn:Hbypass; cbn [orb].
    + destruct fuel as [| [| n]]; try lia.
      destruct (fire_enters opts env (S (S n)) n Trigger.BYPASS None w
                  {| source := [State.INITIALIZED; State.ESTOP; State.IDLE;
                                State.IN_TRAINING];
                     trigger := Trigger.BYPASS; dest := State.BYPASSED;
                     conditions := [] |})
        as (w' & Hrun & Hs & Hr & Hu & Ht & Hrl & Hsl & Hsf & Hq);
        try assumption; try (cbn [dest]; congruence); try lia.
      { rewrite Hstate. reflexivity. }
      { reflexivity. }
      cbn [dest] in *. exists w'. rewrite Hs.
      repeat split; try assumption. apply Hrl. congruence.
    + destruct (fire_enters_idle opts env fuel Trigger.LOGOUT None w
                  {| source := [State.UNLOCKED; State.IN_USE; State.IN_TRAINING];
                     trigger := Trigger.LOGOUT; dest := State.IDLE; conditions := [] |})
        as (w' & Hrun & Hs & Hr & Hu & Ht & Hrl & Hsl & Hsf & Hq & Hc);
        try assumption; try reflexivity.
      { rewrite Hstate. reflexivity. }
      specialize (Hc Hlow). rewrite Hc in Hs. exists w'.
      repeat split; assumption.
Qed.


(** *** Guarded transitions *)

Lemma trigger_guarded fuel (trg : Trigger.t) (kw : Kwargs) (w : World)
    (tr : Transition) (c : Condition) :
  transitions_from trg (state w) = [tr] ->
  conditions tr = [c] ->
  _trigger opts env fuel trg kw w =
  (ok <- check_condition opts env fuel c kw ;;
   if ok then
     (modify (with_state (dest tr)) ;;
      on_enter opts env fuel (dest tr) ;;
      update_status ;;
      ret true)
   else ret false) w.
Proof.
  intros Hfrom Hcond. unfold _trigger. unfold bind at 1, get at 1. rewrite Hfrom.
  cbn [try_transitions]. unfold execute. rewrite Hcond. cbn [check_conditions].
  unfold bind, ret.
  destruct (check_condition opts env fuel c kw w) as [[|] w1 | |]; try reflexivity.
  unfold modify.
  destruct (on_enter opts env fuel (dest tr) (with_state (dest tr) w1)) as [[] w2 | |];
    reflexivity.
Qed.

(** A trigger whose one transition from the current mode is refused by its
    condition, the condition changing nothing: nothing happens. *)
Lemma fire_refused n (trg : Trigger.t) (kw : Kwargs) (w : World)
    (tr : Transition) (c : Condition) :
  queue w = [] ->
  transitions_from trg (state w) = [tr] ->
  conditions tr = [c] ->
  check_condition opts env (S n) c kw (with_queue [(trg, kw)] w)
  = Done false (with_queue [(trg, kw)] w) ->
  fire opts env (S (S n)) trg kw w = Done tt w.
Proof.
  intros Hq Hfrom Hcond Hcheck.
  rewrite <- (queue_nil_eta w Hq) at 2.
  rewrite <- (with_queue_twice [(trg, kw)] [] w).
  apply (fire_single opts env n trg kw w _ false Hq); [| reflexivity].
  rewrite (trigger_guarded (S n) trg kw (with_queue [(trg, kw)] w) tr c Hfrom Hcond).
  rewrite (bind_Done _ _ _ _ _ Hcheck). reflexivity.
Qed.

(** A trigger whose one transition from the current mode is let through by
    its condition. *)
Lemma fire_granted n (trg : Trigger.t) (kw : Kwargs) (w w1 w2 : World)
    (tr : Transition) (c : Condition) :
  queue w = [] ->
  transitions_from trg (state w) = [tr] ->
  conditions tr = [c] ->
  check_condition opts env (S n) c kw (with_queue [(trg, kw)] w) = Done true w1 ->
  (modify (with_state (dest tr)) ;;
   on_enter opts env (S n) (dest tr) ;;
   update_status ;;
   ret true) w1 = Done true w2 ->
  queue w2 = [(trg, kw)] ->
  fire opts env (S (S n)) trg kw w = Done tt (with_queue [] w2).
Proof.
  intros Hq Hfrom Hcond Hcheck Hrun Hq2.
  apply (fire_single opts env n trg kw w w2 true Hq); [| exact Hq2].
  rewrite (trigger_guarded (S n) trg kw (with_queue [(trg, kw)] w) tr c Hfrom Hcond).
  rewrite (bind_Done _ _ _ _ _ Hcheck). exact Hrun.
Qed.

Lemma unlocked_entry_returns fuel (w : World) :
  returns (modify (with_state State.UNLOCKED) ;;
           on_enter opts env fuel State.UNLOCKED ;;
           update_status ;;
           ret true) w.
Proof.
  assert (H : always_returns (modify (with_state State.UNLOCKED) ;;
                              on_enter opts env fuel State.UNLOCKED ;;
                              update_status ;;
                              ret true)).
  { cbn [on_enter]. total. }
  apply H.
Qed.

Lemma on_enter_unlocked_timer (w : World) (a : unit) (w' : World) :
  on_enter_unlocked opts w = Done a w' ->
  relock_timer w' = Some (timer_seq w) /\ timer_seq w' = S (timer_seq w).
Proof.
  intro H. unfold on_enter_unlocked in H. inv_bind H.
  assert (Hseq : preserves timer_seq (__ensure_unlocked opts)) by frame.
  pose proof (Hseq _ _ _ Hrun) as Hs.
  assert (Hnone : relock_timer w0 = None).
  { assert (He : ensures (__ensure_unlocked opts) (fun w => relock_timer w = None)).
    { repeat reset_step (fun w : World => relock_timer w). }
    exact (He _ _ _ Hrun). }
  unfold __start_relock_timer, __cancel_relock_timer, new_timer, bind, get, ret, modify in H.
  rewrite Hnone in H. injection H as _ <-.
  cbn [relock_timer timer_seq with_relock_timer with_timer_seq].
  rewrite Hs. split; reflexivity.
Qed.

(** X12.  The logout button of a door with continuous unlock.  When the
    client is a door with continuous unlock, the logout button in IDLE or
    IN_USE asks for UNLOCKED and nothing else.  Within the normal hours the
    door is unlocked: relay high, a new relock timer running, the user
    context cleared and the server notified of the logout of the user there
    was.  Outside the normal hours nothing changes at all, so an IN_USE
    session is not even logged out. *)
Theorem logout_button_unlocks_the_door (fuel : nat) (w : World) :
  IS_A_DOOR opts = true ->
  DOOR_CONTINUOUS_UNLOCK opts = true ->
  state w = State.IDLE \/ state w = State.IN_USE ->
  queue w = [] ->
  (2 <= fuel)%nat ->
  exists w',
    logout_detected opts env fuel w = Done tt w' /\
    (if normal_hours_at opts (wall_clock env (clock w)) then
       state w' = State.UNLOCKED /\ relay w' = true /\
       relock_timer w' = Some (timer_seq w) /\
       user_info w' = None /\ logout_timer w' = None /\
       server_logouts w' = notified w /\
       status_file w' = String.append (State.name State.UNLOCKED) newline /\
       queue w' = []
     else w' = w).
Proof.
  intros Hdoor Hcont Hstate Hqueue Hfuel.
  destruct fuel as [| [| n]]; try lia.
  set (tr := {| source := [State.IDLE; State.IN_USE]; trigger := Trigger.UNLOCK;
                dest := State.UNLOCKED; conditions := [COND_is_normal_hours] |}).
  assert (Hfrom : transitions_from Trigger.UNLOCK (state w) = [tr])
    by (destruct Hstate as [-> | ->]; reflexivity).
  assert (Hfires : logout_detected opts env (S (S n)) w
                   = fire opts env (S (S n)) Trigger.UNLOCK None w).
  { rewrite logout_detected_fires, Hdoor, Hcont.
    destruct Hstate as [-> | ->]; cbn [State.eqb orb andb];
      rewrite ?Bool.andb_false_r; reflexivity. }
  rewrite Hfires.
  set (W := with_queue [(Trigger.UNLOCK, None)] w).
  destruct (normal_hours_at opts (wall_clock env (clock w))) eqn:Hhours.
  - destruct (unlocked_entry_returns (S n) W) as (a & w2 & Hrun).
    destruct (transition_facts opts env (S n) State.UNLOCKED W w2 a
                ltac:(congruence) ltac:(congruence) Hrun)
      as (-> & Hs & Hr & Hu & Ht & _ & Hsl & Hsf & Hq).
    specialize (Hq ltac:(congruence)).
    assert (Hrl : relock_timer w2 = Some (timer_seq w)).
    { pose proof Hrun as H. inv_bind H. inv_bind H. inv_bind H.
      unfold modify in Hrun0. unfold ret in H. rewrite update_status_writes in Hrun2.
      injection Hrun0 as <- <-. injection Hrun2 as <- <-. injection H as <-.
      cbn [on_enter] in Hrun1. apply on_enter_unlocked_timer in Hrun1.
      destruct Hrun1 as [Hrl _]. exact Hrl. }
    exists (with_queue [] w2). split.
    + apply (fire_granted n Trigger.UNLOCK None w W w2 tr COND_is_normal_hours
               Hqueue Hfrom eq_refl).
      * cbn [check_condition]. unfold is_normal_hours, bind, get, ret.
        cbn [clock W with_queue]. rewrite Hhours. reflexivity.
      * exact Hrun.
      * exact Hq.
    + cbn [state relay relock_timer user_info logout_timer server_logouts status_file
           queue with_queue energized_mode] in *.
      repeat split; assumption.
  - exists w. split; [| reflexivity].
    apply (fire_refused n Trigger.UNLOCK None w tr COND_is_normal_hours
             Hqueue Hfrom eq_refl).
    cbn [check_condition]. unfold is_normal_hours, bind, get, ret.
    cbn [clock with_queue]. rewrite Hhours. reflexivity.
Qed.

(** X13.  The relock timer.  When the relock timer of an UNLOCKED door
    ticks within the normal hours, the door stays unlocked: the timer that
    ticked is cancelled and a new one started, mode and relay untouched.
    When it ticks outside the normal hours the door is locked again,
    provided the power-down wait ends (the machine stops drawing current or
    MAX_POWER_DOWN_TIMEOUT runs out): the machine goes to IDLE, or on to
    BYPASSED when bypass is detected on entering IDLE, with the relay low and
    no relock timer left. *)
Theorem relock_tick_rearms_or_locks (fuel : nat) (w : World) (h : nat) :
  state w = State.UNLOCKED ->
  relock_timer w = Some h ->
  queue w = [] ->
  (normal_hours_at opts (wall_clock env (clock w)) = false -> settles opts env fuel w) ->
  (3 <= fuel)%nat ->
  exists w',
    __relock_timer_tick opts env fuel w = Done tt w' /\
    (if normal_hours_at opts (wall_clock env (clock w)) then
       state w' = State.UNLOCKED /\ relay w' = relay w /\
       relock_timer w' = Some (timer_seq w) /\ In h (cancelled w') /\
       queue w' = []
     else
       state w' = (if bypass_at opts env (clock w') then State.BYPASSED else State.IDLE) /\
       relay w' = false /\ relock_timer w' = None /\ user_info w' = None /\
       status_file w' = String.append (State.name (state w')) newline /\
       queue w' = []).
Proof.
  intros Hstate Htimer Hqueue Hsettles Hfuel.
  assert (Htick : __relock_timer_tick opts env fuel w =
    (if normal_hours_at opts (wall_clock env (clock w)) then __start_relock_timer w
     else fire opts env fuel Trigger.LOGOUT None w)).
  { unfold __relock_timer_tick, is_terminated, status, is_normal_hours.
    unfold bind at 1 2 3 4, get at 1 2 3, ret at 1 2.
    rewrite Hstate, Htimer. cbn [State.eqb negb].
    unfold bind, ret.
    destruct (normal_hours_at opts (wall_clock env (clock w))); reflexivity. }
  rewrite Htick.
  destruct (normal_hours_at opts (wall_clock env (clock w))).
  2: specialize (Hsettles eq_refl).
  - unfold __start_relock_timer, __cancel_relock_timer, new_timer, bind, get, ret, modify.
    rewrite Htimer. eexists. split; [reflexivity |].
    cbn [state relay relock_timer cancelled queue timer_seq with_relock_timer
         with_timer_seq with_cancelled].
    repeat split; try assumption. left. reflexivity.
  - destruct (fire_enters_idle opts env fuel Trigger.LOGOUT None w
                {| source := [State.UNLOCKED; State.IN_USE; State.IN_TRAINING];
                   trigger := Trigger.LOGOUT; dest := State.IDLE; conditions := [] |})
      as (w' & Hrun & Hs & Hr & Hu & Ht & Hrl & Hsl & Hsf & Hq & _);
      try assumption; try reflexivity.
    { rewrite Hstate. reflexivity. }
    exists w'. repeat split; assumption.
Qed.

(** X20.  Badges are ignored outside IDLE, IN_USE and IN_TRAINING.  In
    INITIALIZED, ESTOP, BYPASSED, UNLOCKED and TERMINATED a scanned badge
    returns with everything as it was: the server is not asked, nothing is
    displayed, the relay is not touched. *)
Theorem badge_ignored_where_no_login_is_possible (fuel : nat) (kw : Kwargs) (w : World) :
  In (state w) [State.INITIALIZED; State.ESTOP; State.BYPASSED; State.UNLOCKED;
                State.TERMINATED] ->
  queue w = [] ->
  (2 <= fuel)%nat ->
  handle_badge_code opts env fuel kw w = Done tt w.
Proof.
  intros Hstate Hqueue Hfuel.
  destruct fuel as [| [| n]]; try lia.
  unfold handle_badge_code, bind at 1, get at 1.
  cbn [In] in Hstate.
  destruct Hstate as [Hs | [Hs | [Hs | [Hs | [Hs | []]]]]]; rewrite <- Hs;
    cbn [State.eqb]; apply fire_ignored; try exact Hqueue; rewrite <- Hs; reflexivity.
Qed.

End Scenarios.

(** ** Logins, overrides and training scans *)

Section Sessions.

Variable opts : Opts.
Variable env : Env.

Local Arguments __disable_power : simpl never.
Local Arguments lcd_line : simpl never.
Local Arguments format_02d : simpl never.
Local Arguments String.append : simpl never.
Local Arguments Z.add : simpl never.
Local Arguments Z.sub : simpl never.
Local Arguments Z.mul : simpl never.
Local Arguments Z.div : simpl never.
Local Arguments Z.modulo : simpl never.
Local Arguments Z.ltb : simpl never.
Local Arguments Z.leb : simpl never.
Local Arguments Z.eqb : simpl never.
Local Arguments String.eqb : simpl never.

(** A login that the server grants. *)
Lemma do_login_granted (fuel : nat) (override : bool) (kw : Kwargs) (w : World)
    (info : UserInfo) :
  server_login env kw (clock w + 1000) = LoginOk info ->
  exists w',
    __do_login opts env fuel override kw w = Done true w' /\
    user_info w' = Some info /\
    (state w', queue w', relay w', status_file w', server_logouts w')
    = (state w, queue w, relay w, status_file w, server_logouts w) /\
    timers_view w' = timers_view w /\
    clock w' = clock w + 2000.
Proof.
  intro Hanswer. unfold __do_login.
  unfold_client. cbn. change (1000 * 1) with 1000. rewrite Hanswer.
  eexists. split; [reflexivity |]. cbn.
  repeat split. lia.
Qed.

(** The change of state to IN_USE with its entry action and status update. *)
Lemma in_use_entry (fuel : nat) (w : World) :
  exists w',
    (modify (with_state State.IN_USE) ;;
     on_enter opts env fuel State.IN_USE ;;
     update_status ;;
     ret true) w = Done true w' /\
    state w' = State.IN_USE /\ relay w' = true /\
    logout_timer w' = Some (timer_seq w) /\
    (forall h, logout_timer w = Some h \/ In h (cancelled w) -> In h (cancelled w')) /\
    status_file w' = String.append (State.name State.IN_USE) newline /\
    (user_info w', queue w', server_logouts w', clock w', relock_timer w')
    = (user_info w, queue w, server_logouts w, clock w, relock_timer w).
Proof.
  cbn [on_enter]. unfold_client.
  destruct (logout_timer w) as [h |] eqn:Htimer; run_cases Htimer;
    (eexists; split; [reflexivity |]); cbn;
    repeat split; try reflexivity; try assumption.
  all: intros h0 [Hh0 | Hh0]; try discriminate; try (inversion Hh0; subst; left; reflexivity);
    try (right; exact Hh0); try exact Hh0.
Qed.

(** X14.  A granted login.  In IDLE, a scanned badge that the server
    authorises a second later starts a session: the machine is in IN_USE with
    the relay high, the server's answer held as the user context, a new
    session timer running and the status file naming IN_USE.  The two
    one-second messages are all the time it takes, and the server is told of
    no logout. *)
Theorem granted_login_starts_a_session (fuel : nat) (kw : Kwargs) (w : World)
    (info : UserInfo) :
  state w = State.IDLE ->
  queue w = [] ->
  server_login env kw (clock w + 1000) = LoginOk info ->
  (2 <= fuel)%nat ->
  exists w',
    handle_badge_code opts env fuel kw w = Done tt w' /\
    state w' = State.IN_USE /\ relay w' = true /\
    user_info w' = Some info /\
    logout_timer w' = Some (timer_seq w) /\
    server_logouts w' = server_logouts w /\
    status_file w' = String.append (State.name State.IN_USE) newline /\
    clock w' = clock w + 2000 /\
    queue w' = [].
Proof.
  intros Hstate Hqueue Hanswer Hfuel.
  destruct fuel as [| [| n]]; try lia.
  set (tr := {| source := [State.IDLE]; trigger := Trigger.LOGIN;
                dest := State.IN_USE; conditions := [COND_is_authorized] |}).
  assert (Hfrom : transitions_from Trigger.LOGIN (state w) = [tr])
    by (rewrite Hstate; reflexivity).
  set (W := with_queue [(Trigger.LOGIN, kw)] w).
  destruct (do_login_granted (S n) false kw W info Hanswer)
    as (w1 & Hlogin & Hu1 & Hv1 & Ht1 & Hc1).
  injection Hv1 as Hs1 Hq1 Hr1 Hsf1 Hsl1.
  unfold timers_view in Ht1. injection Ht1 as Hlt1 Hrl1 Hseq1 Hcan1.
  destruct (in_use_entry (S n) w1) as (w2 & Hrun & Hs2 & Hr2 & Ht2 & _ & Hsf2 & Hv2).
  injection Hv2 as Hu2 Hq2 Hsl2 Hc2 _.
  cbn [state queue relay status_file server_logouts logout_timer timer_seq clock W
       with_queue] in *.
  exists (with_queue [] w2). split.
  - unfold handle_badge_code, bind at 1, get at 1. rewrite Hstate. cbn [State.eqb].
    apply (fire_granted opts env n Trigger.LOGIN kw w w1 w2 tr COND_is_authorized
             Hqueue Hfrom eq_refl).
    + exact Hlogin.
    + exact Hrun.
    + congruence.
  - cbn [state relay user_info logout_timer server_logouts status_file clock queue
         with_queue].
    repeat split; congruence.
Qed.

(** The guard of the IN_USE self-transition on another badge that the
    server grants, override allowed. *)
Lemma override_granted_guard (fuel : nat) (kw : Kwargs) (w : World) (u info : UserInfo) :
  user_info w = Some u ->
  kw <> Some (badge_code u) ->
  ALLOW_USER_OVERRIDE opts = true ->
  server_login env kw (clock w + 1000) = LoginOk info ->
  exists w',
    should_extend_current_session opts env fuel kw w = Done true w' /\
    user_info w' = Some info /\
    logout_timer w' = None /\
    (forall h, logout_timer w = Some h -> In h (cancelled w')) /\
    timer_seq w' = timer_seq w /\
    (state w', queue w', server_logouts w') = (state w, queue w, server_logouts w).
Proof.
  intros Huser Hother Hallow Hanswer.
  unfold should_extend_current_session.
  rewrite (bind_Done _ _ _ _ _ (is_current_badge_code_other kw w u Huser Hother)).
  rewrite Hallow.
  destruct (cancel_logout_timer_spec false w)
    as (w1 & Hcancel & Ht1 & Hcan1 & Hs1 & Hu1 & Hq1 & Hseq1 & Hr1 & Hc1).
  assert (Hsl1 : server_logouts w1 = server_logouts w).
  { assert (Hp : preserves server_logouts (__cancel_logout_timer false)) by frame.
    exact (Hp _ _ _ Hcancel). }
  rewrite <- Hc1 in Hanswer.
  destruct (do_login_granted fuel true kw w1 info Hanswer)
    as (w2 & Hlogin & Hu2 & Hv2 & Ht2 & _).
  injection Hv2 as Hs2 Hq2 _ _ Hsl2.
  unfold timers_view in Ht2. injection Ht2 as Hlt2 _ Hseq2 Hcan2.
  exists w2. split.
  - rewrite (bind_Done _ _ _ _ _ Hcancel), (bind_Done _ _ _ _ _ Hlogin). reflexivity.
  - repeat split; try congruence.
    intros h Hh. rewrite Hcan2. exact (Hcan1 h Hh).
Qed.

(** X15.  A granted override.  In IN_USE with override allowed, a scanned
    badge other than the current user's that the server authorises takes the
    session over: the machine stays in IN_USE with the relay high, the
    server's answer replaces the user context, the running session timer is
    cancelled and a new one started.  The server is not told that the user
    who was logged in is logged out. *)
Theorem granted_override_replaces_the_user (fuel : nat) (kw : Kwargs) (w : World)
    (u info : UserInfo) :
  state w = State.IN_USE ->
  queue w = [] ->
  user_info w = Some u ->
  kw <> Some (badge_code u) ->
  ALLOW_USER_OVERRIDE opts = true ->
  server_login env kw (clock w + 1000) = LoginOk info ->
  (2 <= fuel)%nat ->
  exists w',
    handle_badge_code opts env fuel kw w = Done tt w' /\
    state w' = State.IN_USE /\ relay w' = true /\
    user_info w' = Some info /\
    logout_timer w' = Some (timer_seq w) /\
    (forall h, logout_timer w = Some h -> In h (cancelled w')) /\
    server_logouts w' = server_logouts w /\
    queue w' = [].
Proof.
  intros Hstate Hqueue Huser Hother Hallow Hanswer Hfuel.
  destruct fuel as [| [| n]]; try lia.
  set (tr := {| source := [State.IN_USE]; trigger := Trigger.LOGIN;
                dest := State.IN_USE;
                conditions := [COND_should_extend_current_session] |}).
  assert (Hfrom : transitions_from Trigger.LOGIN (state w) = [tr])
    by (rewrite Hstate; reflexivity).
  set (W := with_queue [(Trigger.LOGIN, kw)] w).
  destruct (override_granted_guard (S n) kw W u info Huser Hother Hallow Hanswer)
    as (w1 & Hguard & Hu1 & Ht1 & Hcan1 & Hseq1 & Hv1).
  injection Hv1 as Hs1 Hq1 Hsl1.
  destruct (in_use_entry (S n) w1) as (w2 & Hrun & Hs2 & Hr2 & Ht2 & Hcan2 & _ & Hv2).
  injection Hv2 as Hu2 Hq2 Hsl2 _ _.
  cbn [state queue server_logouts logout_timer timer_seq W with_queue] in *.
  exists (with_queue [] w2). split.
  - unfold handle_badge_code, bind at 1, get at 1. rewrite Hstate. cbn [State.eqb].
    apply (fire_granted opts env n Trigger.LOGIN kw w w1 w2 tr
             COND_should_extend_current_session Hqueue Hfrom eq_refl).
    + exact Hguard.
    + exact Hrun.
    + congruence.
  - cbn [state relay user_info logout_timer cancelled server_logouts queue with_queue].
    repeat split; try congruence.
    intros h Hh. apply (Hcan2 h). right. exact (Hcan1 h Hh).
Qed.

(** *** Training mode *)

(** A badge scanned in training mode. *)
Lemma training_scan_spec (fuel : nat) (kw : Kwargs) (w : World) :
  state w = State.IN_TRAINING ->
  exists w',
    handle_badge_code opts env fuel kw w = Done tt w' /\
    (state w', relay w', queue w', server_logouts w', status_file w')
    = (state w, relay w, queue w, server_logouts w, status_file w) /\
    timers_view w' = timers_view w /\
    user_info w' =
      match user_info w with
      | Some u => Some u
      | None =>
          match server_login env kw (clock w + 1000) with
          | LoginOk info => Some info
          | _ => None
          end
      end.
Proof.
  intro Hstate.
  unfold handle_badge_code, bind at 1, get at 1. rewrite Hstate. cbn [State.eqb].
  destruct (user_info w) as [u |] eqn:Huser.
  - unfold __is_current_badge_code, __register_student, __prompt_for_student_badge,
      __show_attempting_registration, __show_student_registered, __show_invalid_user,
      __show_scan_student_badge, __handle_user_registration_exception,
      __show_registration_failed.
    unfold_display. cbn. rewrite Huser.
    destruct kw as [n |]; cbn;
      [destruct (negb (String.eqb (badge_code u) EmptyString)
                 && String.eqb (badge_code u) n); cbn |];
      rewrite ?Huser; cbn;
      try match goal with
          | |- context [server_register ?e ?a ?b ?c ?d] =>
              destruct (server_register e a b c d)
          end;
      destruct (USE_ALARM opts); cbn;
      (eexists; split; [reflexivity |]); cbn; rewrite ?Huser; repeat split;
      rewrite Hstate; reflexivity.
  - unfold __activate_trainer, __prompt_for_student_badge, __prompt_for_trainer_badge,
      __show_trainer_accepted, __show_scan_student_badge, server_login_call,
      user_info_is_not_None, __update_user_context.
    unfold_display. cbn. change (1000 * 1) with 1000.
    destruct (server_login env kw (clock w + 1000)); cbn;
      destruct (USE_ALARM opts); cbn; rewrite ?Huser; cbn;
      (eexists; split; [reflexivity |]); cbn; rewrite ?Huser; repeat split;
      rewrite Hstate; reflexivity.
Qed.

(** X16.  Badges scanned in training mode.  In IN_TRAINING a scanned badge
    always returns and never leaves the mode: relay, timers, queue, status
    file and the server's logout record are as before.  With no trainer yet,
    the badge becomes the trainer context exactly when the server authorises
    it a second later; with a trainer, the trainer context stays whatever
    badge is scanned. *)
Theorem training_scan_keeps_the_mode (fuel : nat) (kw : Kwargs) (w : World) :
  state w = State.IN_TRAINING ->
  exists w',
    handle_badge_code opts env fuel kw w = Done tt w' /\
    state w' = State.IN_TRAINING /\ relay w' = relay w /\
    logout_timer w' = logout_timer w /\ relock_timer w' = relock_timer w /\
    queue w' = queue w /\ server_logouts w' = server_logouts w /\
    status_file w' = status_file w /\
    user_info w' =
      match user_info w with
      | Some u => Some u
      | None =>
          match server_login env kw (clock w + 1000) with
          | LoginOk info => Some info
          | _ => None
          end
      end.
Proof.
  intro Hstate.
  destruct (training_scan_spec fuel kw w Hstate) as (w' & Hrun & Hv & Ht & Hu).
  injection Hv as Hs Hr Hq Hsl Hsf.
  unfold timers_view in Ht. injection Ht as Hlt Hrl _ _.
  exists w'. repeat split; congruence.
Qed.

(** X17.  Only the logout button ends training.  From a consistent
    IN_TRAINING, a scanned badge, a change of the emergency stop or bypass
    input and a tick of either timer all return with the machine still in
    IN_TRAINING and the relay still low: an emergency stop pressed during
    training is not acted on before the logout button is. *)
Theorem training_ends_only_by_logout (fuel : nat) (h : Happening) (w : World) :
  consistent w ->
  state w = State.IN_TRAINING ->
  h <> LogoutPressed ->
  exists w',
    happen opts env fuel h w = Done tt w' /\
    state w' = State.IN_TRAINING /\ relay w' = false.
Proof.
  intros (Hrelay & _ & Hlt & Hrl & _) Hstate Hh.
  specialize (Hrelay ltac:(congruence)). rewrite Hstate in Hrelay.
  cbn [energized_mode] in Hrelay.
  assert (Hlt0 : logout_timer w = None).
  { destruct (logout_timer w); [| reflexivity].
    specialize (Hlt ltac:(discriminate)). congruence. }
  assert (Hrl0 : relock_timer w = None).
  { destruct (relock_timer w); [| reflexivity].
    specialize (Hrl ltac:(discriminate)). congruence. }
  destruct h; cbn [happen]; try congruence.
  - destruct (training_scan_spec fuel kw w Hstate) as (w' & Hrun & Hv & _).
    injection Hv as Hs Hr _ _ _.
    exists w'. repeat split; congruence.
  - exists w. destruct (USE_ESTOP opts); [| (repeat split; first [reflexivity | assumption])].
    unfold estop_change.
    rewrite (bind_Done _ _ _ _ _ (is_estop_activated_reads opts env w)).
    unfold bind at 1, get at 1. rewrite Hstate. cbn [State.eqb negb].
    destruct (estop_at opts env (clock w)); (repeat split; first [reflexivity | assumption]).
  - exists w. destruct (USE_BYPASS_DETECT opts) eqn:Huse; [| (repeat split; first [reflexivity | assumption])].
    unfold bypass_change.
    rewrite (bind_Done _ _ _ _ _ (is_bypass_detected_reads opts env w)).
    unfold bind at 1, get at 1. rewrite Hstate. cbn [State.eqb].
    destruct (bypass_at opts env (clock w)); (repeat split; first [reflexivity | assumption]).
  - exists w. unfold __logout_timer_tick, is_terminated, status, bind, get, ret.
    rewrite Hstate, Hlt0. cbn [State.eqb negb].
    destruct (user_info w); (repeat split; first [reflexivity | assumption]).
  - exists w. unfold __relock_timer_tick, is_terminated, status, bind, get, ret.
    rewrite Hstate, Hrl0. (repeat split; first [reflexivity | assumption]).
Qed.

(** *** The last five minutes *)

(** X19.  The red LED blinks in the last five minutes.  A tick of the session
    timer that finds time left takes one second off and then looks at what
    is left: below 300 seconds it inverts the red LED, switches green and
    blue off and raises the alarm output when one is in use; from 300
    seconds up it leaves LED and alarm alone.  Mode and relay are untouched
    and the tick takes no time. *)
Theorem tick_blinks_red_below_five_minutes (fuel : nat) (w : World) (u : UserInfo)
    (h : nat) :
  state w <> State.TERMINATED ->
  user_info w = Some u ->
  0 < remaining_seconds u ->
  logout_timer w = Some h ->
  exists w',
    __logout_timer_tick opts env fuel w = Done tt w' /\
    user_info w' = Some (set_remaining_seconds (remaining_seconds u - 1) u) /\
    led w' =
      (if remaining_seconds u - 1 <? 300
       then (negb (fst (fst (led w))), false, false)
       else led w) /\
    alarm w' =
      (if (remaining_seconds u - 1 <? 300) && USE_ALARM opts then true else alarm w) /\
    state w' = state w /\ relay w' = relay w /\ clock w' = clock w.
Proof.
  intros Hlive Huser Hleft Htimer.
  assert (Hle : (remaining_seconds u <=? 0) = false) by (apply Z.leb_gt; exact Hleft).
  pose proof (not_terminated w Hlive) as Hterm.
  unfold_client. unfold logout_timer_interval_seconds. cbn.
  rewrite Hterm, Huser, Htimer. cbn. rewrite Hle.
  destruct (remaining_seconds u - 1 <? 300) eqn:Hlast;
    destruct (USE_ALARM opts) eqn:Halarm;
    run_cases Huser;
    (eexists; split; [reflexivity |]); cbn; repeat split; reflexivity.
Qed.

End Sessions.

(** ** The power-down wait under a timeout *)

Lemma first_false_or_all (P : nat -> bool) (n : nat) :
  (forall i, (i < n)%nat -> P i = true) \/
  exists k : nat, (k < n)%nat /\ (forall i, (i < k)%nat -> P i = true) /\ P k = false.
Proof.
  induction n as [| n [Hall | (k & Hk & Hlt & Hf)]].
  - left. intros i Hi. lia.
  - destruct (P n) eqn:Hp.
    + left. intros i Hi. destruct (Nat.eq_dec i n) as [-> | Hne]; [exact Hp |].
      apply Hall. lia.
    + right. exists n. split; [lia | split; assumption].
  - right. exists k. split; [lia | split; assumption].
Qed.

Lemma first_false_below (P : nat -> bool) (n : nat) :
  P n = false ->
  exists k : nat, (k <= n)%nat /\ (forall i, (i < k)%nat -> P i = true) /\ P k = false.
Proof.
  intro Hn. destruct (first_false_or_all P n) as [Hall | (k & Hk & Hlt & Hf)].
  - exists n. split; [lia | split; assumption].
  - exists k. split; [lia | split; assumption].
Qed.

Section PowerDownBound.

Variable opts : Opts.
Variable env : Env.

(** With a timeout of [t] seconds the wait entered at [t0] stops within
    [2 * t] polls. *)
Lemma timeout_stops (t : Z) (t0 : Z) :
  MAX_POWER_DOWN_TIMEOUT opts = Some t ->
  exists k : nat, (k <= Z.to_nat (2 * t))%nat /\ first_stop opts env t0 k.
Proof.
  intro Htimeout.
  apply (first_false_below
           (fun i => keeps_waiting opts env t0 (t0 + 500 * Z.of_nat i))).
  unfold keeps_waiting, below_timeout. rewrite Htimeout.
  replace (t0 + 500 * Z.of_nat (Z.to_nat (2 * t)) - t0 <? 1000 * t) with false;
    [reflexivity |].
  symmetry. apply Z.ltb_ge. lia.
Qed.

(** So a timeout makes every world one from which the wait returns. *)
Lemma timeout_settles (t : Z) (fuel : nat) (w : World) :
  MAX_POWER_DOWN_TIMEOUT opts = Some t ->
  (Z.to_nat (2 * t) + 2 < fuel)%nat ->
  settles opts env fuel w.
Proof.
  intros Htimeout Hfuel. right.
  destruct (timeout_stops t (clock w) Htimeout) as (k & Hk & Hstop).
  exists k. split; [exact Hstop | lia].
Defined.

(** X18.  The power-down wait under a timeout.  With MAX_POWER_DOWN_TIMEOUT
    set to [t] seconds, [__disable_power] returns whatever the current-sense
    pin reads and however long the machine draws current: the relay is low
    afterwards, nothing of the client's own state has changed, and no more
    time has passed than the timeout and the coast time together. *)
Theorem power_down_ends_within_the_timeout (t : Z) (fuel : nat) (w : World) :
  MAX_POWER_DOWN_TIMEOUT opts = Some t ->
  (Z.to_nat (2 * t) < fuel)%nat ->
  exists w',
    __disable_power opts env fuel w = Done tt w' /\
    relay w' = false /\
    client_part w' = client_part w /\
    clock w <= clock w' <=
      clock w + 1000 * Z.max 0 t + 1000 * Z.of_N (LOGOUT_COAST_TIME opts).
Proof.
  intros Htimeout Hfuel.
  destruct (relay w) eqn:Hrelay.
  - destruct (timeout_stops t (clock w) Htimeout) as (k & Hk & Hstop).
    destruct (disable_power_high opts env k fuel w Hrelay Hstop ltac:(lia))
      as (w' & Hrun & Hc & Hr & Hp).
    exists w'. split; [exact Hrun | split; [exact Hr | split; [exact Hp |]]].
    rewrite Hc.
    assert (Hcoast : 0 <= coast_ms opts k <= 1000 * Z.of_N (LOGOUT_COAST_TIME opts)).
    { unfold coast_ms. destruct k; lia. }
    lia.
  - exists w. rewrite disable_power_low by exact Hrelay.
    split; [reflexivity | split; [exact Hrelay | split; [reflexivity | lia]]].
Qed.

End PowerDownBound.

(** * Concrete runs

    Each property above at a run of the workshop, and the runs on which the
    specification's wording fails. *)

Lemma shop_first_stop (t0 : Z) : first_stop shop_opts shop_env t0 6.
Proof.
  split.
  - intros i Hi. unfold keeps_waiting, below_timeout. cbn [MAX_POWER_DOWN_TIMEOUT shop_opts
      pin_input shop_env andb].
    rewrite andb_true_r. apply Z.ltb_lt. lia.
  - unfold keeps_waiting, below_timeout. cbn [MAX_POWER_DOWN_TIMEOUT shop_opts].
    replace (t0 + 500 * Z.of_nat 6 - t0 <? 1000 * 3) with false
      by (symmetry; apply Z.ltb_ge; lia).
    reflexivity.
Defined.


Lemma disable_power_sequence_witness :
  relay (session_world alice) = true /\
  first_stop shop_opts shop_env (clock (session_world alice)) 6 /\
  exists w',
    __disable_power shop_opts shop_env 7 (session_world alice) = Done tt w' /\
    clock w' = clock (session_world alice) + 500 * Z.of_nat 6 + coast_ms shop_opts 6 /\
    relay w' = false /\
    client_part w' = client_part (session_world alice).
Proof.
  split; [reflexivity |]. split; [apply shop_first_stop |].
  apply (proj1 (proj2 (disable_power_sequence shop_opts shop_env (session_world alice)))
           eq_refl 6%nat 7%nat (shop_first_stop _)).
  lia.
Defined.

Lemma is_normal_hours_window_witness :
  well_formed_time (wall_clock shop_env (clock power_on_world)) /\
  exists b,
    is_normal_hours shop_opts shop_env power_on_world = Done b power_on_world /\
    (b = true <->
     within_window (hhmm_bound (DOOR_NORMAL_HR_START shop_opts))
                   (hhmm_bound (DOOR_NORMAL_HR_END shop_opts))
                   (wall_clock shop_env (clock power_on_world))).
Proof.
  assert (H : well_formed_time (wall_clock shop_env (clock power_on_world)))
    by (unfold well_formed_time; cbn; lia).
  split; [exact H |].
  exact (is_normal_hours_window shop_opts shop_env power_on_world H).
Defined.

Lemma waiting_for_training_window_witness :
  state idle_world <> State.TERMINATED /\
  exists k : nat,
    (k <= 20)%nat /\
    (forall i : nat, (i < k)%nat ->
       pin_input button_held_env PIN_LOGOUT (clock idle_world + 100 * Z.of_nat i) = true) /\
    (k = 20%nat \/
     pin_input button_held_env PIN_LOGOUT (clock idle_world + 100 * Z.of_nat k) = false) /\
    is_waiting_for_training shop_opts button_held_env 21 idle_world
    = Done (pin_input button_held_env PIN_LOGOUT (clock idle_world + 100 * Z.of_nat k))
           (with_clock (clock idle_world + 100 * Z.of_nat k) idle_world).
Proof.
  assert (H : state idle_world <> State.TERMINATED) by (vm_compute; discriminate).
  split; [exact H |].
  apply (proj2 (waiting_for_training_window shop_opts button_held_env 21 idle_world)
           eq_refl H).
  lia.
Defined.

Lemma status_file_follows_mode_witness :
  _trigger shop_opts shop_env 8 Trigger.IDLE None power_on_world = Done true idle_world /\
  status_file idle_world
  = String.append (State.name (state idle_world)) (String (ascii_of_nat 10) EmptyString).
Proof.
  assert (H : _trigger shop_opts shop_env 8 Trigger.IDLE None power_on_world
              = Done true idle_world) by (vm_compute; reflexivity).
  split; [exact H |].
  exact (status_file_follows_mode shop_opts shop_env 8 Trigger.IDLE None
           power_on_world idle_world H).
Defined.

Lemma estop_ignored_when_unlocked_witness :
  is_estop_activated shop_opts estop_pressed_env unlocked_world = Done true unlocked_world /\
  transitions_from Trigger.ESTOP State.UNLOCKED = [] /\
  estop_change shop_opts estop_pressed_env 2 unlocked_world = Done tt unlocked_world.
Proof.
  split; [reflexivity |].
  apply (estop_ignored_when_unlocked shop_opts estop_pressed_env 2 unlocked_world);
    [reflexivity | reflexivity | lia].
Defined.

Lemma same_badge_extends_session_witness :
  (exists w1,
     should_extend_current_session shop_opts shop_env 2 (Some (badge_code alice))
       (session_world alice) = Done true w1 /\
     user_info w1 = Some (extended alice)) /\
  remaining_seconds (extended alice) = 7200 /\
  remaining_extensions (extended alice) = Finite 1.
Proof.
  pose proof (same_badge_extends_session shop_opts shop_env 2 (session_world alice)
                alice 0 eq_refl eq_refl eq_refl eq_refl
                ltac:(discriminate) ltac:(lia)) as H.
  split; [exact (proj1 H) | split; reflexivity].
Defined.

Lemma failed_override_keeps_session_witness :
  server_login shop_env (Some "B2"%string) (clock (session_world alice) + 1000)
  = LoginUnauthorized /\
  exists w' h',
    handle_badge_code shop_opts shop_env 2 (Some "B2"%string) (session_world alice)
    = Done tt w' /\
    state w' = State.IN_USE /\
    user_info w' = Some alice /\
    logout_timer w' = Some h' /\ (timer_seq (session_world alice) <= h')%nat /\
    In O (cancelled w') /\
    relay w' = true.
Proof.
  split; [reflexivity |].
  exact (proj2 (failed_override_keeps_session shop_opts shop_env 2 (Some "B2"%string)
                  (session_world alice) alice 0 eq_refl eq_refl eq_refl eq_refl
                  ltac:(discriminate) eq_refl (or_introl eq_refl) ltac:(lia))).
Defined.

Lemma unauthorized_login_witness :
  (exists w1,
     is_authorized shop_opts shop_env 2 (Some "B2"%string) idle_world = Done false w1 /\
     user_info w1 = None /\ state w1 = State.IDLE) /\
  (exists w1,
     should_extend_current_session shop_opts shop_env 2 (Some "B2"%string)
       (session_world alice) = Done true w1 /\
     user_info w1 = Some alice /\ state w1 = State.IN_USE).
Proof.
  split.
  - apply (proj1 (unauthorized_login shop_opts shop_env) 2%nat (Some "B2"%string) idle_world);
      [vm_compute; reflexivity | vm_compute; reflexivity | vm_compute; reflexivity
      | vm_compute; reflexivity | lia].
  - apply (proj2 (unauthorized_login shop_opts shop_env) 2%nat (Some "B2"%string)
             (session_world alice) alice);
      [reflexivity | reflexivity | reflexivity | discriminate | reflexivity
      | reflexivity | lia].
Defined.

Lemma session_expires_one_tick_later_witness :
  first_stop shop_opts shop_env
    (clock (session_world two_seconds_left) + 1000 * (Z.of_nat 2 + 1)) 6 /\
  (exists wN,
     session_ticks shop_opts shop_env 9 2 (session_world two_seconds_left) = Done tt wN /\
     state wN = State.IN_USE /\ relay wN = relay (session_world two_seconds_left) /\
     user_info wN = Some (set_remaining_seconds 0 two_seconds_left)) /\
  (exists w',
     session_ticks shop_opts shop_env 9 3 (session_world two_seconds_left) = Done tt w' /\
     relay w' = false /\ user_info w' = None /\
     state w' = (if bypass_at shop_opts shop_env (clock w')
                 then State.BYPASSED else State.IDLE)).
Proof.
  pose proof (session_expires_one_tick_later shop_opts shop_env 9 2 6
                (session_world two_seconds_left) two_seconds_left 0
                eq_refl eq_refl eq_refl eq_refl eq_refl) as [Hcount Hexpire].
  split; [apply shop_first_stop | split; [exact Hcount |]].
  apply Hexpire; [apply shop_first_stop | lia].
Defined.

(** C3 as stated fails: with one second left, one tick leaves the machine in
    IN_USE with the relay on; no amount of fuel makes it IDLE. *)
Lemma session_expires_after_N_ticks_counterexample :
  state (session_world one_second_left) = State.IN_USE /\
  user_info (session_world one_second_left) = Some one_second_left /\
  remaining_seconds one_second_left = 1 /\
  ~ idle_after_ticks shop_opts shop_env 1 (session_world one_second_left).
Proof.
  split; [reflexivity | split; [reflexivity | split; [reflexivity |]]].
  intros (fuel & w' & Hrun & Hstate & _).
  vm_compute in Hrun. inversion Hrun; subst. discriminate Hstate.
Qed.

(** C4 as stated fails on the override: the server answers unauthorized, yet
    the guard answers true and the user context is still Alice's. *)
Lemma unauthorized_override_counterexample :
  server_login shop_env (Some "B2"%string) (clock (session_world alice) + 1000)
  = LoginUnauthorized /\
  ~ override_denied_as_stated shop_opts shop_env 2 (Some "B2"%string) (session_world alice) /\
  exists w',
    should_extend_current_session shop_opts shop_env 2 (Some "B2"%string)
      (session_world alice) = Done true w' /\
    user_info w' = Some alice.
Proof.
  split; [reflexivity | split].
  - intros (w' & Hguard & _). vm_compute in Hguard. discriminate Hguard.
  - eexists. split; vm_compute; reflexivity.
Qed.

(** C5 as stated fails on the empty badge code: it equals the current user's
    badge code, extensions remain, and the guard answers false. *)
Lemma same_badge_empty_code_counterexample :
  user_info (session_world blank_badge_user) = Some blank_badge_user /\
  remaining_extensions blank_badge_user = Finite 2 /\
  ~ same_badge_as_stated strict_opts shop_env 2 (session_world blank_badge_user)
      blank_badge_user /\
  should_extend_current_session strict_opts shop_env 2
    (Some (badge_code blank_badge_user)) (session_world blank_badge_user)
  = Done false (session_world blank_badge_user).
Proof.
  split; [reflexivity | split; [reflexivity | split]].
  - intros (w' & Hguard & _). vm_compute in Hguard. discriminate Hguard.
  - vm_compute. reflexivity.
Qed.

(** ** Runs of the workshop for the further properties *)

Lemma session_world_accounted : timers_accounted (session_world alice).
Proof.
  unfold timers_accounted. cbn [logout_timer relock_timer timer_seq cancelled session_world].
  split; [| split; [| split]].
  - intros h H. injection H as <-. split; [lia | split; [intros [] | discriminate]].
  - intros h H. discriminate.
  - intros h [].
  - intros h H. left. f_equal. lia.
Defined.


Lemma resting_world_consistent (s : State.t) :
  energized_mode s = false -> consistent (resting_world s).
Proof.
  intro Hs. unfold consistent.
  cbn [state relay user_info logout_timer relock_timer status_file resting_world].
  split; [| split; [| split; [| split]]].
  - intros _. symmetry. exact Hs.
  - intros H. exfalso. apply H. reflexivity.
  - intros H. exfalso. apply H. reflexivity.
  - intros H. exfalso. apply H. reflexivity.
  - reflexivity.
Defined.


Lemma timers_stay_accounted_witness :
  timers_accounted (session_world alice) /\
  timers_accounted (after shop_opts shop_env LogoutPressed (session_world alice)).
Proof.
  split; [exact session_world_accounted |].
  apply (timers_stay_accounted shop_opts shop_env 10 LogoutPressed (session_world alice)).
  - exact session_world_accounted.
  - vm_compute. reflexivity.
Defined.



Lemma estop_release_leaves_estop_witness :
  exists w',
    estop_change shop_opts shop_env 10 (resting_world State.ESTOP) = Done tt w' /\
    state w' =
      (if bypass_at shop_opts shop_env (clock (resting_world State.ESTOP) + 500)
          || bypass_at shop_opts shop_env (clock (resting_world State.ESTOP) + 1000)
       then State.BYPASSED else State.IDLE) /\
    relay w' = false /\
    user_info w' = None /\ logout_timer w' = None /\ relock_timer w' = None /\
    status_file w' = String.append (State.name (state w')) newline /\
    queue w' = [].
Proof.
  apply (estop_release_leaves_estop shop_opts shop_env 10 (resting_world State.ESTOP));
    [reflexivity | reflexivity | reflexivity | reflexivity | lia].
Defined.

Lemma bypass_change_follows_the_input_witness :
  exists w',
    bypass_change shop_opts shop_env 10 (resting_world State.BYPASSED) = Done tt w' /\
    state w' = State.IDLE /\ relay w' = false /\ user_info w' = None /\
    status_file w' = String.append (State.name (state w')) newline /\
    queue w' = [].
Proof.
  exact (bypass_change_follows_the_input shop_opts shop_env 10
           (resting_world State.BYPASSED)
           (resting_world_consistent State.BYPASSED eq_refl) eq_refl ltac:(lia)).
Defined.

Lemma run_starts_in_the_mode_the_inputs_call_for_witness :
  exists w',
    run_start shop_opts estop_pressed_env 10 power_on_world = Done tt w' /\
    state w' = State.ESTOP /\
    relay w' = false /\
    user_info w' = None /\ logout_timer w' = None /\ relock_timer w' = None /\
    status_file w' = String.append (State.name (state w')) newline /\
    queue w' = [].
Proof.
  exact (run_starts_in_the_mode_the_inputs_call_for shop_opts estop_pressed_env 10
           power_on_world eq_refl eq_refl eq_refl ltac:(lia)).
Defined.


Lemma terminated_is_final_witness :
  happen shop_opts shop_env 10 (BadgeScanned (Some "A1"%string))
    (resting_world State.TERMINATED)
  = Done tt (resting_world State.TERMINATED).
Proof.
  exact (terminated_is_final shop_opts shop_env 10 (BadgeScanned (Some "A1"%string))
           (resting_world State.TERMINATED) eq_refl eq_refl ltac:(lia)).
Defined.

Lemma logout_button_ends_training_witness :
  exists w',
    logout_detected shop_opts estop_pressed_env 10 (resting_world State.IN_TRAINING)
    = Done tt w' /\
    state w' = State.ESTOP /\
    relay w' = false /\
    user_info w' = None /\ logout_timer w' = None /\ relock_timer w' = None /\
    server_logouts w' = notified (resting_world State.IN_TRAINING) /\
    status_file w' = String.append (State.name (state w')) newline /\
    queue w' = [].
Proof.
  exact (logout_button_ends_training shop_opts estop_pressed_env 10
           (resting_world State.IN_TRAINING) eq_refl eq_refl eq_refl ltac:(lia)).
Defined.


Lemma logout_button_unlocks_the_door_witness :
  normal_hours_at door_opts (wall_clock shop_env (clock (session_world alice))) = true /\
  exists w',
    logout_detected door_opts shop_env 10 (session_world alice) = Done tt w' /\
    state w' = State.UNLOCKED /\ relay w' = true /\
    relock_timer w' = Some (timer_seq (session_world alice)) /\
    user_info w' = None /\ logout_timer w' = None /\
    server_logouts w' = [badge_code alice] /\
    status_file w' = String.append (State.name State.UNLOCKED) newline /\
    queue w' = [].
Proof.
  split; [reflexivity |].
  exact (logout_button_unlocks_the_door door_opts shop_env 10 (session_world alice)
           eq_refl eq_refl (or_intror eq_refl) eq_refl ltac:(lia)).
Defined.

Lemma relock_tick_rearms_or_locks_witness :
  normal_hours_at shop_opts (wall_clock night_env (clock unlocked_world)) = false /\
  relay unlocked_world = true /\
  exists w',
    __relock_timer_tick shop_opts night_env 10 unlocked_world = Done tt w' /\
    state w' = (if bypass_at shop_opts night_env (clock w') then State.BYPASSED
                else State.IDLE) /\
    relay w' = false /\ relock_timer w' = None /\ user_info w' = None /\
    status_file w' = String.append (State.name (state w')) newline /\
    queue w' = [].
Proof.
  split; [reflexivity | split; [reflexivity |]].
  apply (relock_tick_rearms_or_locks shop_opts night_env 10 unlocked_world O).
  - reflexivity.
  - reflexivity.
  - reflexivity.
  - intros _. apply (timeout_settles shop_opts night_env 3); [reflexivity | cbn; lia].
  - lia.
Defined.

Lemma granted_login_starts_a_session_witness :
  exists w',
    handle_badge_code shop_opts shop_env 10 (Some "A1"%string) (resting_world State.IDLE)
    = Done tt w' /\
    state w' = State.IN_USE /\ relay w' = true /\
    user_info w' = Some alice /\
    logout_timer w' = Some (timer_seq (resting_world State.IDLE)) /\
    server_logouts w' = server_logouts (resting_world State.IDLE) /\
    status_file w' = String.append (State.name State.IN_USE) newline /\
    clock w' = clock (resting_world State.IDLE) + 2000 /\
    queue w' = [].
Proof.
  exact (granted_login_starts_a_session shop_opts shop_env 10 (Some "A1"%string)
           (resting_world State.IDLE) alice eq_refl eq_refl eq_refl ltac:(lia)).
Defined.

Lemma granted_override_replaces_the_user_witness :
  exists w',
    handle_badge_code shop_opts shop_env 10 (Some "A1"%string)
      (session_world blank_badge_user) = Done tt w' /\
    state w' = State.IN_USE /\ relay w' = true /\
    user_info w' = Some alice /\
    logout_timer w' = Some (timer_seq (session_world blank_badge_user)) /\
    (forall h, logout_timer (session_world blank_badge_user) = Some h ->
               In h (cancelled w')) /\
    server_logouts w' = server_logouts (session_world blank_badge_user) /\
    queue w' = [].
Proof.
  exact (granted_override_replaces_the_user shop_opts shop_env 10 (Some "A1"%string)
           (session_world blank_badge_user) blank_badge_user alice
           eq_refl eq_refl eq_refl ltac:(discriminate) eq_refl eq_refl ltac:(lia)).
Defined.

Lemma training_scan_keeps_the_mode_witness :
  exists w',
    handle_badge_code shop_opts shop_env 10 (Some "A1"%string)
      (resting_world State.IN_TRAINING) = Done tt w' /\
    state w' = State.IN_TRAINING /\
    relay w' = relay (resting_world State.IN_TRAINING) /\
    logout_timer w' = logout_timer (resting_world State.IN_TRAINING) /\
    relock_timer w' = relock_timer (resting_world State.IN_TRAINING) /\
    queue w' = queue (resting_world State.IN_TRAINING) /\
    server_logouts w' = server_logouts (resting_world State.IN_TRAINING) /\
    status_file w' = status_file (resting_world State.IN_TRAINING) /\
    user_info w' = Some alice.
Proof.
  exact (training_scan_keeps_the_mode shop_opts shop_env 10 (Some "A1"%string)
           (resting_world State.IN_TRAINING) eq_refl).
Defined.

Lemma training_ends_only_by_logout_witness :
  exists w',
    happen shop_opts estop_pressed_env 10 EstopChanged (resting_world State.IN_TRAINING)
    = Done tt w' /\
    state w' = State.IN_TRAINING /\ relay w' = false.
Proof.
  exact (training_ends_only_by_logout shop_opts estop_pressed_env 10 EstopChanged
           (resting_world State.IN_TRAINING)
           (resting_world_consistent State.IN_TRAINING eq_refl) eq_refl
           ltac:(discriminate)).
Defined.

Lemma power_down_ends_within_the_timeout_witness :
  exists w',
    __disable_power shop_opts shop_env 7 (session_world alice) = Done tt w' /\
    relay w' = false /\
    client_part w' = client_part (session_world alice) /\
    clock (session_world alice) <= clock w' <=
      clock (session_world alice) + 1000 * Z.max 0 3
      + 1000 * Z.of_N (LOGOUT_COAST_TIME shop_opts).
Proof.
  apply (power_down_ends_within_the_timeout shop_opts shop_env 3 7 (session_world alice)).
  - reflexivity.
  - cbn. lia.
Defined.

Lemma tick_blinks_red_below_five_minutes_witness :
  exists w',
    __logout_timer_tick shop_opts shop_env 10 (session_world two_seconds_left)
    = Done tt w' /\
    user_info w'
    = Some (set_remaining_seconds (remaining_seconds two_seconds_left - 1)
              two_seconds_left) /\
    led w' = (true, false, false) /\
    alarm w' = true /\
    state w' = state (session_world two_seconds_left) /\
    relay w' = relay (session_world two_seconds_left) /\
    clock w' = clock (session_world two_seconds_left).
Proof.
  exact (tick_blinks_red_below_five_minutes shop_opts shop_env 10
           (session_world two_seconds_left) two_seconds_left O
           ltac:(discriminate) eq_refl ltac:(reflexivity) eq_refl).
Defined.

Lemma badge_ignored_where_no_login_is_possible_witness :
  handle_badge_code shop_opts shop_env 10 (Some "A1"%string) unlocked_world
  = Done tt unlocked_world.
Proof.
  apply (badge_ignored_where_no_login_is_possible shop_opts shop_env 10
           (Some "A1"%string) unlocked_world).
  - right. right. right. left. reflexivity.
  - reflexivity.
  - lia.
Defined.
